(** * nodetool-registry: release orchestration and registry index builder

    A shallow embedding of [release/release.py], [scripts/registry_utils.py]
    and [scripts/build_index.py], and the properties of the release polling
    loop, the version patchers and the index generation pass.  The manifest
    of [scripts/generate_metadata.py] and the update of a package in
    [scripts/poll_external_releases.py] follow, with the getters of the
    registry.

    Conventions of the embedding.
    - A Python [str] is a [string]; a character is a Unicode code point below
      256 (the [ascii] type read as Latin-1).  File contents are the decoded
      text that [Path.read_text] returns.
    - Python integers are [Z]; positions inside the regular expression engine
      are [nat].
    - Effects (printing, subprocesses, the file system, [input], [sleep],
      [sys.exit], exceptions) are threaded through the monad [M] over an
      abstract world [W] with a [Platform] interface; every effect that is
      visible from outside is appended to an event log. *)

From stdpp Require Import gmap strings list.
From Equations Require Import Equations.
From Stdlib Require Import ZArith Lia Ascii Permutation DecimalString.

#[local] Open Scope Z_scope.

(** ** Python strings *)

Module Str.

Definition chars (s : string) : list ascii := String.list_ascii_of_string s.
Definition of_chars (l : list ascii) : string := String.string_of_list_ascii l.

Definition len (s : string) : Z := Z.of_nat (String.length s).

(** [s.startswith(p)] *)
Definition startswith (s p : string) : bool := String.prefix p s.

Fixpoint is_prefix (p s : list ascii) : bool :=
  match p, s with
  | [], _ => true
  | a :: p', b :: s' => if Ascii.eqb a b then is_prefix p' s' else false
  | _ :: _, [] => false
  end.

(** [s.endswith(p)] *)
Definition endswith (s p : string) : bool :=
  is_prefix (rev (chars p)) (rev (chars s)).

(** Offset of the first occurrence of [p] in [s], as [str.find] counts it. *)
Fixpoint find_chars (p s : list ascii) : option nat :=
  if is_prefix p s then Some 0%nat
  else match s with
       | [] => None
       | _ :: s' => S <$> find_chars p s'
       end.

(** [p in s] *)
Definition contains (p s : string) : bool :=
  bool_decide (is_Some (find_chars (chars p) (chars s))).

(** [s.find(p, start)], for [0 <= start]: [-1] when there is no occurrence. *)
Definition find (s p : string) (start : Z) : Z :=
  let k := Z.to_nat start in
  if bool_decide (k ≤ String.length s)%nat then
    match find_chars (chars p) (drop k (chars s)) with
    | Some i => start + Z.of_nat i
    | None => -1
    end
  else -1.

(** Offset of the last occurrence of [p] in [s]. *)
Fixpoint rfind_chars (p s : list ascii) : option nat :=
  match s with
  | [] => if is_prefix p [] then Some 0%nat else None
  | _ :: s' =>
      match rfind_chars p s' with
      | Some i => Some (S i)
      | None => if is_prefix p s then Some 0%nat else None
      end
  end.

(** [s.rfind(p, 0, stop)], for [0 <= stop]: the occurrence must lie inside
    [s[0:stop]]. *)
Definition rfind (s p : string) (stop : Z) : Z :=
  match rfind_chars (chars p) (take (Z.to_nat stop) (chars s)) with
  | Some i => Z.of_nat i
  | None => -1
  end.

(** [s[a:b]] for [0 <= a] and [0 <= b]. *)
Definition slice (s : string) (a b : Z) : string :=
  of_chars (take (Z.to_nat b - Z.to_nat a) (drop (Z.to_nat a) (chars s))).

(** [s[a:]] for [0 <= a]. *)
Definition slice_from (s : string) (a : Z) : string :=
  of_chars (drop (Z.to_nat a) (chars s)).

(** [s[-n:]] for [0 < n]. *)
Definition last_n (s : string) (n : nat) : string :=
  of_chars (drop (String.length s - n) (chars s)).

(** [sep.join(l)] *)
Definition join (sep : string) (l : list string) : string :=
  String.concat sep l.

(** [s.split(sep)] for a one-character separator. *)
Fixpoint split_chars (sep : ascii) (s : list ascii) : list (list ascii) :=
  match s with
  | [] => [[]]
  | c :: s' =>
      if Ascii.eqb c sep then [] :: split_chars sep s'
      else match split_chars sep s' with
           | w :: ws => (c :: w) :: ws
           | [] => [[c]]
           end
  end.

Definition split (sep : ascii) (s : string) : list string :=
  of_chars <$> split_chars sep (chars s).

(** [s.lstrip(c)] for a one-character strip set. *)
Fixpoint lstrip_char (c : ascii) (s : string) : string :=
  match s with
  | String a s' => if Ascii.eqb a c then lstrip_char c s' else s
  | EmptyString => s
  end.

(** [str.isspace] on one code point below 256: the ASCII white space
    [\t \n \v \f \r], the separators [\x1c]-[\x1f], the blank, and the
    Latin-1 controls [\x85] and [\xa0]. *)
Definition isspace (c : ascii) : bool :=
  let n := nat_of_ascii c in
  ((9 <=? n) && (n <=? 13) || (28 <=? n) && (n <=? 32)
   || (n =? 133) || (n =? 160))%nat.

Fixpoint lstrip_ws (l : list ascii) : list ascii :=
  match l with
  | c :: l' => if isspace c then lstrip_ws l' else l
  | [] => []
  end.

(** [s.strip()] *)
Definition strip (s : string) : string :=
  of_chars (rev (lstrip_ws (rev (lstrip_ws (chars s))))).

(** [str.lower] on one code point below 256: [A]-[Z] and the Latin-1
    capitals [\xc0]-[\xde] (but not the sign [\xd7]) move up by 32. *)
Definition lower_char (c : ascii) : ascii :=
  let n := nat_of_ascii c in
  if ((65 <=? n) && (n <=? 90)
      || (192 <=? n) && (n <=? 222) && negb (n =? 215))%nat
  then ascii_of_nat (n + 32) else c.

(** [s.lower()] *)
Definition lower (s : string) : string := of_chars (lower_char <$> chars s).

(** [s.replace(old, new)] for a non-empty [old]: the occurrences are taken
    from the left and do not overlap.  [skip] counts the characters of the
    occurrence in progress that are still to be dropped. *)
Fixpoint replace_chars (old new : list ascii) (skip : nat) (s : list ascii)
  : list ascii :=
  match s with
  | [] => []
  | c :: s' =>
      match skip with
      | S k => replace_chars old new k s'
      | O =>
          if is_prefix old s
          then new ++ replace_chars old new (length old - 1) s'
          else c :: replace_chars old new 0 s'
      end
  end.

Definition replace (s old new : string) : string :=
  of_chars (replace_chars (chars old) (chars new) 0 (chars s)).

(** [str(n)] for an integer. *)
Definition of_Z (n : Z) : string :=
  NilZero.string_of_int (Z.to_int n).

(** [str(b)] for a Boolean. *)
Definition of_bool (b : bool) : string := if b then "True" else "False".

(** [bool(s)] *)
Definition truthy (s : string) : bool :=
  match s with EmptyString => false | _ => true end.
End Str.

Infix "=s?" := String.eqb (at level 70, no associativity).

(** The characters that a Rocq string literal cannot hold directly. *)
Definition dq_char : ascii := "034"%char.
Definition nl_char : ascii := "010"%char.
Definition bs_char : ascii := "092"%char.
Definition dq : string := String dq_char EmptyString.
Definition nl : string := String nl_char EmptyString.

(** ** Regular expressions

    The patterns of [release.py] are sequences of literals, anchors and
    quantified character classes inside numbered groups; they have no
    alternation and no quantified group.  [match_here] is the backtracking
    matcher of Python's [re] on such sequences: a greedy quantifier takes the
    longest run first and gives characters back one at a time, a lazy one takes
    the shortest run first. *)

Module Re.

Inductive item :=
| Lit (s : string)
| Rep (greedy : bool) (lo : nat) (cls : ascii -> bool)
| Bol (multiline : bool)
| Eol (multiline : bool)
| Open (g : nat)
| Close (g : nat).

Definition regex := list item.

(** Spans of the groups that took part in a match. *)
Definition spans := list (nat * (nat * nat)).

Record rmatch := { m_start : nat; m_end : nat; m_groups : spans }.

Fixpoint assoc {A : Type} (g : nat) (l : list (nat * A)) : option A :=
  match l with
  | [] => None
  | (g', a) :: l' => if (g' =? g)%nat then Some a else assoc g l'
  end.

(** [^]: the start of the text and, in MULTILINE mode, after a line feed. *)
Definition at_bol (multiline : bool) (prev : option ascii) : bool :=
  match prev with
  | None => true
  | Some c => multiline && Ascii.eqb c nl_char
  end.

(** [$]: the end of the text and just before a final line feed; in
    MULTILINE mode before every line feed. *)
Definition at_eol (multiline : bool) (s : list ascii) : bool :=
  match s with
  | [] => true
  | c :: rest =>
      Ascii.eqb c nl_char
      && (multiline || match rest with [] => true | _ => false end)
  end.

Section Quantifier.
Context {R : Type}.
Variable cls : ascii -> bool.
Variable lo : nat.
Variable k : option ascii -> nat -> list ascii -> option R.

Fixpoint rep_greedy (n : nat) (prev : option ascii) (pos : nat)
  (s : list ascii) : option R :=
  match s with
  | c :: s' =>
      if cls c then
        match rep_greedy (S n) (Some c) (S pos) s' with
        | Some r => Some r
        | None => if (lo <=? n)%nat then k prev pos s else None
        end
      else if (lo <=? n)%nat then k prev pos s else None
  | [] => if (lo <=? n)%nat then k prev pos s else None
  end.

Fixpoint rep_lazy (n : nat) (prev : option ascii) (pos : nat)
  (s : list ascii) : option R :=
  match (if (lo <=? n)%nat then k prev pos s else None) with
  | Some r => Some r
  | None =>
      match s with
      | c :: s' =>
          if cls c then rep_lazy (S n) (Some c) (S pos) s' else None
      | [] => None
      end
  end.
End Quantifier.

Fixpoint match_here (r : regex) (opens : list (nat * nat)) (groups : spans)
  (prev : option ascii) (pos : nat) (s : list ascii) : option (nat * spans) :=
  match r with
  | [] => Some (pos, groups)
  | Lit l :: r' =>
      let p := Str.chars l in
      if Str.is_prefix p s
      then match_here r' opens groups
             (match last p with Some c => Some c | None => prev end)
             (pos + length p) (drop (length p) s)
      else None
  | Rep greedy lo cls :: r' =>
      (if greedy then rep_greedy else rep_lazy)
        cls lo (match_here r' opens groups) 0%nat prev pos s
  | Bol ml :: r' =>
      if at_bol ml prev then match_here r' opens groups prev pos s else None
  | Eol ml :: r' =>
      if at_eol ml s then match_here r' opens groups prev pos s else None
  | Open g :: r' => match_here r' ((g, pos) :: opens) groups prev pos s
  | Close g :: r' =>
      match assoc g opens with
      | Some st => match_here r' opens ((g, (st, pos)) :: groups) prev pos s
      | None => None
      end
  end.

(** The non-overlapping matches from the left, as [finditer] yields them.
    [skip] counts the characters of the match in progress that are still to
    be passed over; after an empty match the search resumes one character
    further. *)
Fixpoint scan (r : regex) (skip : nat) (prev : option ascii) (pos : nat)
  (s : list ascii) : list rmatch :=
  match skip with
  | S k =>
      match s with
      | [] => []
      | c :: s' => scan r k (Some c) (S pos) s'
      end
  | O =>
      match match_here r [] [] prev pos s with
      | Some (e, gs) =>
          {| m_start := pos; m_end := e; m_groups := gs |}
          :: match s with
             | [] => []
             | c :: s' => scan r (e - pos - 1) (Some c) (S pos) s'
             end
      | None =>
          match s with
          | [] => []
          | c :: s' => scan r 0 (Some c) (S pos) s'
          end
      end
  end.

Definition finditer (r : regex) (text : string) : list rmatch :=
  scan r 0 None 0 (Str.chars text).

(** [re.search(r, text)] as a truth value. *)
Definition search (r : regex) (text : string) : bool :=
  match finditer r text with [] => false | _ => true end.

(** [m.group(0)] and [m.group(g)]. *)
Definition group0 (text : string) (m : rmatch) : string :=
  Str.slice text (Z.of_nat (m_start m)) (Z.of_nat (m_end m)).

Definition group (text : string) (m : rmatch) (g : nat) : option string :=
  match g with
  | O => Some (group0 text m)
  | _ => (fun '(a, b) => Str.slice text (Z.of_nat a) (Z.of_nat b))
           <$> assoc g (m_groups m)
  end.

(** The text with every match of [ms] replaced by what [repl] returns;
    [s] is the text from offset [pos] on. *)
Fixpoint splice (repl : rmatch -> string) (ms : list rmatch) (pos : nat)
  (s : list ascii) : list ascii :=
  match ms with
  | [] => s
  | m :: ms' =>
      take (m_start m - pos) s ++ Str.chars (repl m)
        ++ splice repl ms' (m_end m) (drop (m_end m - pos) s)
  end.

(** [pattern.sub(repl, text, count)] with a function for [repl];
    [count = 0] replaces every match.  The second component is the number
    of replacements made, as [subn] returns it. *)
Definition subn_with (r : regex) (repl : rmatch -> string) (text : string)
  (count : nat) : string * Z :=
  let all := finditer r text in
  let ms := match count with O => all | _ => take count all end in
  (Str.of_chars (splice repl ms 0 (Str.chars text)), Z.of_nat (length ms)).

(** [pattern.groups] *)
Fixpoint ngroups (r : regex) : nat :=
  match r with
  | [] => 0
  | Open _ :: r' => S (ngroups r')
  | _ :: r' => ngroups r'
  end.

(** *** Replacement templates

    [parse_template] follows [re._parser.parse_template]: [\g<n>] and
    [\n] are group references, [\0], [\0o], [\0oo] and [\ooo] are octal
    escapes, [\a \b \f \n \r \t \v \\] are character escapes, a
    backslash before any other ASCII letter is an error, and a backslash
    before anything else stands for itself.  [None] is [re.error]. *)

Inductive tpl_item := TLit (c : ascii) | TGroup (g : nat).

Definition is_digit (c : ascii) : bool :=
  let n := nat_of_ascii c in ((48 <=? n) && (n <=? 57))%nat.
Definition is_octdigit (c : ascii) : bool :=
  let n := nat_of_ascii c in ((48 <=? n) && (n <=? 55))%nat.
Definition is_ascii_letter (c : ascii) : bool :=
  let n := nat_of_ascii c in
  ((65 <=? n) && (n <=? 90) || (97 <=? n) && (n <=? 122))%nat.
Definition digit_val (c : ascii) : nat := nat_of_ascii c - 48.

Definition decimal (l : list ascii) : nat :=
  fold_left (fun acc d => (acc * 10 + digit_val d)%nat) l 0%nat.

Definition escape_char (c : ascii) : option ascii :=
  if Ascii.eqb c "a" then Some "007"%char
  else if Ascii.eqb c "b" then Some "008"%char
  else if Ascii.eqb c "f" then Some "012"%char
  else if Ascii.eqb c "n" then Some "010"%char
  else if Ascii.eqb c "r" then Some "013"%char
  else if Ascii.eqb c "t" then Some "009"%char
  else if Ascii.eqb c "v" then Some "011"%char
  else if Ascii.eqb c bs_char then Some bs_char
  else None.

Definition group_ref (ng g consumed : nat) : option (list tpl_item * nat) :=
  if (g <=? ng)%nat then Some ([TGroup g], consumed) else None.

(** What the escape that starts just before [rest] stands for, and how many
    characters of [rest] it takes. *)
Definition escape_at (ng : nat) (rest : list ascii)
  : option (list tpl_item * nat) :=
  match rest with
  | [] => None
  | c :: rest1 =>
      if Ascii.eqb c "g" then
        match rest1 with
        | lt :: rest2 =>
            if Ascii.eqb lt "<" then
              match Str.find_chars [">"%char] rest2 with
              | Some n =>
                  let name := take n rest2 in
                  if (0 <? n)%nat && forallb is_digit name
                  then group_ref ng (decimal name) (n + 3)
                  else None
              | None => None
              end
            else None
        | [] => None
        end
      else if Ascii.eqb c "0" then
        match rest1 with
        | d1 :: rest2 =>
            if is_octdigit d1 then
              match rest2 with
              | d2 :: _ =>
                  if is_octdigit d2
                  then Some ([TLit (ascii_of_nat
                                ((digit_val d1 * 8 + digit_val d2) mod 256))], 3%nat)
                  else Some ([TLit (ascii_of_nat (digit_val d1))], 2%nat)
              | [] => Some ([TLit (ascii_of_nat (digit_val d1))], 2%nat)
              end
            else Some ([TLit (ascii_of_nat 0)], 1%nat)
        | [] => Some ([TLit (ascii_of_nat 0)], 1%nat)
        end
      else if is_digit c then
        match rest1 with
        | d1 :: rest2 =>
            if is_digit d1 then
              match rest2 with
              | d2 :: _ =>
                  if is_octdigit c && is_octdigit d1 && is_octdigit d2 then
                    let v := (digit_val c * 64 + digit_val d1 * 8
                              + digit_val d2)%nat in
                    if (v <=? 255)%nat
                    then Some ([TLit (ascii_of_nat v)], 3%nat)
                    else None
                  else group_ref ng (digit_val c * 10 + digit_val d1) 2
              | [] => group_ref ng (digit_val c * 10 + digit_val d1) 2
              end
            else group_ref ng (digit_val c) 1
        | [] => group_ref ng (digit_val c) 1
        end
      else
        match escape_char c with
        | Some e => Some ([TLit e], 1%nat)
        | None =>
            if is_ascii_letter c then None
            else Some ([TLit bs_char; TLit c], 1%nat)
        end
  end.

Fixpoint parse_template (ng : nat) (skip : nat) (t : list ascii)
  : option (list tpl_item) :=
  match t with
  | [] => Some []
  | c :: t' =>
      match skip with
      | S k => parse_template ng k t'
      | O =>
          if Ascii.eqb c bs_char then
            match escape_at ng t' with
            | Some (items, n) =>
                (fun rest => items ++ rest) <$> parse_template ng n t'
            | None => None
            end
          else (fun rest => TLit c :: rest) <$> parse_template ng 0 t'
      end
  end.

(** [m.expand(template)]: a group that took no part in the match expands
    to the empty string. *)
Definition expand (tpl : list tpl_item) (text : string) (m : rmatch) : string :=
  Str.of_chars
    (concat ((fun i =>
                match i with
                | TLit c => [c]
                | TGroup g =>
                    match group text m g with
                    | Some t => Str.chars t
                    | None => []
                    end
                end) <$> tpl)).

(** [pattern.subn(template, text, count)]; the template is compiled before
    the text is searched, so a bad template is an error even when nothing
    matches. *)
Definition subn (r : regex) (template text : string) (count : nat)
  : option (string * Z) :=
  tpl ← parse_template (ngroups r) 0 (Str.chars template);
  Some (subn_with r (expand tpl text) text count).
End Re.

(** ** The patterns of [release.py]

    In the comments below the tokens of each pattern are set apart by blanks
    (the blanks inside a literal such as [version = ] are the pattern's own),
    and [QUOTE] stands for the double quote character. *)

Definition not_dq (c : ascii) : bool := negb (Ascii.eqb c dq_char).
Definition not_space (c : ascii) : bool := negb (Str.isspace c).

(** [QUOTE nodetool-core] [[^QUOTE]*] [QUOTE] *)
Definition core_dep_re : Re.regex :=
  [Re.Lit (dq +:+ "nodetool-core"); Re.Rep true 0 not_dq; Re.Lit dq].

(** [^] [\s*] [name] [\s*] [=] *)
Definition name_decl_re : Re.regex :=
  [Re.Bol false; Re.Rep true 0 Str.isspace; Re.Lit "name";
   Re.Rep true 0 Str.isspace; Re.Lit "="].

(** group 1 [export const VERSION = QUOTE], then [[^QUOTE]+], then
    group 2 [QUOTE] *)
Definition constants_version_re : Re.regex :=
  [Re.Open 1; Re.Lit ("export const VERSION = " +:+ dq); Re.Close 1;
   Re.Rep true 1 not_dq; Re.Open 2; Re.Lit dq; Re.Close 2].

(** [^], group 1 [\s*], then [version = QUOTE] [[^QUOTE]+] [QUOTE];
    MULTILINE *)
Definition pyproject_version_re : Re.regex :=
  [Re.Bol true; Re.Open 1; Re.Rep true 0 Str.isspace; Re.Close 1;
   Re.Lit ("version = " +:+ dq); Re.Rep true 1 not_dq; Re.Lit dq].

(** [^], group 1 [\s*] [NODETOOL_CORE_REF:] [\s*], group 2 [\S+],
    group 3 [\s*], then [$]; MULTILINE *)
Definition copilot_core_ref_re : Re.regex :=
  [Re.Bol true; Re.Open 1; Re.Rep true 0 Str.isspace;
   Re.Lit "NODETOOL_CORE_REF:"; Re.Rep true 0 Str.isspace; Re.Close 1;
   Re.Open 2; Re.Rep true 1 not_space; Re.Close 2;
   Re.Open 3; Re.Rep true 0 Str.isspace; Re.Close 3; Re.Eol true].

(** group 1 [git\+https://github\.com/nodetool-ai/] [[^\s\QUOTE']+?]
    [\.git@], group 2 [[^\s\QUOTE'\\]+] *)
Definition git_package_ref_re : Re.regex :=
  [Re.Open 1; Re.Lit "git+https://github.com/nodetool-ai/";
   Re.Rep false 1
     (fun c => not_space c && not_dq c && negb (Ascii.eqb c "'"));
   Re.Lit ".git@"; Re.Close 1;
   Re.Open 2;
   Re.Rep true 1
     (fun c => not_space c && not_dq c && negb (Ascii.eqb c "'")
               && negb (Ascii.eqb c bs_char));
   Re.Close 2].

(** group 1 [nodetool-] [[a-z-]+], then [==], group 2 [[0-9]+] [\.]
    [[0-9]+] [\.] [[0-9]+] [[^\s\QUOTE]*] *)
Definition dockerfile_pypi_re : Re.regex :=
  let lower_or_dash c :=
    let n := nat_of_ascii c in
    ((97 <=? n) && (n <=? 122))%nat || Ascii.eqb c "-" in
  [Re.Open 1; Re.Lit "nodetool-"; Re.Rep true 1 lower_or_dash; Re.Close 1;
   Re.Lit "==";
   Re.Open 2; Re.Rep true 1 Re.is_digit; Re.Lit "."; Re.Rep true 1 Re.is_digit;
   Re.Lit "."; Re.Rep true 1 Re.is_digit;
   Re.Rep true 0 (fun c => not_space c && not_dq c); Re.Close 2].

(** ** JSON values and the Python operations used on them *)

#[local] Unset Elimination Schemes.
Inductive json :=
| JNull
| JBool (b : bool)
| JNum (n : Z)
| JStr (s : string)
| JArr (items : list json)
| JObj (fields : list (string * json)).
#[local] Set Elimination Schemes.

Module Py.

(** [bool(v)] *)
Definition truthy (v : json) : bool :=
  match v with
  | JNull => false
  | JBool b => b
  | JNum n => negb (n =? 0)
  | JStr s => Str.truthy s
  | JArr l => match l with [] => false | _ => true end
  | JObj l => match l with [] => false | _ => true end
  end.

(** [v == s] for a string [s]. *)
Definition eq_str (v : json) (s : string) : bool :=
  match v with JStr t => t =s? s | _ => false end.

Fixpoint lookup (k : string) (l : list (string * json)) : option json :=
  match l with
  | [] => None
  | (k', v) :: l' => if k' =s? k then Some v else lookup k l'
  end.

(** [d.get(k)] and [d.get(k, default)] on a dict; [None] when [d] is not a
    dict (Python raises AttributeError). *)
Definition get (d : json) (k : string) (default : json) : option json :=
  match d with
  | JObj l => Some (match lookup k l with Some v => v | None => default end)
  | _ => None
  end.

(** [d[k] = v] on the fields of a dict: an existing key keeps its place, a
    new key goes last. *)
Fixpoint set_item (k : string) (v : json) (l : list (string * json))
  : list (string * json) :=
  match l with
  | [] => [(k, v)]
  | (k', v') :: l' =>
      if k' =s? k then (k', v) :: l' else (k', v') :: set_item k v l'
  end.

End Py.

(** ** The world outside the program

    [Platform W] is what the scripts ask of the operating system and of the
    Python library: the file system through [pathlib], the environment,
    [subprocess.run], [input], [time.sleep] and the [json] module.  Nothing is
    assumed about a world beyond the types of these operations; a subprocess
    may change the world in any way. *)

Record completed := { returncode : Z; stdout : string; stderr : string }.

Class Platform (W : Type) := {
  path_exists : string -> W -> bool;
  path_is_dir : string -> W -> bool;
  path_is_file : string -> W -> bool;
  path_is_symlink : string -> W -> bool;
  (** [Path.read_text]; [None] is an [OSError]. *)
  fs_read_text : string -> W -> option string;
  (** [Path.write_text]; [None] is an [OSError]. *)
  fs_write_text : string -> string -> W -> option W;
  (** [root.rglob(pattern)] and [root.glob(pattern)], in the order in which
      the directory walk yields the paths. *)
  fs_rglob : string -> string -> W -> list string;
  fs_glob : string -> string -> W -> list string;
  (** [repr(list(path.iterdir()))]; [None] is an [OSError]. *)
  fs_iterdir_repr : string -> W -> option string;
  os_getenv : string -> W -> option string;
  os_getcwd : W -> string;
  (** [Path(__file__).resolve()] of [release.py]. *)
  script_file : W -> string;
  (** [subprocess.run(cmd, cwd=cwd, capture_output=True, text=True)]
      without [check]; [None] is the [FileNotFoundError] of a missing
      executable. *)
  subprocess_run : list string -> option string -> W -> option completed * W;
  (** [input(prompt)]; [None] is an [EOFError]. *)
  builtin_input : string -> W -> option string * W;
  time_sleep : Z -> W -> W;
  (** [json.loads]; [None] is a [JSONDecodeError]. *)
  json_loads : string -> option json;
  (** [json.dumps(v, indent=2)] *)
  json_dumps : json -> string;
  (** [str(v)] on a decoded JSON value *)
  py_str : json -> string;
}.

Inductive exn :=
| CalledProcessError (p : completed)
| FileNotFoundError
| JSONDecodeError
| ReError
| OtherError (name : string).

(** What can be observed of a run, in the order in which it happens. *)
Inductive event :=
| Print (line : string)
| Run (cmd : list string) (cwd : option string) (result : option completed)
| WriteText (path text : string)
| Input (prompt : string) (answer : option string)
| Sleep (seconds : Z)
| Mkdir (path : string)
| Request (method url : string).

(** How a computation ends: with a value, with an exception that is still
    propagating, or with [sys.exit(code)]. *)
Inductive outcome (A : Type) :=
| Ret (a : A)
| Raise (e : exn)
| Exit (code : Z).
Arguments Ret {A} a.
Arguments Raise {A} e.
Arguments Exit {A} code.

(** A run from a world: how it ends, the world it leaves, and the events it
    caused, oldest first. *)
Record result (W A : Type) := Result {
  outcome_of : outcome A;
  world_of : W;
  events_of : list event;
}.
Arguments Result {W A} _ _ _.
Arguments outcome_of {W A} _.
Arguments world_of {W A} _.
Arguments events_of {W A} _.

Definition M (W A : Type) : Type := W -> result W A.

#[global] Instance M_ret {W} : MRet (M W) := fun A a w => Result (Ret a) w [].

#[global] Instance M_bind {W} : MBind (M W) := fun A B f m w =>
  match m w with
  | Result (Ret a) w1 t1 =>
      match f a w1 with
      | Result o w2 t2 => Result o w2 (t1 ++ t2)
      end
  | Result (Raise e) w1 t1 => Result (Raise e) w1 t1
  | Result (Exit c) w1 t1 => Result (Exit c) w1 t1
  end.

Section Effects.
Context {W : Type} `{Platform W}.

Definition emit (e : event) : M W unit := fun w => Result (Ret tt) w [e].

Definition raise {A} (e : exn) : M W A := fun w => Result (Raise e) w [].

(** [sys.exit(code)] *)
Definition sys_exit {A} (code : Z) : M W A := fun w => Result (Exit code) w [].

(** [try: body except <the exceptions h accepts>: h e] *)
Definition try_except {A} (body : M W A) (h : exn -> option (M W A)) : M W A :=
  fun w =>
    match body w with
    | Result (Raise e) w1 t1 =>
        match h e with
        | Some handler =>
            match handler w1 with
            | Result o w2 t2 => Result o w2 (t1 ++ t2)
            end
        | None => Result (Raise e) w1 t1
        end
    | r => r
    end.

(** A read of the world. *)
Definition ask {A} (f : W -> A) : M W A := fun w => Result (Ret (f w)) w [].

Definition print (line : string) : M W unit := emit (Print line).

Definition read_text (path : string) : M W string :=
  o ← ask (fs_read_text path);
  match o with
  | Some text => mret text
  | None => raise (OtherError "OSError")
  end.

Definition write_text (path text : string) : M W unit := fun w =>
  match fs_write_text path text w with
  | Some w' => Result (Ret tt) w' [WriteText path text]
  | None => Result (Raise (OtherError "OSError")) w []
  end.

Definition spawn (cmd : list string) (cwd : option string)
  : M W (option completed) := fun w =>
  let '(r, w') := subprocess_run cmd cwd w in
  Result (Ret r) w' [Run cmd cwd r].

Definition input (prompt : string) : M W string := fun w =>
  let '(r, w') := builtin_input prompt w in
  match r with
  | Some answer => Result (Ret answer) w' [Input prompt r]
  | None => Result (Raise (OtherError "EOFError")) w' [Input prompt r]
  end.

Definition sleep (seconds : Z) : M W unit := fun w =>
  Result (Ret tt) (time_sleep seconds w) [Sleep seconds].

(** [if c: body] *)
Definition when (c : bool) (body : M W unit) : M W unit :=
  if c then body else mret tt.

(** [for x in l: body x] *)
Fixpoint for_each {A} (l : list A) (body : A -> M W unit) : M W unit :=
  match l with
  | [] => mret tt
  | x :: l' => body x;; for_each l' body
  end.

(** A [for] loop that updates local variables [acc]. *)
Fixpoint for_fold {A B} (l : list A) (acc : B) (body : B -> A -> M W B)
  : M W B :=
  match l with
  | [] => mret acc
  | x :: l' => acc' ← body acc x; for_fold l' acc' body
  end.
End Effects.

(** ** Paths: a [Path] is its string *)

Module Path.
(** [p / q] for a relative [q] *)
Definition join (p q : string) : string := p +:+ "/" +:+ q.

(** [p.parts], up to the anchor of an absolute path *)
Definition parts (p : string) : list string := Str.split "/" p.

(** [p.name] *)
Definition name (p : string) : string := default "" (last (parts p)).

(** [p.parent] *)
Definition parent (p : string) : string :=
  match reverse (parts p) with
  | [] | [_] => "."
  | _ :: rest =>
      match Str.join "/" (reverse rest) with
      | EmptyString => "/"
      | d => d
      end
  end.

(** [p.relative_to(root)]; [None] is the [ValueError] of a path that is not
    under [root]. *)
Definition relative_to (p root : string) : option string :=
  if p =s? root then Some "."
  else if Str.startswith p (root +:+ "/")
  then Some (Str.slice_from p (Str.len root + 1))
  else None.
End Path.

(** ** [release/release.py] *)

Definition ESC : string := String "027"%char EmptyString.
Definition RED : string := ESC +:+ "[0;31m".
Definition GREEN : string := ESC +:+ "[0;32m".
Definition YELLOW : string := ESC +:+ "[1;33m".
Definition NC : string := ESC +:+ "[0m".

Definition REPOS : list string :=
  ["nodetool-core"; "nodetool-apple"; "nodetool-base"; "nodetool-comfy";
   "nodetool-elevenlabs"; "nodetool-fal"; "nodetool-huggingface";
   "nodetool-lib-ml"; "nodetool-mlx"; "nodetool-lib-audio";
   "nodetool-replicate"; "nodetool-whispercpp"].

Definition REGISTRY_WORKFLOW_ID : string := "188184531".
Definition MAX_WAIT : Z := 1800.
Definition POLL_INTERVAL : Z := 30.

(** The command line, as [argparse] hands it over. *)
Record args := {
  arg_version_tag : string;
  arg_update_versions : bool;
  arg_no_wait_core : bool;
  arg_repo : option string;
}.

(** [str(cwd)] for an optional path *)
Definition str_of_cwd (cwd : option string) : string := default "None" cwd.

(** [x if x else "(empty)"] *)
Definition or_empty (x : string) : string :=
  if Str.truthy x then x else "(empty)".

(** [val[:4] + "..." + val[-4:] if len(val) > 8 else "***"] *)
Definition masked (val : string) : string :=
  if 8 <? Str.len val
  then Str.slice val 0 4 +:+ "..." +:+ Str.last_n val 4
  else "***".

Section Release.
Context {W : Type} `{Platform W}.

Definition print_info (msg : string) : M W unit :=
  print (GREEN +:+ "[INFO]" +:+ NC +:+ " " +:+ msg).

Definition print_error (msg : string) : M W unit :=
  print (RED +:+ "[ERROR]" +:+ NC +:+ " " +:+ msg).

Definition print_warning (msg : string) : M W unit :=
  print (YELLOW +:+ "[WARNING]" +:+ NC +:+ " " +:+ msg).

(** [subprocess.run(cmd, cwd=cwd, check=check, capture_output=True,
    text=True)] *)
Definition subprocess_run_checked (cmd : list string) (cwd : option string)
  (check : bool) : M W completed :=
  r ← spawn cmd cwd;
  match r with
  | None => raise FileNotFoundError
  | Some p =>
      if check && negb (returncode p =? 0)
      then raise (CalledProcessError p)
      else mret p
  end.

(** Every caller leaves [capture_output] at [True] and [env] at [None]. *)
Definition run_command (cmd : list string) (cwd : option string)
  (check : bool) : M W completed :=
  try_except
    (print_info ("Running: " +:+ Str.join " " cmd
                 +:+ " (cwd=" +:+ str_of_cwd cwd +:+ ")");;
     result ← subprocess_run_checked cmd cwd check;
     when (negb (returncode result =? 0) && negb check)
       (print_warning ("Command returned " +:+ Str.of_Z (returncode result));;
        when (Str.truthy (stdout result))
          (print ("stdout: " +:+ stdout result));;
        when (Str.truthy (stderr result))
          (print ("stderr: " +:+ stderr result)));;
     mret result)
    (fun e =>
       match e with
       | CalledProcessError p =>
           Some (if check then
                   print_error ("Command failed: " +:+ Str.join " " cmd);;
                   print_error ("Exit code: " +:+ Str.of_Z (returncode p));;
                   when (Str.truthy (stdout p))
                     (print ("stdout: " +:+ stdout p));;
                   when (Str.truthy (stderr p))
                     (print ("stderr: " +:+ stderr p));;
                   raise e
                 else mret p)
       | _ => None
       end).

(** [os.environ.get(a) or os.environ.get(b) or ...] as a truth value with
    its witness: the first variable that is set to a non-empty string. *)
Fixpoint first_env (vars : list string) (w : W) : option string :=
  match vars with
  | [] => None
  | v :: rest =>
      match os_getenv v w with
      | Some val => if Str.truthy val then Some val else first_env rest w
      | None => first_env rest w
      end
  end.

Definition setup_git_auth (repo_path : string) : M W bool :=
  gh_token ← ask (first_env ["GH_PAT"; "GITHUB_TOKEN"; "GH_TOKEN"]);
  match gh_token with
  | None =>
      print_warning "No GH_PAT, GITHUB_TOKEN, or GH_TOKEN found in environment";;
      mret false
  | Some gh_token =>
      result ← run_command ["git"; "remote"; "get-url"; "origin"]
                 (Some repo_path) false;
      if negb (returncode result =? 0) then
        print_warning ("Could not get remote URL for " +:+ repo_path);;
        mret false
      else
        let remote_url := Str.strip (stdout result) in
        print_info ("Original remote URL: " +:+ remote_url);;
        let finish (auth_url : string) : M W bool :=
          run_command ["git"; "remote"; "set-url"; "origin"; auth_url]
            (Some repo_path) true;;
          print_info ("Configured git authentication for " +:+ repo_path);;
          mret true in
        if Str.startswith remote_url "https://github.com/" then
          finish (Str.replace remote_url "https://github.com/"
                    ("https://x-access-token:" +:+ gh_token +:+ "@github.com/"))
        else if Str.startswith remote_url "git@github.com:" then
          let repo_part :=
            Str.replace (Str.replace remote_url "git@github.com:" "") ".git" "" in
          finish ("https://x-access-token:" +:+ gh_token +:+ "@github.com/"
                  +:+ repo_part +:+ ".git")
        else
          print_warning ("Unexpected remote URL format: " +:+ remote_url);;
          mret false
  end.

Definition print_git_diagnostics (repo_path : string) : M W unit :=
  print_info (nl +:+ "=== Git Diagnostics for " +:+ repo_path +:+ " ===");;
  for_each
    [(["git"; "config"; "user.name"], "user.name");
     (["git"; "config"; "user.email"], "user.email");
     (["git"; "remote"; "-v"], "remotes");
     (["git"; "status"; "--porcelain"], "status");
     (["git"; "branch"; "--show-current"], "current branch")]
    (fun '(cmd, desc) =>
       result ← run_command cmd (Some repo_path) false;
       if returncode result =? 0 then
         let output :=
           if Str.truthy (stdout result) then Str.strip (stdout result)
           else "(empty)" in
         print_info ("  " +:+ desc +:+ ": " +:+ output)
       else print_warning ("  " +:+ desc +:+ ": Failed to get"));;
  is_git_repo ← ask (path_is_dir (Path.join repo_path ".git"));
  print_info ("  Is git repository: " +:+ Str.of_bool is_git_repo);;
  for_each ["GH_PAT"; "GITHUB_TOKEN"; "GIT_AUTHOR_NAME"; "GIT_AUTHOR_EMAIL"]
    (fun var =>
       val ← ask (os_getenv var);
       match val with
       | Some val =>
           if Str.truthy val then
             if Str.contains "TOKEN" var || Str.contains "PAT" var
             then print_info ("  " +:+ var +:+ ": " +:+ masked val)
             else print_info ("  " +:+ var +:+ ": " +:+ val)
           else print_warning ("  " +:+ var +:+ ": not set")
       | None => print_warning ("  " +:+ var +:+ ": not set")
       end);;
  print_info ("=== End Diagnostics ===" +:+ nl).

(** *** The version patchers *)

(** [pattern.subn(template, text, count)], raising [re.error] *)
Definition re_subn (r : Re.regex) (template text : string) (count : nat)
  : M W (string * Z) :=
  match Re.subn r template text count with
  | Some res => mret res
  | None => raise ReError
  end.

(** The test of [replacement]: is the text from the start of the line on
    which the match begins to the end of the line on which it ends a
    [name = ...] declaration? *)
Definition on_name_line (text : string) (m : Re.rmatch) : bool :=
  let start := Z.of_nat (Re.m_start m) in
  let line_start := Str.rfind text nl start + 1 in
  let line_end := Str.find text nl (Z.of_nat (Re.m_end m)) in
  let line_end := if line_end =? -1 then Str.len text else line_end in
  let line := Str.slice text line_start line_end in
  Re.search name_decl_re line.

Definition replacement (text version : string) (m : Re.rmatch) : string :=
  if on_name_line text m then Re.group0 text m
  else dq +:+ "nodetool-core==" +:+ version +:+ dq.

(** [pattern.sub(replacement, text)] together with the final value of the
    flag [updated], which [replacement] sets on every match that it pins. *)
Definition pin_core_dependency (text version : string) : string * bool :=
  (fst (Re.subn_with core_dep_re (replacement text version) text 0),
   existsb (fun m => negb (on_name_line text m))
     (Re.finditer core_dep_re text)).

Definition update_nodetool_core_dependency (file_path version : string)
  : M W bool :=
  ex ← ask (path_exists file_path);
  if negb ex then mret false else
  text ← read_text file_path;
  if negb (Str.contains "nodetool-core" text) then mret false else
  let '(new_text, updated) := pin_core_dependency text version in
  if updated && negb (new_text =s? text) then
    write_text file_path new_text;;
    print_info ("  Pinned nodetool-core dependencies to " +:+ version
                +:+ " in " +:+ Path.name file_path);;
    mret true
  else mret false.

Definition update_package_json_version (file_path version : string)
  : M W bool :=
  ex ← ask (path_exists file_path);
  if negb ex then mret false else
  try_except
    (text ← read_text file_path;
     data ← match json_loads text with
            | Some v => mret v
            | None => raise JSONDecodeError
            end;
     match data with
     | JObj fields =>
         if match Py.lookup "version" fields with
            | Some v => Py.eq_str v version
            | None => false
            end
         then mret false
         else
           write_text file_path
             (json_dumps (JObj (Py.set_item "version" (JStr version) fields))
              +:+ nl);;
           print_info ("  Updated version in " +:+ file_path);;
           mret true
     | _ => raise (OtherError "AttributeError")
     end)
    (fun e =>
       match e with
       | JSONDecodeError =>
           Some (print_warning ("  Could not parse JSON in " +:+ file_path);;
                 mret false)
       | _ => None
       end).

Definition update_constants_version (file_path version : string)
  : M W bool :=
  ex ← ask (path_exists file_path);
  if negb ex then mret false else
  text ← read_text file_path;
  '(new_text, count) ←
    re_subn constants_version_re ("\g<1>" +:+ version +:+ "\g<2>") text 1;
  if (0 <? count) && negb (new_text =s? text) then
    write_text file_path new_text;;
    print_info ("  Updated VERSION constant in " +:+ file_path);;
    mret true
  else mret false.

Definition update_pyproject_version (file_path version : string)
  : M W bool :=
  ex ← ask (path_exists file_path);
  if negb ex then mret false else
  print_info ("  Updating version in " +:+ Path.name file_path +:+ "...");;
  text ← read_text file_path;
  '(new_text, count) ←
    re_subn pyproject_version_re
      ("\g<1>version = " +:+ dq +:+ version +:+ dq) text 0;
  if 0 <? count then
    write_text file_path new_text;;
    print_info ("  Updated " +:+ Path.name file_path);;
    mret true
  else mret false.

Definition update_copilot_core_ref (file_path version_tag : string)
  : M W bool :=
  ex ← ask (path_exists file_path);
  if negb ex then mret false else
  text ← read_text file_path;
  '(new_text, count) ←
    re_subn copilot_core_ref_re ("\1" +:+ version_tag +:+ "\3") text 0;
  if (0 <? count) && negb (new_text =s? text) then
    write_text file_path new_text;;
    print_info ("  Updated NODETOOL_CORE_REF in " +:+ file_path);;
    mret true
  else mret false.

Definition update_git_package_refs (file_path version_tag : string)
  : M W bool :=
  ex ← ask (path_exists file_path);
  if negb ex then mret false else
  text ← read_text file_path;
  '(new_text, count) ←
    re_subn git_package_ref_re ("\1" +:+ version_tag) text 0;
  if (0 <? count) && negb (new_text =s? text) then
    write_text file_path new_text;;
    print_info ("  Updated git package refs in " +:+ file_path);;
    mret true
  else mret false.

Definition update_dockerfile_pypi_versions (file_path version : string)
  : M W bool :=
  ex ← ask (path_exists file_path);
  if negb ex then mret false else
  text ← read_text file_path;
  '(new_text, count) ←
    re_subn dockerfile_pypi_re ("\1==" +:+ version) text 0;
  let '(text, updated) :=
    if (0 <? count) && negb (new_text =s? text)
    then (new_text, true) else (text, false) in
  on_disk ← (if updated then read_text file_path else mret text);
  if updated && negb (text =s? on_disk) then
    write_text file_path text;;
    print_info ("  Updated PyPI package versions in " +:+ file_path);;
    mret true
  else mret false.

(** *** Files that a release touches *)

Definition not_in_parts (names : list string) (path : string) : bool :=
  forallb (fun n => negb (bool_decide (n ∈ Path.parts path))) names.

Definition find_dockerfiles (repo_path : string) : M W (list string) :=
  ask (fun w =>
         List.filter
           (fun path => path_is_file path w
                        && not_in_parts [".venv"; "node_modules"] path)
           (fs_rglob repo_path "Dockerfile*" w)).

Definition find_metadata_dirs (repo_path : string) : M W (list string) :=
  ask (fun w =>
         List.filter
           (fun path => path_is_dir path w
                        && not_in_parts [".git"; ".venv"; "node_modules"] path)
           (fs_rglob repo_path "package_metadata" w)).

Definition run_package_scan (repo_path : string) : M W bool :=
  if Path.name repo_path =s? "nodetool-core" then
    print_info "  Skipping nodetool package scan for nodetool-core";;
    mret false
  else
    print_info ("  Running nodetool package scan in "
                +:+ Path.name repo_path +:+ "...");;
    try_except
      (run_command ["nodetool"; "package"; "scan"] (Some repo_path) true;;
       print_info "  nodetool package scan completed";;
       mret true)
      (fun e =>
         match e with
         | CalledProcessError _ | FileNotFoundError =>
             Some (print_warning ("  Failed to run nodetool package scan in "
                                  +:+ Path.name repo_path);;
                   mret false)
         | _ => None
         end).

Definition generate_uv_lock (repo_path : string) : M W bool :=
  let pyproject_path := Path.join repo_path "pyproject.toml" in
  ex ← ask (path_exists pyproject_path);
  if negb ex then mret false else
  print_info ("  Generating uv.lock in " +:+ Path.name repo_path +:+ "...");;
  result ← run_command ["uv"; "lock"] (Some repo_path) false;
  if returncode result =? 0 then
    has_lock ← ask (path_exists (Path.join repo_path "uv.lock"));
    if negb has_lock then mret false else
    print_info ("  Generated uv.lock in " +:+ Path.name repo_path);;
    mret true
  else
    print_warning ("  Failed to generate uv.lock in " +:+ Path.name repo_path);;
    when (Str.truthy (stderr result))
      (for_each (take 5 (Str.split nl_char (Str.strip (stderr result))))
         (fun line => print ("    " +:+ line)));;
    mret false.

(** *** The workflow poller *)

Definition RELEASE_WORKFLOWS : list string :=
  ["Build and Publish Wheel"; "Release"].

(** [cmd] in [get_release_run] *)
Definition GH_RUN_LIST : list string :=
  ["gh"; "run"; "list"; "--limit"; "20"; "--json";
   "databaseId,status,conclusion,headBranch,headSha,event,workflowName"].

(** What [for run in runs] goes through; [None] is the [TypeError] of a
    value that cannot be iterated. *)
Definition py_iter (v : json) : option (list json) :=
  match v with
  | JArr l => Some l
  | JObj fields => Some ((fun kv => JStr (fst kv)) <$> fields)
  | JStr t => Some ((fun c => JStr (String c EmptyString)) <$> Str.chars t)
  | _ => None
  end.

(** The loop of [get_release_run]: the first run on the tag's branch whose
    workflow is a release workflow. *)
Fixpoint first_release_run (runs : list json) (tag : string)
  : M W (option json * bool) :=
  match runs with
  | [] => mret (None, true)
  | run :: rest =>
      match Py.get run "headBranch" (JStr ""),
            Py.get run "workflowName" (JStr "") with
      | Some branch, Some workflow_name =>
          if Py.eq_str branch tag
             && existsb (Py.eq_str workflow_name) RELEASE_WORKFLOWS
          then mret (Some run, true)
          else first_release_run rest tag
      | _, _ => raise (OtherError "AttributeError")
      end
  end.

Definition get_release_run (repo_path tag : string)
  : M W (option json * bool) :=
  let cmd := GH_RUN_LIST in
  runs ← try_except
           (proc ← run_command cmd (Some repo_path) true;
            match json_loads (stdout proc) with
            | Some v => mret (Some v)
            | None => raise JSONDecodeError
            end)
           (fun e =>
              match e with
              | JSONDecodeError | CalledProcessError _ => Some (mret None)
              | _ => None
              end);
  match runs with
  | None => mret (None, false)
  | Some runs =>
      match py_iter runs with
      | Some l => first_release_run l tag
      | None => raise (OtherError "TypeError")
      end
  end.

Definition print_workflow_logs (repo_path tag : string) : M W unit :=
  '(run, ok) ← get_release_run repo_path tag;
  if negb ok then
    print_warning "  Could not fetch workflow logs (gh run list failed)"
  else
    match run with
    | Some (JObj fields as run) =>
        let database_id := default JNull (Py.lookup "databaseId" fields) in
        if negb (Py.truthy run) || negb (Py.truthy database_id) then
          print_warning "  Could not find workflow run to fetch logs"
        else
          let run_id := py_str database_id in
          print_info ("  Fetching workflow logs (run " +:+ run_id +:+ ")...");;
          proc ← run_command ["gh"; "run"; "view"; run_id; "--log"]
                   (Some repo_path) false;
          if (returncode proc =? 0) && Str.truthy (stdout proc)
          then print (stdout proc)
          else print_warning "  Failed to retrieve workflow logs"
    | Some run =>
        if negb (Py.truthy run)
        then print_warning "  Could not find workflow run to fetch logs"
        else raise (OtherError "AttributeError")
    | None => print_warning "  Could not find workflow run to fetch logs"
    end.

(** [0]: succeeded; [1]: pending; [2]: failed or cancelled. *)
Definition check_workflow_completed (repo_path tag : string) : M W Z :=
  '(run, ok) ← get_release_run repo_path tag;
  if negb ok then
    proc_release ← run_command ["gh"; "release"; "view"; tag]
                     (Some repo_path) false;
    if returncode proc_release =? 0 then mret 0 else mret 1
  else if negb (match run with Some r => Py.truthy r | None => false end) then
    proc_release ← run_command ["gh"; "release"; "view"; tag]
                     (Some repo_path) false;
    if returncode proc_release =? 0 then mret 0 else mret 1
  else
    match run with
    | Some (JObj fields) =>
        let status := default JNull (Py.lookup "status" fields) in
        let conclusion := default JNull (Py.lookup "conclusion" fields) in
        if Py.eq_str status "completed" then
          if Py.eq_str conclusion "success" then mret 0
          else if existsb (Py.eq_str conclusion) ["failure"; "cancelled"]
          then mret 2
          else mret 0
        else mret 1
    | _ => raise (OtherError "AttributeError")
    end.

(** The local variables of one round of [wait_for_repos]. *)
Record round := {
  all_completed : bool;
  any_failed : bool;
  logged_failures : gset string;
}.

(** The body of [for repo in repos_to_wait]. *)
Definition poll_repo (version_tag cwd : string) (v : round) (repo : string)
  : M W round :=
  let repo_path := Path.join cwd repo in
  is_dir ← ask (path_is_dir repo_path);
  if negb is_dir then mret v else
  result ← check_workflow_completed repo_path version_tag;
  if result =? 0 then
    print_info ("  Release workflow completed for " +:+ repo);;
    mret v
  else if result =? 2 then
    print_error ("  Release workflow failed or cancelled for " +:+ repo);;
    logged ← (if bool_decide (repo ∉ logged_failures v) then
                print_workflow_logs repo_path version_tag;;
                mret ({[repo]} ∪ logged_failures v)
              else mret (logged_failures v));
    mret {| all_completed := false; any_failed := true;
            logged_failures := logged |}
  else
    print_warning ("  Waiting for release workflow in " +:+ repo +:+ "...");;
    mret {| all_completed := false; any_failed := any_failed v;
            logged_failures := logged_failures v |}.

Definition timed_out : M W unit :=
  print_error "Timeout waiting for release workflows to complete";;
  sys_exit 1.

(** [while elapsed < MAX_WAIT: ...] followed by the time-out exit.  The
    inner test [if elapsed < MAX_WAIT] sees the value of the loop test. *)
Equations? wait_loop (repos_to_wait : list string) (version_tag cwd : string)
  (elapsed : Z) (logged : gset string) : M W unit
  by wf (Z.to_nat (MAX_WAIT - elapsed)) lt :=
  wait_loop repos_to_wait version_tag cwd elapsed logged
    with Z_lt_dec elapsed MAX_WAIT := {
    | left _ :=
        v ← for_fold repos_to_wait
              {| all_completed := true; any_failed := false;
                 logged_failures := logged |}
              (poll_repo version_tag cwd);
        if all_completed v then
          if any_failed v then
            print_error "Some release workflows failed or were cancelled";;
            sys_exit 1
          else mret tt
        else if elapsed <? MAX_WAIT then
          sleep POLL_INTERVAL;;
          print_info ("Elapsed time: " +:+ Str.of_Z (elapsed + POLL_INTERVAL)
                      +:+ "s / " +:+ Str.of_Z MAX_WAIT +:+ "s");;
          wait_loop repos_to_wait version_tag cwd (elapsed + POLL_INTERVAL)
            (logged_failures v)
        else timed_out;
    | right _ := timed_out }.
Proof. unfold MAX_WAIT, POLL_INTERVAL in *. lia. Qed.

Definition wait_for_repos (repos_to_wait : list string)
  (version_tag cwd : string) : M W unit :=
  wait_loop repos_to_wait version_tag cwd 0 ∅.

(** *** The repository driver *)

(** [try: rel = f.relative_to(repo_path); git add rel
    except ValueError: warn] *)
Definition git_add_relative (repo_path f : string) : M W unit :=
  match Path.relative_to f repo_path with
  | Some rel_path =>
      run_command ["git"; "add"; rel_path] (Some repo_path) true;;
      mret tt
  | None =>
      print_warning ("  Skipping " +:+ f +:+ " (not relative to repo root)")
  end.

Definition NODETOOL_FILES : list string :=
  ["web/package.json"; "electron/package.json"; "mobile/package.json";
   "web/src/config/constants.ts"].

(** The block [if files_updated:] up to the commit. *)
Definition stage_version_updates (repo_path : string) (is_nodetool : bool)
  (dockerfiles : list string) : M W unit :=
  let pyproject_path := Path.join repo_path "pyproject.toml" in
  let copilot_workflow :=
    Path.join repo_path ".github/workflows/copilot-setup-steps.yml" in
  print_info "  Staging version updates...";;
  has_pyproject ← ask (path_exists pyproject_path);
  when has_pyproject
    (run_command ["git"; "add"; "pyproject.toml"] (Some repo_path) true;;
     mret tt);;
  has_lock ← ask (path_exists (Path.join repo_path "uv.lock"));
  when has_lock
    (run_command ["git"; "add"; "uv.lock"] (Some repo_path) true;;
     mret tt);;
  metadata_dirs ← find_metadata_dirs repo_path;
  for_each metadata_dirs
    (fun metadata_dir =>
       ex ← ask (path_exists metadata_dir);
       when ex
         (files ← ask (fs_glob metadata_dir "*.json");
          for_each files (git_add_relative repo_path)));;
  when is_nodetool
    (for_each NODETOOL_FILES
       (fun f =>
          ex ← ask (path_exists (Path.join repo_path f));
          when ex
            (run_command ["git"; "add"; f] (Some repo_path) true;;
             mret tt)));;
  has_copilot ← ask (path_exists copilot_workflow);
  when has_copilot
    (match Path.relative_to copilot_workflow repo_path with
     | Some rel =>
         run_command ["git"; "add"; rel] (Some repo_path) true;;
         mret tt
     | None => raise (OtherError "ValueError")
     end);;
  for_each dockerfiles
    (fun dockerfile =>
       ex ← ask (path_exists dockerfile);
       when ex (git_add_relative repo_path dockerfile)).

(** The end of [process_repo], from [Creating tag] on. *)
Definition create_and_push_tag (repo repo_path version_tag : string)
  : M W unit :=
  print_info ("  Creating tag " +:+ version_tag +:+ " in " +:+ repo +:+ "...");;
  run_command ["git"; "tag"; "-f"; "-a"; version_tag; "-m";
               "Release " +:+ version_tag] (Some repo_path) true;;
  print_info ("  Pushing tag " +:+ version_tag +:+ " to remote...");;
  push_result ← run_command ["git"; "push"; "-v"; "-f"; "origin"; version_tag]
                  (Some repo_path) false;
  if returncode push_result =? 0 then
    print_info ("  Successfully tagged and pushed " +:+ repo)
  else
    print_error ("  Failed to push tag for " +:+ repo);;
    print_error ("  stdout: " +:+ or_empty (stdout push_result));;
    print_error ("  stderr: " +:+ or_empty (stderr push_result));;
    print_git_diagnostics repo_path.

(** [if f(...): files_updated = True] *)
Definition note (files_updated : bool) (patch : M W bool) : M W bool :=
  changed ← patch;
  mret (changed || files_updated).

(** The two blocks [if args.update_versions and ...]: the list of
    Dockerfiles found and the final value of [files_updated]. *)
Definition update_version_files (repo_path : string) (is_nodetool : bool)
  (version version_tag : string) (a : args) : M W (list string * bool) :=
  let pyproject_path := Path.join repo_path "pyproject.toml" in
  let copilot_workflow :=
    Path.join repo_path ".github/workflows/copilot-setup-steps.yml" in
  '(dockerfiles, files_updated) ←
    (if arg_update_versions a && negb is_nodetool then
       u ← note false (update_pyproject_version pyproject_path version);
       u ← note u (update_nodetool_core_dependency pyproject_path version);
       u ← note u (update_copilot_core_ref copilot_workflow version_tag);
       dockerfiles ← find_dockerfiles repo_path;
       u ← for_fold dockerfiles u
             (fun u dockerfile =>
                u ← note u (update_git_package_refs dockerfile version_tag);
                note u (update_dockerfile_pypi_versions dockerfile version));
       metadata_dirs ← find_metadata_dirs repo_path;
       has_pyproject ← ask (path_exists (Path.join repo_path "pyproject.toml"));
       u ← (if has_pyproject
               || match metadata_dirs with [] => false | _ => true end
            then note u (run_package_scan repo_path)
            else mret u);
       mret (dockerfiles, u)
     else mret ([], false));
  files_updated ←
    (if arg_update_versions a && is_nodetool then
       u ← note files_updated
             (update_package_json_version
                (Path.join repo_path "web/package.json") version);
       u ← note u (update_package_json_version
                     (Path.join repo_path "electron/package.json") version);
       u ← note u (update_package_json_version
                     (Path.join repo_path "mobile/package.json") version);
       u ← note u (update_constants_version
                     (Path.join repo_path "web/src/config/constants.ts")
                     version);
       has_pyproject ← ask (path_exists pyproject_path);
       if has_pyproject && negb is_nodetool
       then note u (generate_uv_lock repo_path)
       else mret u
     else mret files_updated);
  mret (dockerfiles, files_updated).

(** [repos_to_process] is a parameter that [process_repo] never reads. *)
Definition process_repo (repo : string) (repos_to_process : list string)
  (version version_tag : string) (a : args) (cwd : string) : M W unit :=
  let repo_path := Path.join cwd repo in
  ex ← ask (path_exists repo_path);
  is_dir ← ask (path_is_dir repo_path);
  print_info ("DEBUG process_repo: cwd=" +:+ cwd +:+ ", repo=" +:+ repo
              +:+ ", repo_path=" +:+ repo_path
              +:+ ", exists=" +:+ Str.of_bool ex
              +:+ ", is_dir=" +:+ Str.of_bool is_dir);;
  is_dir ← ask (path_is_dir repo_path);
  if negb is_dir then
    print_error ("Repository directory '" +:+ repo +:+ "' not found. Skipping...")
  else
  is_git ← ask (path_is_dir (Path.join repo_path ".git"));
  if negb is_git then
    print_error (repo +:+ " is not a git repository. Skipping...")
  else
  print_git_diagnostics repo_path;;
  setup_git_auth repo_path;;
  print_info ("Processing " +:+ repo +:+ "...");;
  let is_nodetool := repo =s? "nodetool" in
  '(dockerfiles, files_updated) ←
    update_version_files repo_path is_nodetool version version_tag a;
  if files_updated : bool then
    stage_version_updates repo_path is_nodetool dockerfiles;;
    print_info "  Committing version updates...";;
    proc ← run_command ["git"; "commit"; "-m"; "Bump version to " +:+ version]
             (Some repo_path) false;
    if returncode proc =? 0 then
      print_info "  Committed version changes";;
      print_info "  Pushing commit to remote (main)...";;
      push_result ← run_command ["git"; "push"; "-v"; "origin"; "main"]
                      (Some repo_path) false;
      if returncode push_result =? 0 then
        print_info "  Pushed commit";;
        create_and_push_tag repo repo_path version_tag
      else
        print_error ("  Failed to push commit for " +:+ repo);;
        print_error ("  stdout: " +:+ or_empty (stdout push_result));;
        print_error ("  stderr: " +:+ or_empty (stderr push_result));;
        print_git_diagnostics repo_path
    else
      print_warning ("  No changes to commit (files may already be at version "
                     +:+ version +:+ ")");;
      create_and_push_tag repo repo_path version_tag
  else
    print_info "  No version files found to update";;
    create_and_push_tag repo repo_path version_tag.

(** *** The orchestrator *)

(** [args.repo] as a truth value with its witness *)
Definition selected_repo (a : args) : option string :=
  match arg_repo a with
  | Some r => if Str.truthy r then Some r else None
  | None => None
  end.

Definition main (a : args) : M W unit :=
  let version_tag := arg_version_tag a in
  print_info "=== Initial Environment Diagnostics ===";;
  wd ← ask os_getcwd;
  print_info ("Working directory: " +:+ wd);;
  script ← ask script_file;
  print_info ("Script location: " +:+ script);;
  for_each ["GH_PAT"; "GITHUB_TOKEN"; "GH_TOKEN"]
    (fun var =>
       val ← ask (os_getenv var);
       match val with
       | Some val =>
           if Str.truthy val
           then print_info (var +:+ ": " +:+ masked val)
           else print_warning (var +:+ ": not set")
       | None => print_warning (var +:+ ": not set")
       end);;
  print_info ("=== End Initial Diagnostics ===" +:+ nl);;
  when (negb (Str.startswith version_tag "v"))
    (print_warning
       "Version tag should follow format: v<major>.<minor>.<patch> (e.g., v1.2.3)";;
     response ← input "Continue anyway? (y/n) ";
     when (negb (bool_decide (Str.lower response ∈ ["y"; "yes"])))
       (sys_exit 1));;
  let version := Str.slice_from version_tag 1 in
  repos_to_process ←
    match selected_repo a with
    | Some r =>
        if negb (bool_decide (r ∈ REPOS)) then
          print_error ("Repository '" +:+ r +:+ "' not in known repos: "
                       +:+ Str.join ", " REPOS);;
          sys_exit 1
        else
          print_info ("Processing only repository: " +:+ r);;
          mret [r]
    | None => mret REPOS
    end;
  print_info ("Starting release process for version: " +:+ version_tag);;
  (if arg_update_versions a
   then print_info "Version updates: ENABLED"
   else print_info "Version updates: DISABLED (use --update-versions to enable)");;
  print_info ("Repositories to tag: " +:+ Str.join ", " repos_to_process);;
  let cwd := Path.parent (Path.parent script) in
  print_info ("Working directory: " +:+ cwd);;
  contents ← ask (fs_iterdir_repr cwd);
  contents ← match contents with
             | Some c => mret c
             | None => raise (OtherError "OSError")
             end;
  print_info ("Contents: " +:+ contents);;
  let nodetool_core_path := Path.join cwd "nodetool-core" in
  core_exists ← ask (path_exists nodetool_core_path);
  core_is_dir ← ask (path_is_dir nodetool_core_path);
  core_is_symlink ← ask (path_is_symlink nodetool_core_path);
  print_info ("nodetool-core exists: " +:+ Str.of_bool core_exists
              +:+ ", is_dir: " +:+ Str.of_bool core_is_dir
              +:+ ", is_symlink: " +:+ Str.of_bool core_is_symlink);;
  core_is_dir ← ask (path_is_dir nodetool_core_path);
  when core_is_dir
    (let git_path := Path.join nodetool_core_path ".git" in
     git_exists ← ask (path_exists git_path);
     git_is_dir ← ask (path_is_dir git_path);
     print_info ("nodetool-core/.git exists: " +:+ Str.of_bool git_exists
                 +:+ ", is_dir: " +:+ Str.of_bool git_is_dir));;
  print_info "Step 1a: Processing nodetool-core...";;
  when (negb (bool_decide (is_Some (selected_repo a))))
    (process_repo "nodetool-core" repos_to_process version version_tag a cwd;;
     when (negb (arg_no_wait_core a))
       (print_info "Waiting for nodetool-core workflow to complete...";;
        wait_for_repos ["nodetool-core"] version_tag cwd;;
        print_info "nodetool-core has been published!"));;
  print_info "Step 1b: Creating and pushing tags...";;
  for_each repos_to_process
    (fun repo =>
       process_repo repo repos_to_process version version_tag a cwd);;
  print_info "Step 2: Waiting for release workflows to complete...";;
  wait_for_repos repos_to_process version_tag cwd;;
  print_info "All release workflows have completed!";;
  print_info "Step 3: Triggering registry workflow to build index...";;
  let registry_path := cwd in
  triggered ← run_command ["gh"; "workflow"; "run"; REGISTRY_WORKFLOW_ID]
                (Some registry_path) false;
  (if returncode triggered =? 0 then
     print_info ("Successfully triggered registry workflow (ID: "
                 +:+ REGISTRY_WORKFLOW_ID +:+ ")");;
     proc ← run_command
              ["gh"; "repo"; "view"; "--json"; "nameWithOwner"; "-q";
               ".nameWithOwner"] (Some registry_path) false;
     when (returncode proc =? 0)
       (let repo_full_name := Str.strip (stdout proc) in
        print_info ("Monitor the workflow at: https://github.com/"
                    +:+ repo_full_name +:+ "/actions/workflows/"
                    +:+ REGISTRY_WORKFLOW_ID))
   else
     print_error "Failed to trigger registry workflow";;
     sys_exit 1);;
  let rule := Str.of_chars (replicate 50 "="%char) in
  print_info rule;;
  print_info "Release process completed successfully!";;
  print_info ("Version: " +:+ version_tag);;
  print_info ("Tagged repositories: "
              +:+ Str.of_Z (Z.of_nat (length repos_to_process)));;
  print_info "Registry workflow triggered";;
  print_info rule.

End Release.

(** ** [scripts/registry_utils.py] and [scripts/build_index.py]

    The documents of the GitHub releases API are records with the fields that
    the index builder reads.  [packaging.version] is an interface: a type of
    versions with [version.parse] ([None] is [InvalidVersion]), the order of
    versions and [str]. *)

Class Packaging (V : Type) := {
  version_parse : string -> option V;
  version_lt : V -> V -> bool;
  version_str : V -> string;
}.

Record asset := { asset_name : string; browser_download_url : string }.

Record release := {
  draft : bool;
  prerelease : bool;
  tag_name : string;
  assets : list asset;
  published_at : string;
}.

(** The answer to a [requests] call, as far as it is read. *)
Record response := {
  status_code : Z;
  content_length : option string;
  last_modified : option string;
  content : string;
}.

(** [response.ok]: [raise_for_status] raises for a status from 400 to 599,
    and for no other. *)
Definition response_ok (r : response) : bool :=
  negb ((400 <=? status_code r) && (status_code r <? 600)).

(** The dict that [get_wheel_metadata] returns, with the two keys that
    [generate_package_page] adds. *)
Record wheel := {
  url : string;
  filename : string;
  size : Z;
  upload_time : string;
  metadata_available : bool;
  metadata_sha256 : option string;
  version : string;
  release_date : string;
}.

(** What the index builder asks of the network and of the library.
    [client_get_releases] is [GitHubAPIClient.get_releases]: the HTTP exchange
    with its rate limiting, which reads the clock, is one step of the world.
    [None] from a request is an exception of [requests]. *)
Class Network (W : Type) := {
  client_get_releases : string -> W -> list release * W;
  requests_head : string -> W -> option response * W;
  requests_get : string -> W -> option response * W;
  (** [hashlib.sha256(content).hexdigest()] *)
  sha256_hexdigest : string -> string;
  (** [int(s)]; [None] is a [ValueError]. *)
  py_int : string -> option Z;
  (** [path.mkdir(parents=True, exist_ok=True)]; [None] is an [OSError]. *)
  fs_mkdir : string -> W -> option W;
  (** [str(e)] for an exception *)
  exception_text : exn -> string;
}.

Definition catch_all {A} (o : outcome A) (handler : outcome A) : outcome A :=
  match o with
  | Raise _ => handler
  | r => r
  end.

Section Registry.
Context {W V : Type} `{Platform W} `{Network W} `{Packaging V}.

(** [has_wheel_assets] *)
Definition has_wheel_assets (r : release) : bool :=
  existsb (fun a => Str.endswith (asset_name a) ".whl") (assets r).

(** [parse_version]: [try: ... except Exception: return None] *)
Definition parse_version (tag_name : string) : outcome (option V) :=
  catch_all
    (match Str.split "-" (Str.lstrip_char "v" tag_name) with
     | version_str :: _ =>
         match version_parse version_str with
         | Some v => Ret (Some v)
         | None => Raise (OtherError "InvalidVersion")
         end
     | [] => Raise (OtherError "IndexError")
     end)
    (Ret None).

(** [extract_package_name_from_repo] *)
Definition extract_package_name_from_repo (repo_id : string)
  : outcome string :=
  match Str.split "/" repo_id with
  | _ :: name :: _ => Ret name
  | _ => Raise (OtherError "IndexError")
  end.

Definition lift {A} (o : outcome A) : M W A := fun w => Result o w [].

Definition http (method : string)
  (f : string -> W -> option response * W) (url : string)
  : M W response := fun w =>
  let '(r, w') := f url w in
  match r with
  | Some resp => Result (Ret resp) w' [Request method url]
  | None => Result (Raise (OtherError "RequestException")) w'
              [Request method url]
  end.

(** [try: body except Exception: handler] *)
Definition try_all {A} (body handler : M W A) : M W A :=
  try_except body (fun _ => Some handler).

(** The probe for the PEP 658 side file: [(metadata_available,
    metadata_sha256)]. *)
Definition probe_sidecar (asset_url : string) : M W (bool * option string) :=
  try_all
    (let metadata_url := asset_url +:+ ".metadata" in
     meta_head ← http "HEAD" requests_head metadata_url;
     if status_code meta_head =? 200 then
       meta_get ← http "GET" requests_get metadata_url;
       if response_ok meta_get && Str.truthy (content meta_get)
       then mret (true, Some (sha256_hexdigest (content meta_get)))
       else mret (false, None)
     else mret (false, None))
    (mret (false, None)).

Definition get_wheel_metadata (asset_url asset_name : string) : M W wheel :=
  try_except
    (resp ← http "HEAD" requests_head asset_url;
     size ← match content_length resp with
            | Some l =>
                match py_int l with
                | Some n => mret n
                | None => raise (OtherError "ValueError")
                end
            | None => mret 0
            end;
     '(available, digest) ← probe_sidecar asset_url;
     mret {| url := asset_url; filename := asset_name; size := size;
             upload_time := default "" (last_modified resp);
             metadata_available := available; metadata_sha256 := digest;
             version := ""; release_date := "" |})
    (fun e =>
       Some (print ("⚠️  Warning: Could not get metadata for " +:+ asset_name
                    +:+ ": " +:+ exception_text e);;
             mret {| url := asset_url; filename := asset_name; size := 0;
                     upload_time := ""; metadata_available := false;
                     metadata_sha256 := None; version := "";
                     release_date := "" |})).

(** The first loop of [generate_package_page]. *)
Fixpoint valid_releases (releases : list release)
  : outcome (list (V * release)) :=
  match releases with
  | [] => Ret []
  | r :: rest =>
      if draft r || prerelease r then valid_releases rest
      else
        match parse_version (tag_name r) with
        | Ret (Some v) =>
            match valid_releases rest with
            | Ret l => Ret ((v, r) :: l)
            | e => e
            end
        | Ret None => valid_releases rest
        | Raise e => Raise e
        | Exit c => Exit c
        end
  end.

(** [list.sort(key=lambda x: x[0], reverse=True)]: the greatest version
    first, and releases of equal version in the order they had. *)
Fixpoint insert_desc (x : V * release) (l : list (V * release))
  : list (V * release) :=
  match l with
  | [] => [x]
  | y :: l' =>
      if version_lt (fst y) (fst x) then x :: l else y :: insert_desc x l'
  end.

Definition sort_desc (l : list (V * release)) : list (V * release) :=
  fold_left (fun acc x => insert_desc x acc) l [].

(** The second loop: the wheels of one release. *)
Definition collect_assets (wheel_filter : option string) (v : V)
  (r : release) (wheels : list wheel) : M W (list wheel) :=
  for_fold (assets r) wheels
    (fun wheels a =>
       if Str.endswith (asset_name a) ".whl" then
         if match wheel_filter with
            | Some f => Str.truthy f && negb (Str.contains f (asset_name a))
            | None => false
            end
         then mret wheels
         else
           metadata ← get_wheel_metadata (browser_download_url a)
                        (asset_name a);
           mret (wheels ++
                 [{| url := url metadata; filename := filename metadata;
                     size := size metadata;
                     upload_time := upload_time metadata;
                     metadata_available := metadata_available metadata;
                     metadata_sha256 := metadata_sha256 metadata;
                     version := version_str v;
                     release_date := published_at r |}])
       else mret wheels).

Definition collect_wheels (wheel_filter : option string)
  (sorted : list (V * release)) : M W (list wheel) :=
  for_fold sorted [] (fun wheels '(v, r) => collect_assets wheel_filter v r wheels).

(** One [<a ...>] line of the page. *)
Definition link_html (w : wheel) : string :=
  let attrs :=
    ["href=" +:+ dq +:+ url w +:+ dq]
    ++ (if negb (size w =? 0)
        then ["data-size=" +:+ dq +:+ Str.of_Z (size w) +:+ dq] else [])
    ++ (if Str.contains "py3" (filename w)
        then ["data-requires-python=" +:+ dq +:+ "&gt;=3.11" +:+ dq] else [])
    ++ (match metadata_sha256 w with
        | Some digest =>
            if metadata_available w && Str.truthy digest
            then ["data-dist-info-metadata=" +:+ dq +:+ "sha256=" +:+ digest
                  +:+ dq]
            else []
        | None => []
        end) in
  "    <a " +:+ Str.join " " attrs +:+ ">" +:+ filename w +:+ "</a><br>".

Definition html_lines (package_name : string) (wheels : list wheel)
  : list string :=
  ["<!DOCTYPE html>"; "<html>"; "<head>";
   "  <title>Links for " +:+ package_name +:+ "</title>";
   "  <meta name=" +:+ dq +:+ "pypi:repository-version" +:+ dq
     +:+ " content=" +:+ dq +:+ "1.0" +:+ dq +:+ ">";
   "  <meta name=" +:+ dq +:+ "api-version" +:+ dq
     +:+ " content=" +:+ dq +:+ "2" +:+ dq +:+ ">";
   "</head>"; "<body>";
   "  <h1>Links for " +:+ package_name +:+ "</h1>"]
  ++ (link_html <$> wheels)
  ++ ["</body>"; "</html>"].

Definition mkdir (path : string) : M W unit := fun w =>
  match fs_mkdir path w with
  | Some w' => Result (Ret tt) w' [Mkdir path]
  | None => Result (Raise (OtherError "OSError")) w []
  end.

(** The call of [GitHubAPIClient.get_releases], where the client answers
    with a list of releases that have the fields read below: after a request
    that failed, or a status other than 200, the client answers with the
    empty list.  The source can also fail here, with the [ValueError] of
    [int] on a rate-limit header that is no number, which nothing catches;
    and a release that lacks a field read by subscript is a [KeyError] in
    the loops.  Such runs are no runs of this model, and no property
    below says how [generate_package_page] fails. *)
Definition get_releases (repo : string) : M W (list release) := fun w =>
  let '(l, w') := client_get_releases repo w in
  Result (Ret l) w' [Request "GET" ("https://api.github.com/repos/" +:+ repo
                                   +:+ "/releases")].

Definition generate_package_page (package_name repo output_dir : string)
  (wheel_filter : option string) : M W Z :=
  releases ← get_releases repo;
  valid ← lift (valid_releases releases);
  wheels ← collect_wheels wheel_filter (sort_desc valid);
  let package_dir := Path.join output_dir package_name in
  mkdir package_dir;;
  write_text (Path.join package_dir "index.html")
    (Str.join nl (html_lines package_name wheels));;
  print ("✅ Generated " +:+ package_name +:+ " index ("
         +:+ Str.of_Z (Z.of_nat (length wheels)) +:+ " wheels)");;
  mret (Z.of_nat (length wheels)).
End Registry.

(** ** A simulated world

    A concrete [Platform]: files, directories and the environment are finite
    maps, subprocesses answer from tables and leave the world as it is, and
    [json.loads] is a parser for the JSON texts without string escapes and
    without fractions.  It is the world of the examples. *)

Module Sim.

Record world := {
  files : gmap string string;
  dirs : gset string;
  env : gmap string string;
  (** the lines that [input] will read *)
  stdin : list string;
  (** stdout of [gh run list] per repository path; none: the command fails *)
  gh_runs : gmap string string;
  (** the repository paths with a published release for the tag *)
  gh_releases : gset string;
  (** exit status of [git push -v origin main] *)
  push_main_status : Z;
  (** seconds slept so far *)
  clock : Z;
  (** the releases API, per [owner/repo] *)
  api_releases : gmap string (list release);
  (** the answers to HEAD and GET requests, per URL *)
  http_answers : gmap string response;
}.

Definition empty : world :=
  {| files := ∅; dirs := ∅; env := ∅; stdin := []; gh_runs := ∅;
     gh_releases := ∅; push_main_status := 0; clock := 0;
     api_releases := ∅; http_answers := ∅ |}.

Definition ok (out : string) : completed :=
  {| returncode := 0; stdout := out; stderr := "" |}.
Definition failed (err : string) : completed :=
  {| returncode := 1; stdout := ""; stderr := err |}.

Definition run (cmd : list string) (cwd : option string) (w : world)
  : option completed * world :=
  (Some
     match cmd with
     | "gh" :: "run" :: "list" :: _ =>
         match gh_runs w !! default "" cwd with
         | Some out => ok out
         | None => failed "HTTP 502"
         end
     | "gh" :: "release" :: "view" :: _ =>
         if bool_decide (default "" cwd ∈ gh_releases w)
         then ok "release" else failed "release not found"
     | "gh" :: "run" :: "view" :: run_id :: _ => ok ("log of run " +:+ run_id)
     | ["git"; "push"; "-v"; "origin"; "main"] =>
         if push_main_status w =? 0 then ok ""
         else {| returncode := push_main_status w; stdout := "";
                 stderr := "! [rejected] main -> main" |}
     | _ => ok ""
     end, w).

(** [*suffix], [prefix*] and literal patterns *)
Definition glob_match (pattern name : string) : bool :=
  match Str.chars pattern with
  | "*"%char :: suffix => Str.endswith name (Str.of_chars suffix)
  | _ =>
      if Str.endswith pattern "*"
      then Str.startswith name
             (Str.slice pattern 0 (Str.len pattern - 1))
      else name =s? pattern
  end.

Definition entries (w : world) : list string :=
  (fst <$> map_to_list (files w)) ++ elements (dirs w).

Definition rglob (root pattern : string) (w : world) : list string :=
  List.filter
    (fun p => Str.startswith p (root +:+ "/") && glob_match pattern (Path.name p))
    (entries w).

Definition glob (root pattern : string) (w : world) : list string :=
  List.filter (fun p => Path.parent p =s? root) (rglob root pattern w).

(** *** A JSON reader *)

Fixpoint skip_ws (s : list ascii) : list ascii :=
  match s with
  | c :: s' => if Str.isspace c then skip_ws s' else s
  | [] => []
  end.

(** The characters up to the closing quote; no escapes. *)
Fixpoint string_body (s : list ascii) : option (list ascii * list ascii) :=
  match s with
  | [] => None
  | c :: s' =>
      if Ascii.eqb c dq_char then Some ([], s')
      else if Ascii.eqb c bs_char then None
      else '(body, rest) ← string_body s'; Some (c :: body, rest)
  end.

Fixpoint digits (s : list ascii) : list ascii * list ascii :=
  match s with
  | c :: s' =>
      if Re.is_digit c then let '(d, rest) := digits s' in (c :: d, rest)
      else ([], s)
  | [] => ([], [])
  end.

Definition number (s : list ascii) : option (Z * list ascii) :=
  match digits s with
  | ([], _) => None
  | (d, rest) => Some (Z.of_nat (Re.decimal d), rest)
  end.

Fixpoint value (fuel : nat) (s : list ascii) : option (json * list ascii) :=
  match fuel with
  | O => None
  | S fuel =>
      match skip_ws s with
      | "n" :: "u" :: "l" :: "l" :: rest => Some (JNull, rest)
      | "t" :: "r" :: "u" :: "e" :: rest => Some (JBool true, rest)
      | "f" :: "a" :: "l" :: "s" :: "e" :: rest => Some (JBool false, rest)
      | "[" :: rest =>
          match skip_ws rest with
          | "]" :: rest' => Some (JArr [], rest')
          | _ => '(l, rest') ← elements_ fuel rest; Some (JArr l, rest')
          end
      | "{" :: rest =>
          match skip_ws rest with
          | "}" :: rest' => Some (JObj [], rest')
          | _ => '(l, rest') ← members fuel rest; Some (JObj l, rest')
          end
      | "-" :: rest => '(n, rest') ← number rest; Some (JNum (- n), rest')
      | c :: rest =>
          if Ascii.eqb c dq_char
          then '(body, rest') ← string_body rest;
               Some (JStr (Str.of_chars body), rest')
          else '(n, rest') ← number (c :: rest); Some (JNum n, rest')
      | [] => None
      end%char
  end
with elements_ (fuel : nat) (s : list ascii)
  : option (list json * list ascii) :=
  match fuel with
  | O => None
  | S fuel =>
      '(v, rest) ← value fuel s;
      match skip_ws rest with
      | "," :: rest' =>
          '(l, rest'') ← elements_ fuel rest'; Some (v :: l, rest'')
      | "]" :: rest' => Some ([v], rest')
      | _ => None
      end%char
  end
with members (fuel : nat) (s : list ascii)
  : option (list (string * json) * list ascii) :=
  match fuel with
  | O => None
  | S fuel =>
      match skip_ws s with
      | q :: rest =>
          if Ascii.eqb q dq_char then
            '(key, rest) ← string_body rest;
            match skip_ws rest with
            | ":" :: rest =>
                '(v, rest) ← value fuel rest;
                match skip_ws rest with
                | "," :: rest' =>
                    '(l, rest'') ← members fuel rest';
                    Some ((Str.of_chars key, v) :: l, rest'')
                | "}" :: rest' => Some ([(Str.of_chars key, v)], rest')
                | _ => None
                end
            | _ => None
            end%char
          else None
      | [] => None
      end
  end.

Definition loads (text : string) : option json :=
  '(v, rest) ← value (S (String.length text)) (Str.chars text);
  match skip_ws rest with
  | [] => Some v
  | _ => None
  end.

(** *** A JSON writer with two blanks per level *)

Definition indent (level : nat) : string :=
  Str.of_chars (replicate (2 * level) " "%char).

Fixpoint dumps_at (level : nat) (v : json) : string :=
  match v with
  | JNull => "null"
  | JBool b => if b then "true" else "false"
  | JNum n => Str.of_Z n
  | JStr t => dq +:+ t +:+ dq
  | JArr [] => "[]"
  | JArr l =>
      "[" +:+ nl
      +:+ Str.join ("," +:+ nl)
            ((fun x => indent (S level) +:+ dumps_at (S level) x) <$> l)
      +:+ nl +:+ indent level +:+ "]"
  | JObj [] => "{}"
  | JObj l =>
      "{" +:+ nl
      +:+ Str.join ("," +:+ nl)
            ((fun kv => indent (S level) +:+ dq +:+ fst kv +:+ dq +:+ ": "
                        +:+ dumps_at (S level) (snd kv)) <$> l)
      +:+ nl +:+ indent level +:+ "}"
  end.

(** [str] of a scalar; a container is shown as its JSON text. *)
Definition str (v : json) : string :=
  match v with
  | JNull => "None"
  | JBool b => Str.of_bool b
  | JStr t => t
  | _ => dumps_at 0 v
  end.

#[export] Instance platform : Platform world := {|
  path_exists p w := bool_decide (is_Some (files w !! p))
                     || bool_decide (p ∈ dirs w);
  path_is_dir p w := bool_decide (p ∈ dirs w);
  path_is_file p w := bool_decide (is_Some (files w !! p));
  path_is_symlink p w := false;
  fs_read_text p w := files w !! p;
  fs_write_text p text w :=
    Some {| files := <[p := text]> (files w); dirs := dirs w; env := env w;
            stdin := stdin w; gh_runs := gh_runs w;
            gh_releases := gh_releases w;
            push_main_status := push_main_status w; clock := clock w;
            api_releases := api_releases w;
            http_answers := http_answers w |};
  fs_rglob := rglob;
  fs_glob := glob;
  fs_iterdir_repr p w := Some "[]";
  os_getenv k w := env w !! k;
  os_getcwd w := "/work/nodetool-registry";
  script_file w := "/work/nodetool-registry/release/release.py";
  subprocess_run := run;
  builtin_input prompt w :=
    match stdin w with
    | [] => (None, w)
    | line :: rest =>
        (Some line,
         {| files := files w; dirs := dirs w; env := env w; stdin := rest;
            gh_runs := gh_runs w; gh_releases := gh_releases w;
            push_main_status := push_main_status w; clock := clock w;
            api_releases := api_releases w;
            http_answers := http_answers w |})
    end;
  time_sleep n w :=
    {| files := files w; dirs := dirs w; env := env w; stdin := stdin w;
       gh_runs := gh_runs w; gh_releases := gh_releases w;
       push_main_status := push_main_status w; clock := clock w + n;
       api_releases := api_releases w; http_answers := http_answers w |};
  json_loads := loads;
  json_dumps := dumps_at 0;
  py_str := str;
|}.

#[export] Instance network : Network world := {|
  client_get_releases repo w := (default [] (api_releases w !! repo), w);
  requests_head u w := (http_answers w !! u, w);
  requests_get u w := (http_answers w !! u, w);
  sha256_hexdigest c := "sha256-of-" +:+ c;
  py_int t :=
    match number (Str.chars t) with
    | Some (n, []) => Some n
    | _ => None
    end;
  fs_mkdir p w :=
    Some {| files := files w; dirs := {[p]} ∪ dirs w; env := env w;
            stdin := stdin w; gh_runs := gh_runs w;
            gh_releases := gh_releases w;
            push_main_status := push_main_status w; clock := clock w;
            api_releases := api_releases w;
            http_answers := http_answers w |};
  exception_text e := "error";
|}.

(** Versions that are release segments only: [1.2.3]. *)
Fixpoint segments (fuel : nat) (s : list ascii) : option (list nat) :=
  match fuel with
  | O => None
  | S fuel =>
      match digits s with
      | ([], _) => None
      | (d, []) => Some [Re.decimal d]
      | (d, c :: rest) =>
          if Ascii.eqb c "." then
            l ← segments fuel rest; Some (Re.decimal d :: l)
          else None
      end
  end.

(** The order of release segments, the shorter one padded with zeros. *)
Fixpoint segments_lt (a b : list nat) : bool :=
  match a, b with
  | [], [] => false
  | [], y :: b' => (0 <? y)%nat || ((y =? 0)%nat && segments_lt [] b')
  | x :: a', [] => false
  | x :: a', y :: b' => (x <? y)%nat || ((x =? y)%nat && segments_lt a' b')
  end.

#[export] Instance packaging : Packaging (list nat) := {|
  version_parse t := segments (S (String.length t)) (Str.chars t);
  version_lt := segments_lt;
  version_str v := Str.join "." ((fun n => Str.of_Z (Z.of_nat n)) <$> v);
|}.
End Sim.

(** ** Scenarios in the simulated world *)

Module Scenario.
Import Sim.

(** One line of [gh run list --json ...]: a run of the Release workflow on
    the branch [v1.2.3], completed with the given conclusion. *)
Definition runs_json (conclusion : string) : string :=
  "[{" +:+ dq +:+ "databaseId" +:+ dq +:+ ": 42, "
  +:+ dq +:+ "status" +:+ dq +:+ ": " +:+ dq +:+ "completed" +:+ dq +:+ ", "
  +:+ dq +:+ "conclusion" +:+ dq +:+ ": " +:+ dq +:+ conclusion +:+ dq +:+ ", "
  +:+ dq +:+ "headBranch" +:+ dq +:+ ": " +:+ dq +:+ "v1.2.3" +:+ dq +:+ ", "
  +:+ dq +:+ "workflowName" +:+ dq +:+ ": " +:+ dq +:+ "Release" +:+ dq
  +:+ "}]".

Definition core : string := "/work/nodetool-core".

(** A checkout of nodetool-core next to the registry, with a
    [pyproject.toml] at version 0.1.0. *)
Definition checkout : world :=
  {| files :=
       {[ "/work/nodetool-core/pyproject.toml" :=
            "[project]" +:+ nl
            +:+ "name = " +:+ dq +:+ "nodetool-core" +:+ dq +:+ nl
            +:+ "version = " +:+ dq +:+ "0.1.0" +:+ dq +:+ nl ]};
     dirs := {[ "/work"; core; "/work/nodetool-core/.git" ]};
     env := ∅; stdin := []; gh_runs := ∅; gh_releases := ∅;
     push_main_status := 0; clock := 0; api_releases := ∅;
     http_answers := ∅ |}.

(** The release run of nodetool-core has the given conclusion, at every
    poll. *)
Definition concluded (conclusion : string) : world :=
  {| files := files checkout; dirs := dirs checkout; env := ∅; stdin := [];
     gh_runs := {[ core := runs_json conclusion ]}; gh_releases := ∅;
     push_main_status := 0; clock := 0; api_releases := ∅;
     http_answers := ∅ |}.

(** [gh run list] fails; no release is published. *)
Definition query_fails : world := checkout.

(** The remote rejects the push of the commit. *)
Definition push_rejected : world :=
  {| files := files checkout; dirs := dirs checkout; env := ∅; stdin := [];
     gh_runs := ∅; gh_releases := ∅; push_main_status := 1; clock := 0;
     api_releases := ∅; http_answers := ∅ |}.

(** The user answers [n] at the prompt. *)
Definition user_says_no : world :=
  {| files := files checkout; dirs := dirs checkout; env := ∅;
     stdin := ["n"]; gh_runs := ∅; gh_releases := ∅; push_main_status := 0;
     clock := 0; api_releases := ∅; http_answers := ∅ |}.

Definition release_args (tag : string) : args :=
  {| arg_version_tag := tag; arg_update_versions := true;
     arg_no_wait_core := false; arg_repo := None |}.

(** Three releases of a package, the newest a prerelease. *)
Definition wheel_asset (v : string) : asset :=
  {| asset_name := "pkg-" +:+ v +:+ "-py3-none-any.whl";
     browser_download_url :=
       "https://github.com/o/pkg/releases/download/v" +:+ v
       +:+ "/pkg-" +:+ v +:+ "-py3-none-any.whl" |}.

Definition released (v : string) (pre : bool) : release :=
  {| draft := false; prerelease := pre; tag_name := "v" +:+ v;
     assets := [wheel_asset v]; published_at := "2025-01-01T00:00:00Z" |}.

Definition registry : world :=
  {| files := ∅; dirs := ∅; env := ∅; stdin := []; gh_runs := ∅;
     gh_releases := ∅; push_main_status := 0; clock := 0;
     api_releases :=
       {[ "o/pkg" := [released "2.0.0-rc1" true; released "1.0.0" false;
                      released "1.1.0" false] ]};
     http_answers := ∅ |}.

(** Nothing but the file [path]. *)
Definition with_file (path content : string) : world :=
  {| files := {[ path := content ]}; dirs := ∅; env := ∅; stdin := [];
     gh_runs := ∅; gh_releases := ∅; push_main_status := 0; clock := 0;
     api_releases := ∅; http_answers := ∅ |}.

(** A package whose own name contains the name of the dependency. *)
Definition extras_toml : string :=
  "[project]" +:+ nl
  +:+ "name = " +:+ dq +:+ "nodetool-core-extras" +:+ dq +:+ nl
  +:+ "dependencies = [" +:+ dq +:+ "nodetool-core>=0.1.0" +:+ dq +:+ "]"
  +:+ nl.

(** A double quote opens before [nodetool-core] inside a literal string and
    is not closed on its line; the next line is the name declaration. *)
Definition straddling_toml : string :=
  "description = 'uses " +:+ dq +:+ "nodetool-core'" +:+ nl
  +:+ "name = " +:+ dq +:+ "pkg" +:+ dq +:+ nl.
End Scenario.

(** ** The vocabulary of the properties *)

Definition is_print (e : event) : bool :=
  match e with Print _ => true | _ => false end.

(** Does the command line [cmd] begin with the words [ws]? *)
Fixpoint starts_with_words (ws cmd : list string) : bool :=
  match ws, cmd with
  | [], _ => true
  | w :: ws', c :: cmd' => (w =s? c) && starts_with_words ws' cmd'
  | _ :: _, [] => false
  end.

(** The event of fetching a run log, [gh run view <id> --log], in the
    repository at [repo_path]. *)
Definition is_log_fetch (repo_path : string) (e : event) : bool :=
  match e with
  | Run cmd (Some p) _ =>
      starts_with_words ["gh"; "run"; "view"] cmd && (p =s? repo_path)
  | _ => false
  end.

(** How many times the trace [t] fetches the run log of [repo_path]. *)
Definition log_fetches (repo_path : string) (t : list event) : nat :=
  length (List.filter (is_log_fetch repo_path) t).

Fixpoint words_eqb (a b : list string) : bool :=
  match a, b with
  | [], [] => true
  | x :: a', y :: b' => (x =s? y) && words_eqb a' b'
  | _, _ => false
  end.

(** The seconds that the trace [t] sleeps. *)
Definition seconds_slept (t : list event) : Z :=
  foldr (fun e acc => match e with Sleep n => n + acc | _ => acc end) 0 t.

(** Does the trace [t] print the line [line]? *)
Definition prints_line (line : string) (t : list event) : bool :=
  existsb (fun e => match e with Print l => l =s? line | _ => false end) t.

(** The command that pushes the version-bump commit. *)
Definition PUSH_MAIN : list string := ["git"; "push"; "-v"; "origin"; "main"].

Definition is_push_main (e : event) : bool :=
  match e with
  | Run cmd _ _ => words_eqb PUSH_MAIN cmd
  | _ => false
  end.

(** The events of tagging: [git tag ...] and the forced push of a tag,
    [git push -v -f origin <tag>]. *)
Definition is_tag_command (e : event) : bool :=
  match e with
  | Run cmd _ _ =>
      starts_with_words ["git"; "tag"] cmd
      || starts_with_words ["git"; "push"; "-v"; "-f"] cmd
  | _ => false
  end.

(** The push of the commit and the events of tagging. *)
Definition is_release_step (e : event) : bool :=
  is_push_main e || is_tag_command e.

(** Is [e] the writing of a file? *)
Definition is_write (e : event) : bool :=
  match e with WriteText _ _ => true | _ => false end.

(** The wheel record of the asset [a] in a release of version [v]. *)
Definition wheel_of (a : asset) (v : string) (w : wheel) : Prop :=
  url w = browser_download_url a /\ filename w = asset_name a /\ version w = v.

(** A published release with the tag [tag] and the one wheel asset [a]. *)
Definition plain_release (tag : string) (a : asset) (r : release) : Prop :=
  tag_name r = tag /\ draft r = false /\ prerelease r = false
  /\ assets r = [a] /\ Str.endswith (asset_name a) ".whl" = true.

(** What one round of the poll loop knows about the log of [repo]: it has
    been fetched [n] times so far, once at most, and if it has been fetched
    then [repo] is in the set of logged failures. *)
Definition fetched_is_logged (repo : string) (logged : gset string) (n : nat)
  : Prop :=
  (n <= 1)%nat /\ (n = 1%nat -> repo ∈ logged).

Section Vocabulary.
Context {W : Type} `{Platform W}.

(** Every event of every run of [m] satisfies [P]. *)
Definition only {A} (P : event -> Prop) (m : M W A) : Prop :=
  forall w, Forall P (events_of (m w)).

(** No run of [m] fetches the run log of [repo_path] more than [n] times. *)
Definition fetches_at_most {A} (n : nat) (repo_path : string) (m : M W A)
  : Prop :=
  forall w, (log_fetches repo_path (events_of (m w)) <= n)%nat.

(** A computation that only prints: it returns, and leaves the world as it
    was. *)
Definition quiet {A} (m : M W A) : Prop :=
  forall w, exists a t,
    m w = Result (Ret a) w t /\ Forall (fun e => is_print e = true) t.

(** A run of [process_repo] for the repository at [repo_path] that ends
    where the push of the commit failed with the result [p]: no tagging event
    at all, and at the end the three error lines for [repo] and the git
    diagnostics, whose outcome is the outcome of the run. *)
Definition stopped_at_push (repo repo_path : string) (p : completed)
  (r : result W unit) : Prop :=
  Forall (fun e => is_tag_command e = false) (events_of r)
  /\ exists before w1,
       events_of r =
         before ++
         [Print (RED +:+ "[ERROR]" +:+ NC +:+ " "
                 +:+ "  Failed to push commit for " +:+ repo);
          Print (RED +:+ "[ERROR]" +:+ NC +:+ " "
                 +:+ "  stdout: " +:+ or_empty (stdout p));
          Print (RED +:+ "[ERROR]" +:+ NC +:+ " "
                 +:+ "  stderr: " +:+ or_empty (stderr p))]
         ++ events_of (print_git_diagnostics repo_path w1)
       /\ outcome_of r = outcome_of (print_git_diagnostics repo_path w1).

(** One run of [process_repo]: if it holds a failed push of the commit, it
    stopped there. *)
Definition stops_on_failed_push (repo repo_path : string)
  (r : result W unit) : Prop :=
  forall p,
    Run PUSH_MAIN (Some repo_path) (Some p) ∈ events_of r ->
    returncode p <> 0 ->
    stopped_at_push repo repo_path p r.

(** A run of [main] that ends because the user declined a version tag
    without [v]: exit status 1, the world that [input] left, and no event
    but printing before the warning and the question. *)
Definition declined (w1 : W) (answer : string) (r : result W unit) : Prop :=
  outcome_of r = Exit 1
  /\ world_of r = w1
  /\ exists diagnostics,
       events_of r =
         diagnostics ++
         [Print (YELLOW +:+ "[WARNING]" +:+ NC +:+ " " +:+
                 "Version tag should follow format: v<major>.<minor>.<patch> (e.g., v1.2.3)");
          Input "Continue anyway? (y/n) " (Some answer)]
       /\ Forall (fun e => is_print e = true) diagnostics.
End Vocabulary.

(** The matches [ms] come one after the other between the offsets [lo] and
    [hi], and none of them is empty. *)
Fixpoint ordered (lo hi : nat) (ms : list Re.rmatch) : Prop :=
  match ms with
  | [] => True
  | m :: ms' =>
      (lo <= Re.m_start m)%nat /\ (Re.m_start m < Re.m_end m)%nat
      /\ (Re.m_end m <= hi)%nat /\ ordered (Re.m_end m) hi ms'
  end.




(** An event that a patcher of the file [path] may cause: a printed line, or
    the writing of [path] itself. *)
Definition prints_or_writes (path : string) (e : event) : Prop :=
  match e with
  | Print _ => True
  | WriteText p _ => p = path
  | _ => False
  end.

(** A patcher of the file [path], which held [text], that ended with the
    outcome [o] after the events [t], told the truth: it wrote nothing but
    [path], never the text that was there, it wrote when it says that it
    changed the file, and it did not when it says that it did not. *)
Definition honest_report (path text : string) (o : outcome bool)
  (t : list event) : Prop :=
  (forall p new, In (WriteText p new) t -> p = path /\ new <> text)
  /\ (o = Ret true -> exists new, In (WriteText path new) t)
  /\ (o = Ret false -> forall p new, ~ In (WriteText p new) t).

(** The test of the loop of [get_release_run]: a run on the branch [tag]
    whose workflow is a release workflow.  A run that is no dict fails the
    test here; in the loop it raises. *)
Definition is_release_run (tag : string) (run : json) : bool :=
  match Py.get run "headBranch" (JStr ""),
        Py.get run "workflowName" (JStr "") with
  | Some branch, Some workflow_name =>
      Py.eq_str branch tag
      && existsb (Py.eq_str workflow_name) RELEASE_WORKFLOWS
  | _, _ => false
  end.

(** A run that the loop of [get_release_run] passes over: a dict that is no
    release run of the tag. *)
Definition passed_over (tag : string) (run : json) : Prop :=
  (exists fields, run = JObj fields) /\ is_release_run tag run = false.

(** What [get_release_run] makes of the list [l] of runs that the query
    returned.  It returns a run: the first release run of the tag, and all
    runs before it are dicts that are no release runs of the tag.  It
    returns no run: every run of the list is such a dict.  It raises
    [AttributeError]: at the first run that is no dict, and all runs before
    that one are dicts that are no release runs of the tag. *)
Definition first_of_runs (tag : string) (l : list json)
  (o : outcome (option json * bool)) : Prop :=
  match o with
  | Ret (Some run, ok) =>
      ok = true
      /\ exists before after,
           l = before ++ run :: after
           /\ is_release_run tag run = true
           /\ Forall (passed_over tag) before
  | Ret (None, ok) =>
      ok = true /\ Forall (passed_over tag) l
  | Raise e =>
      e = OtherError "AttributeError"
      /\ exists before x after,
           l = before ++ x :: after
           /\ (forall fields, x <> JObj fields)
           /\ Forall (passed_over tag) before
  | Exit _ => False
  end.

Definition is_sleep (e : event) : bool :=
  match e with Sleep _ => true | _ => false end.

(** The line that [wait_for_repos] prints when the time is up. *)
Definition TIMEOUT_LINE : string :=
  RED +:+ "[ERROR]" +:+ NC +:+ " "
  +:+ "Timeout waiting for release workflows to complete".

(** A computation that never ends in [sys.exit]. *)
Definition never_exits {W A} (m : M W A) : Prop :=
  forall w c, outcome_of (m w) <> Exit c.

(** What holds of the flags of a round of [wait_for_repos]: a repository
    that failed has also been counted as not completed. *)
Definition failed_is_pending (v : round) : Prop :=
  any_failed v = true -> all_completed v = false.

(** How a run of the poll loop that starts after [elapsed] seconds ends:
    within the budget, and if by [sys.exit], then by the exit of the
    time-out, with status 1, when all of the budget has been slept. *)
Definition within_budget {W} (elapsed : Z) (r : result W unit) : Prop :=
  elapsed + seconds_slept (events_of r) <= MAX_WAIT
  /\ forall c, outcome_of r = Exit c ->
               c = 1
               /\ elapsed + seconds_slept (events_of r) = MAX_WAIT
               /\ last (events_of r) = Some (Print TIMEOUT_LINE).

(** ** More scenarios *)

Module Cases.
Import Sim Scenario.

(** A [package.json] at version 0.1.0. *)
Definition package_json : string :=
  "{" +:+ dq +:+ "name" +:+ dq +:+ ": " +:+ dq +:+ "pkg" +:+ dq +:+ ", "
  +:+ dq +:+ "version" +:+ dq +:+ ": " +:+ dq +:+ "0.1.0" +:+ dq +:+ "}".

(** The same at version 1.2.3, as [json.dumps] with [indent=2] writes it. *)
Definition package_json_released : string :=
  "{" +:+ nl
  +:+ "  " +:+ dq +:+ "name" +:+ dq +:+ ": " +:+ dq +:+ "pkg" +:+ dq +:+ ","
  +:+ nl
  +:+ "  " +:+ dq +:+ "version" +:+ dq +:+ ": " +:+ dq +:+ "1.2.3" +:+ dq
  +:+ nl +:+ "}" +:+ nl.

(** The run that [runs_json] describes. *)
Definition release_run (conclusion : string) : json :=
  JObj [("databaseId", JNum 42); ("status", JStr "completed");
        ("conclusion", JStr conclusion); ("headBranch", JStr "v1.2.3");
        ("workflowName", JStr "Release")].
End Cases.

(** The staging, the commit and the push of version updates: [git add],
    [git commit] and [git push -v origin main]. *)
Definition is_staging (e : event) : bool :=
  match e with
  | Run cmd _ _ =>
      starts_with_words ["git"; "add"] cmd
      || starts_with_words ["git"; "commit"] cmd
      || words_eqb PUSH_MAIN cmd
  | _ => false
  end.

(** An event that leaves the files and the commits alone. *)
Definition keeps_hands_off (e : event) : Prop :=
  is_write e = false /\ is_staging e = false.

(** The command with which [main] starts the build of the index. *)
Definition TRIGGER : list string :=
  ["gh"; "workflow"; "run"; REGISTRY_WORKFLOW_ID].

(** An event of a release that touches no repository: a printed line or a
    [gh] command. *)
Definition prints_or_asks_gh (e : event) : Prop :=
  match e with
  | Print _ => True
  | Run cmd _ _ => head cmd = Some "gh"
  | _ => False
  end.

(** A run of [m] from [w] that only prints: it returns and leaves [w] as it
    was. *)
Definition quiet_at {W A} (w : W) (m : M W A) : Prop :=
  exists a t, m w = Result (Ret a) w t /\ Forall (fun e => is_print e = true) t.

(** A run of [main] from a directory [cwd] without checkouts: nothing but
    lines and [gh] commands, among them the trigger of the registry workflow,
    which ended as [p]; and a trigger that failed ends the run with status
    1. *)
Definition released_nothing {W} (cwd : string) (p : completed)
  (r : result W unit) : Prop :=
  Forall prints_or_asks_gh (events_of r)
  /\ In (Run TRIGGER (Some cwd) (Some p)) (events_of r)
  /\ (returncode p <> 0 -> outcome_of r = Exit 1).

(** A run that ends with status 1 after printing [line], having done nothing
    but printing, in the world [w]. *)
Definition refused {W} (w : W) (line : string) (r : result W unit) : Prop :=
  outcome_of r = Exit 1 /\ world_of r = w
  /\ Forall (fun e => is_print e = true) (events_of r)
  /\ last (events_of r) = Some (Print line).

(** The question that [main] asks about a tag that does not start with
    [v]. *)
Definition QUESTION : string := "Continue anyway? (y/n) ".

(** A run that asked the question, was given [answer], which left the world
    [w1], and got no further than the check of [--repo]: the question is its
    one event that is no printed line.  Without an answer it ends with
    [EOFError]; with an answer it ends with status 1, at the question when
    the answer is not [y] or [yes] in lower case, and after printing [line]
    when it is. *)
Definition refused_after_question {W} (w1 : W) (answer : option string)
  (line : string) (r : result W unit) : Prop :=
  world_of r = w1
  /\ outcome_of r = match answer with
                    | Some _ => Exit 1
                    | None => Raise (OtherError "EOFError")
                    end
  /\ exists before,
       Forall (fun e => is_print e = true) before
       /\ events_of r =
            before ++ Input QUESTION answer
            :: match answer with
               | Some s =>
                   if bool_decide (Str.lower s ∈ ["y"; "yes"])
                   then [Print line] else []
               | None => []
               end.

Section TurnedAway.
Context {W : Type} `{Platform W}.

(** A run of [main] for the version tag [tag] from the world [w] that got no
    further than the check of [--repo], whose error line is [line]: either
    it was refused there, having only printed, or the tag does not start
    with [v] and the question about it came first. *)
Definition turned_away (tag line : string) (w : W) (r : result W unit)
  : Prop :=
  if Str.startswith tag "v" then refused w line r
  else
    let '(answer, w1) := builtin_input QUESTION w in
    refused_after_question w1 answer line r.
End TurnedAway.

(** The variables in which [setup_git_auth] looks for a token. *)
Definition TOKEN_VARS : list string := ["GH_PAT"; "GITHUB_TOKEN"; "GH_TOKEN"].

(** The line with which [run_command] announces a command. *)
Definition running_line (cmd : list string) (cwd : option string) : string :=
  GREEN +:+ "[INFO]" +:+ NC +:+ " " +:+ "Running: " +:+ Str.join " " cmd
  +:+ " (cwd=" +:+ str_of_cwd cwd +:+ ")".

Definition is_request (e : event) : bool :=
  match e with Request _ _ => true | _ => false end.

(** The number of HTTP requests in the trace [t]. *)
Definition requests (t : list event) : nat := length (List.filter is_request t).

(** An event of looking at the wheel at [asset_url]: a request for the wheel
    or for its metadata file, or a printed line. *)
Definition asks_about (asset_url : string) (e : event) : Prop :=
  match e with
  | Request _ u => u = asset_url \/ u = asset_url +:+ ".metadata"
  | Print _ => True
  | _ => False
  end.

(** The record that [get_wheel_metadata] returns when something went
    wrong. *)
Definition is_fallback (wh : wheel) : Prop :=
  size wh = 0 /\ upload_time wh = "" /\ metadata_available wh = false
  /\ metadata_sha256 wh = None.

(** What the page shows of a wheel, besides size and metadata: where it is,
    its name, its version and the date of its release. *)
Definition entry (wh : wheel) : string * string * string * string :=
  (url wh, filename wh, version wh, release_date wh).

(** Does the asset [a] pass the wheel filter?  It is a wheel, and its name
    contains the filter, if there is one. *)
Definition selected (wheel_filter : option string) (a : asset) : bool :=
  Str.endswith (asset_name a) ".whl"
  && negb match wheel_filter with
          | Some f => Str.truthy f && negb (Str.contains f (asset_name a))
          | None => false
          end.

Section Listing.
Context {V : Type} `{Packaging V}.

(** Is [r] a release that the page shows?  It is no draft and no
    prerelease, and its tag is a version. *)
Definition is_valid (r : release) : bool :=
  negb (draft r || prerelease r)
  && match parse_version (tag_name r) with
     | Ret (Some _) => true
     | _ => false
     end.

(** The entries of the selected wheels of the releases [l], in the order of
    [l] and, within a release, in the order of its assets. *)
Definition entries_of (wheel_filter : option string) (l : list (V * release))
  : list (string * string * string * string) :=
  flat_map
    (fun '(v, r) =>
       map (fun a => (browser_download_url a, asset_name a, version_str v,
                      published_at r))
         (List.filter (selected wheel_filter) (assets r)))
    l.

(** Every version is followed by one that is not greater. *)
Fixpoint descending (l : list (V * release)) : Prop :=
  match l with
  | x :: (y :: _) as l' => version_lt (fst x) (fst y) = false /\ descending l'
  | _ => True
  end.
End Listing.

(** ** A checkout with a remote and a token

    One directory, whose remote [origin] is on GitHub; the environment holds
    a token.  Every command ends well, and [git remote get-url origin] prints
    the URL of the remote. *)

Module Hosted.

Inductive world := Here.

Definition token : string := "ghp_0123456789abcdef".

Definition remote : string := "https://github.com/nodetool-ai/nodetool-core.git".

Definition run (cmd : list string) (cwd : option string) (w : world)
  : option completed * world :=
  (Some (match cmd with
         | ["git"; "remote"; "get-url"; "origin"] => Sim.ok (remote +:+ nl)
         | _ => Sim.ok ""
         end), w).

#[export] Instance platform : Platform world := {|
  path_exists p w := false;
  path_is_dir p w := false;
  path_is_file p w := false;
  path_is_symlink p w := false;
  fs_read_text p w := None;
  fs_write_text p text w := None;
  fs_rglob root pattern w := [];
  fs_glob root pattern w := [];
  fs_iterdir_repr p w := Some "[]";
  os_getenv k w := if k =s? "GITHUB_TOKEN" then Some token else None;
  os_getcwd w := "/work/nodetool-core";
  script_file w := "/work/nodetool-registry/release/release.py";
  subprocess_run := run;
  builtin_input prompt w := (None, w);
  time_sleep n w := w;
  json_loads := Sim.loads;
  json_dumps := Sim.dumps_at 0;
  py_str := Sim.str;
|}.
End Hosted.

(** The command of [generate_uv_lock]. *)
Definition is_uv_lock (e : event) : bool :=
  match e with
  | Run cmd _ _ => words_eqb ["uv"; "lock"] cmd
  | _ => false
  end.

Section Found.
Context {W : Type} `{Platform W}.

(** A path that [find_dockerfiles] yields in [repo_path], in some world. *)
Definition found_dockerfile (repo_path path : string) : Prop :=
  exists w : W,
    In path (fs_rglob repo_path "Dockerfile*" w)
    /\ path_is_file path w = true
    /\ not_in_parts [".venv"; "node_modules"] path = true.

(** What the release of a Python package may write: its [pyproject.toml],
    its Copilot workflow and its Dockerfiles. *)
Definition python_release_event (repo_path : string) (e : event) : Prop :=
  match e with
  | WriteText p _ =>
      p = Path.join repo_path "pyproject.toml"
      \/ p = Path.join repo_path ".github/workflows/copilot-setup-steps.yml"
      \/ found_dockerfile repo_path p
  | _ => True
  end.
End Found.

(** ** [scripts/generate_metadata.py]

    The manifest of the packages is made from the pages that
    [build_index.py] wrote.  The entries of a directory and the clock are
    asked of the world. *)

(** [s.count(sub)] for a non-empty [sub]: the occurrences are taken from the
    left and do not overlap.  [skip] counts the characters of the occurrence
    in progress that are still to be passed. *)
Fixpoint count_chars (sub : list ascii) (skip : nat) (s : list ascii) : nat :=
  match s with
  | [] => 0
  | c :: s' =>
      match skip with
      | S k => count_chars sub k s'
      | O =>
          if Str.is_prefix sub s
          then S (count_chars sub (length sub - 1) s')
          else count_chars sub 0 s'
      end
  end.

Definition str_count (s sub : string) : Z :=
  Z.of_nat (count_chars (Str.chars sub) 0 (Str.chars s)).

Class Directory (W : Type) := {
  (** [list(path.iterdir())]; [None] is an [OSError]. *)
  fs_iterdir : string -> W -> option (list string);
  (** [time.strftime(format, time.gmtime())] *)
  time_strftime : string -> W -> string;
}.

(** One entry of the manifest: the dict with the keys [name], [url],
    [wheel_count] and [last_updated]. *)
Record package_info := {
  pi_name : string;
  pi_url : string;
  pi_wheel_count : Z;
  pi_last_updated : string;
}.

Definition info_json (p : package_info) : json :=
  JObj [("name", JStr (pi_name p)); ("url", JStr (pi_url p));
        ("wheel_count", JNum (pi_wheel_count p));
        ("last_updated", JStr (pi_last_updated p))].

(** [sorted(packages, key=lambda x: x['name'])]: the least name first, and
    entries of equal name in the order they had. *)
Fixpoint insert_by_name (x : package_info) (l : list package_info)
  : list package_info :=
  match l with
  | [] => [x]
  | y :: l' =>
      if String.ltb (pi_name x) (pi_name y) then x :: l
      else y :: insert_by_name x l'
  end.

Definition sort_by_name (l : list package_info) : list package_info :=
  fold_left (fun acc x => insert_by_name x acc) l [].

Definition TIME_FORMAT : string := "%Y-%m-%dT%H:%M:%SZ".

Definition SIMPLE_URL : string :=
  "https://nodetool-ai.github.io/nodetool-registry/simple/".

Section Metadata.
Context {W : Type} `{Platform W} `{Directory W}.

Definition iterdir (path : string) : M W (list string) :=
  o ← ask (fs_iterdir path);
  match o with
  | Some l => mret l
  | None => raise (OtherError "OSError")
  end.

(** The body of the loop of [generate_packages_manifest]. *)
Definition scan_package_dir (packages : list package_info)
  (package_dir : string) : M W (list package_info) :=
  is_dir ← ask (path_is_dir package_dir);
  if negb is_dir then mret packages else
  has_index ← ask (path_exists (Path.join package_dir "index.html"));
  if negb has_index then mret packages else
  content ← read_text (Path.join package_dir "index.html");
  let wheel_count := str_count content ".whl" in
  now ← ask (time_strftime TIME_FORMAT);
  mret (packages ++
        [{| pi_name := Path.name package_dir;
            pi_url := SIMPLE_URL +:+ Path.name package_dir +:+ "/";
            pi_wheel_count := wheel_count;
            pi_last_updated := now |}]).

Definition generate_packages_manifest (output_dir : string) : M W unit :=
  let simple_dir := Path.join output_dir "simple" in
  ex ← ask (path_exists simple_dir);
  packages ← (if ex : bool then
                dirs ← iterdir simple_dir;
                for_fold dirs [] scan_package_dir
              else mret []);
  now ← ask (time_strftime TIME_FORMAT);
  write_text (Path.join output_dir "packages.json")
    (json_dumps
       (JObj [("packages", JArr (info_json <$> sort_by_name packages));
              ("count", JNum (Z.of_nat (length packages)));
              ("generated", JStr now)])).
End Metadata.

(** All the places of [s] where [sub] begins. *)
Fixpoint occurrences (sub s : list ascii) : nat :=
  match s with
  | [] => 0
  | _ :: s' => (if Str.is_prefix sub s then 1 else 0) + occurrences sub s'
  end.

(** The wheel [wh] has [.whl] in its URL and in its file name. *)
Definition names_a_wheel (wh : wheel) : Prop :=
  Str.contains ".whl" (url wh) = true
  /\ Str.contains ".whl" (filename wh) = true.

(** ** The published pages in the simulated world *)

Module Docs.
Import Sim Scenario.

(** The entries of a directory are the files and directories whose parent
    it is; the clock stands still. *)
#[export] Instance directory : Directory world := {|
  fs_iterdir p w :=
    if bool_decide (p ∈ dirs w)
    then Some (List.filter (fun q => Path.parent q =s? p) (entries w))
    else None;
  time_strftime format w := "2025-01-01T00:00:00Z";
|}.

(** The wheel of the release [v] of [pkg], as [generate_package_page] lists
    it. *)
Definition listed (v : string) : wheel :=
  {| url := browser_download_url (wheel_asset v);
     filename := asset_name (wheel_asset v);
     size := 1024; upload_time := ""; metadata_available := false;
     metadata_sha256 := None; version := v;
     release_date := "2025-01-01T00:00:00Z" |}.

Definition page : string :=
  Str.join nl (html_lines "pkg" [listed "1.1.0"; listed "1.0.0"]).

(** The output directory after [build_index.py] has run for [pkg]. *)
Definition published : world :=
  {| files := {[ "/docs/simple/pkg/index.html" := page ]};
     dirs := {[ "/docs"; "/docs/simple"; "/docs/simple/pkg" ]};
     env := ∅; stdin := []; gh_runs := ∅; gh_releases := ∅;
     push_main_status := 0; clock := 0; api_releases := ∅;
     http_answers := ∅ |}.
End Docs.

(** ** [RegistryManager] and the package table of the index builder

    The registry is the decoded [index.json].  A record of the logger goes
    to the handlers of the world; it is no event of the run. *)

Class Logging (W : Type) := {
  (** [logger.<level>(msg)] *)
  logger_emit : string -> string -> W -> W;
}.

(** [pkg.get("repo_id", "").startswith("nodetool-ai/")]: a package that is
    no dict, or whose [repo_id] is no string, has no [get] or no
    [startswith]. *)
Definition is_nodetool_ai (pkg : json) : outcome bool :=
  match Py.get pkg "repo_id" (JStr "") with
  | Some (JStr repo_id) => Ret (Str.startswith repo_id "nodetool-ai/")
  | _ => Raise (OtherError "AttributeError")
  end.

(** [[pkg for pkg in packages if keep(pkg)]] *)
Fixpoint comprehension (keep : json -> outcome bool) (l : list json)
  : outcome (list json) :=
  match l with
  | [] => Ret []
  | pkg :: rest =>
      match keep pkg with
      | Ret b =>
          match comprehension keep rest with
          | Ret r => Ret (if b then pkg :: r else r)
          | e => e
          end
      | Raise e => Raise e
      | Exit c => Exit c
      end
  end.

(** [not pkg.get("repo_id", "").startswith("nodetool-ai/")] *)
Definition is_external (pkg : json) : outcome bool :=
  match is_nodetool_ai pkg with
  | Ret b => Ret (negb b)
  | e => e
  end.

(** The body of the loop of [get_external_repos]: the identifier to add, if
    any.  A falsy [repo_id] is passed over before [startswith] is asked
    of it. *)
Definition external_repo (pkg : json) : outcome (option string) :=
  match Py.get pkg "repo_id" (JStr "") with
  | None => Raise (OtherError "AttributeError")
  | Some repo_id =>
      if Py.truthy repo_id then
        match repo_id with
        | JStr s =>
            Ret (if Str.startswith s "nodetool-ai/" then None else Some s)
        | _ => Raise (OtherError "AttributeError")
        end
      else Ret None
  end.

Fixpoint collect_external (l : list json) (acc : gset string)
  : outcome (gset string) :=
  match l with
  | [] => Ret acc
  | pkg :: rest =>
      match external_repo pkg with
      | Ret (Some s) => collect_external rest ({[ s ]} ∪ acc)
      | Ret None => collect_external rest acc
      | Raise e => Raise e
      | Exit c => Exit c
      end
  end.

(** [d[k] = v] on a dict with string values *)
Fixpoint assoc_set (k v : string) (l : list (string * string))
  : list (string * string) :=
  match l with
  | [] => [(k, v)]
  | (k', v') :: l' =>
      if k' =s? k then (k', v) :: l' else (k', v') :: assoc_set k v l'
  end.

Section Manager.
Context {W : Type} `{Platform W} `{Network W} `{Logging W}.

Definition log (level msg : string) : M W unit := fun w =>
  Result (Ret tt) (logger_emit level msg w) [].

(** [RegistryManager.load_registry] *)
Definition load_registry (registry_path : string) : M W json :=
  ex ← ask (path_exists registry_path);
  if negb ex then
    log "ERROR" ("Registry file not found: " +:+ registry_path);;
    raise FileNotFoundError
  else
    text ← read_text registry_path;
    match json_loads text with
    | Some v => mret v
    | None => raise JSONDecodeError
    end.

(** [RegistryManager.get_all_packages] *)
Definition get_all_packages (registry_path : string) : M W json :=
  registry ← load_registry registry_path;
  match Py.get registry "packages" (JArr []) with
  | Some packages => mret packages
  | None => raise (OtherError "AttributeError")
  end.

(** What a [for] goes through, or the [TypeError] of a value that cannot be
    iterated. *)
Definition iterate (v : json) : M W (list json) :=
  match py_iter v with
  | Some l => mret l
  | None => raise (OtherError "TypeError")
  end.

(** [RegistryManager.get_packages_by_filter] *)
Definition get_packages_by_filter (registry_path : string)
  (external_only nodetool_ai_only : bool) : M W json :=
  packages ← get_all_packages registry_path;
  if external_only then
    l ← iterate packages;
    kept ← lift (comprehension is_external l);
    mret (JArr kept)
  else if nodetool_ai_only then
    l ← iterate packages;
    kept ← lift (comprehension is_nodetool_ai l);
    mret (JArr kept)
  else mret packages.

(** [RegistryManager.get_external_repos] *)
Definition get_external_repos (registry_path : string) : M W (gset string) :=
  packages ← get_all_packages registry_path;
  l ← iterate packages;
  lift (collect_external l ∅).

(** The body of the loop of [_load_packages], on the two tables. *)
Definition load_package
  (tables : list (string * string) * list (string * json)) (package : json)
  : M W (list (string * string) * list (string * json)) :=
  let '(packages, package_filters) := tables in
  match Py.get package "repo_id" (JStr "") with
  | None => raise (OtherError "AttributeError")
  | Some repo_id =>
      if Py.truthy repo_id then
        match repo_id with
        | JStr s =>
            match Str.split "/" s with
            | _ :: package_name :: _ =>
                let packages := assoc_set package_name s packages in
                match Py.get package "wheel_filter" JNull with
                | Some wheel_filter =>
                    if Py.truthy wheel_filter
                    then mret (packages,
                               Py.set_item package_name wheel_filter
                                 package_filters)
                    else mret (packages, package_filters)
                | None => raise (OtherError "AttributeError")
                end
            | _ => raise (OtherError "IndexError")
            end
        | _ => raise (OtherError "AttributeError")
        end
      else mret tables
  end.

(** [NodeToolRegistryBuilder._load_packages]: the tables [self.packages]
    and [self.package_filters] that it leaves. *)
Definition _load_packages (registry_path : string)
  : M W (list (string * string) * list (string * json)) :=
  try_except
    (packages ← get_all_packages registry_path;
     l ← iterate packages;
     tables ← for_fold l ([], []) load_package;
     print ("📋 Loaded " +:+ Str.of_Z (Z.of_nat (length (fst tables)))
            +:+ " packages from registry");;
     mret tables)
    (fun e =>
       Some (print ("❌ Failed to load packages from registry: "
                    +:+ exception_text e);;
             mret ([], []))).
End Manager.

(** The [repo_id] of a package that is a dict whose [repo_id] is a string or
    is missing; the string is empty when it is missing. *)
Definition repo_id_of (pkg : json) : option string :=
  match Py.get pkg "repo_id" (JStr "") with
  | Some (JStr s) => Some s
  | _ => None
  end.

(** Is the package of the organisation?  A package with no such [repo_id]
    is not. *)
Definition ours (pkg : json) : bool :=
  match repo_id_of pkg with
  | Some s => Str.startswith s "nodetool-ai/"
  | None => false
  end.

(** What the getters of [RegistryManager] answer for the packages [l]:
    the two filters divide [l], without a filter [l] comes back as it is, and
    the external repositories are the identifiers, when not empty, of the
    external packages. *)
Definition divided (l : list json)
  (external own everything : outcome json) (repos : outcome (gset string))
  : Prop :=
  external = Ret (JArr (List.filter (fun pkg => negb (ours pkg)) l))
  /\ own = Ret (JArr (List.filter ours l))
  /\ everything = Ret (JArr l)
  /\ exists s : gset string,
       repos = Ret s
       /\ forall x, x ∈ s <->
                    x <> ""
                    /\ exists pkg, In pkg l /\ ours pkg = false
                                   /\ repo_id_of pkg = Some x.

(** ** Registries in the simulated world *)

Module Registries.
Import Sim Scenario.

(** The handlers drop every record. *)
#[export] Instance logging : Logging world := {|
  logger_emit level msg w := w;
|}.

Definition field (k v : string) : string :=
  dq +:+ k +:+ dq +:+ ": " +:+ dq +:+ v +:+ dq.

(** A package of the organisation, an external one, and one without
    [repo_id]. *)
Definition three_packages : string :=
  "{" +:+ dq +:+ "packages" +:+ dq +:+ ": ["
  +:+ "{" +:+ field "name" "Base" +:+ ", "
  +:+ field "repo_id" "nodetool-ai/nodetool-base" +:+ "}, "
  +:+ "{" +:+ field "name" "Extra" +:+ ", "
  +:+ field "repo_id" "someone/nodetool-extra" +:+ "}, "
  +:+ "{" +:+ field "name" "Local" +:+ "}"
  +:+ "]}".

Definition base : json :=
  JObj [("name", JStr "Base"); ("repo_id", JStr "nodetool-ai/nodetool-base")].
Definition extra : json :=
  JObj [("name", JStr "Extra"); ("repo_id", JStr "someone/nodetool-extra")].
Definition local : json := JObj [("name", JStr "Local")].

(** The external package, and a package whose [repo_id] is [null]. *)
Definition with_null : string :=
  "{" +:+ dq +:+ "packages" +:+ dq +:+ ": ["
  +:+ "{" +:+ field "name" "Extra" +:+ ", "
  +:+ field "repo_id" "someone/nodetool-extra" +:+ "}, "
  +:+ "{" +:+ dq +:+ "repo_id" +:+ dq +:+ ": null}"
  +:+ "]}".

(** The external package, and a package whose [repo_id] has no slash. *)
Definition with_bare_name : string :=
  "{" +:+ dq +:+ "packages" +:+ dq +:+ ": ["
  +:+ "{" +:+ field "name" "Extra" +:+ ", "
  +:+ field "repo_id" "someone/nodetool-extra" +:+ "}, "
  +:+ "{" +:+ field "repo_id" "nodetool-base" +:+ "}"
  +:+ "]}".
End Registries.

(** ** [scripts/poll_external_releases.py]

    The registry and the release are decoded JSON documents: no two places
    of a document share an object, so an update of a package in place is the
    update of the tree. *)

(** [a == b] on decoded JSON: a Boolean is the integer 0 or 1, lists are
    equal item by item, and dicts when they have the same keys with equal
    values. *)
Fixpoint py_eq (a b : json) {struct a} : bool :=
  match a, b with
  | JNull, JNull => true
  | JBool x, JBool y => Bool.eqb x y
  | JBool x, JNum n => n =? (if x then 1 else 0)
  | JNum n, JBool x => n =? (if x then 1 else 0)
  | JNum n, JNum m => n =? m
  | JStr s, JStr t => s =s? t
  | JArr l, JArr m =>
      (fix items (l m : list json) : bool :=
         match l, m with
         | [], [] => true
         | x :: l', y :: m' => py_eq x y && items l' m'
         | _, _ => false
         end) l m
  | JObj l, JObj m =>
      (length l =? length m)%nat
      && (fix fields (l : list (string * json)) : bool :=
            match l with
            | [] => true
            | (k, v) :: l' =>
                match Py.lookup k m with
                | Some v' => py_eq v v'
                | None => false
                end && fields l'
            end) l
  | _, _ => false
  end.

Section Poller.
Context {W : Type} `{Platform W} `{Logging W}.

(** What [update_package_info] does to the package it has found: the new
    fields, and whether it counts as updated. *)
Definition refresh (repo_id : string) (release : json)
  (fields : list (string * json)) : M W (list (string * json) * bool) :=
  match Py.get release "tag_name" (JStr "") with
  | None => raise (OtherError "AttributeError")
  | Some tag_name =>
      let current_version :=
        default (JStr "") (Py.lookup "version" fields) in
      '(fields, updated) ←
        (if Py.truthy tag_name && negb (py_eq tag_name current_version) then
           log "INFO" ("Updating " +:+ repo_id +:+ " version from "
                       +:+ py_str current_version +:+ " to "
                       +:+ py_str tag_name);;
           mret (Py.set_item "version" tag_name fields, true)
         else mret (fields, false));
      match Py.get release "published_at" (JStr "") with
      | None => raise (OtherError "AttributeError")
      | Some published_at =>
          if Py.truthy published_at
          then mret (Py.set_item "updated_at" published_at fields, true)
          else mret (fields, updated)
      end
  end.

(** The loop of [update_package_info]: the packages as it leaves them, and
    [updated]. *)
Fixpoint update_first (repo_id : string) (release : json) (l : list json)
  : M W (list json * bool) :=
  match l with
  | [] => mret ([], false)
  | package :: rest =>
      match package with
      | JObj fields =>
          if match Py.lookup "repo_id" fields with
             | Some v => Py.eq_str v repo_id
             | None => false
             end
          then
            '(fields, updated) ← refresh repo_id release fields;
            mret (JObj fields :: rest, updated)
          else
            '(rest, updated) ← update_first repo_id release rest;
            mret (package :: rest, updated)
      | _ => raise (OtherError "AttributeError")
      end
  end.

(** [update_package_info]: the registry as it leaves it, and its answer. *)
Definition update_package_info (registry : json) (repo_id : string)
  (release : json) : M W (json * bool) :=
  match registry with
  | JObj top =>
      match Py.lookup "packages" top with
      | Some (JArr l) =>
          '(l, updated) ← update_first repo_id release l;
          mret (JObj (Py.set_item "packages" (JArr l) top), updated)
      | Some packages =>
          l ← iterate (W := W) packages;
          '(_, updated) ← update_first repo_id release l;
          mret (registry, updated)
      | None => mret (registry, false)
      end
  | _ => raise (OtherError "AttributeError")
  end.
End Poller.

(** The package [after] is the package [before] but for its [version] and
    its [updated_at]. *)
Definition refreshed (before after : json) : Prop :=
  exists fields fields',
    before = JObj fields /\ after = JObj fields'
    /\ forall k, k <> "version" -> k <> "updated_at" ->
                 Py.lookup k fields' = Py.lookup k fields.

(** Is [package] a dict whose [repo_id] is the string [repo_id]? *)
Definition has_repo_id (repo_id : string) (package : json) : bool :=
  match package with
  | JObj fields =>
      match Py.lookup "repo_id" fields with
      | Some v => Py.eq_str v repo_id
      | None => false
      end
  | _ => false
  end.

(** A release of the external package, as the API describes it. *)
Definition latest_release : json :=
  JObj [("tag_name", JStr "v1.2.0");
        ("published_at", JStr "2025-02-01T00:00:00Z")].

(** * Properties *)

Example str_smoke :
  Str.find ("ab" +:+ nl +:+ "cd") nl 0 = 2
  /\ Str.rfind ("ab" +:+ nl +:+ "cd") nl 4 = 2
  /\ Str.rfind "abcd" nl 4 = -1 /\ Str.slice "hello" 1 3 = "el"
  /\ Str.split "-" "1.0.0-rc1-x" = ["1.0.0"; "rc1"; "x"]
  /\ Str.split "-" "" = [""]
  /\ Str.lstrip_char "v" "vv1.0" = "1.0"
  /\ Str.strip ("  a b " +:+ nl) = "a b" /\ Str.lower "YeS" = "yes"
  /\ Str.replace "git@github.com:a/b.git" ".git" "" = "git@github.com:a/b"
  /\ Str.of_Z 1800 = "1800" /\ Str.of_Z (-3) = "-3"
  /\ Str.last_n "abcdefghij" 4 = "ghij"
  /\ Str.endswith "a.whl" ".whl" = true
  /\ Str.contains "py3" "x-py3-none" = true.
Proof. vm_compute. repeat split. Qed.

Example re_smoke :
  Re.subn pyproject_version_re ("\g<1>version = " +:+ dq +:+ "1.2.3" +:+ dq)
    ("[project]" +:+ nl +:+ "name = " +:+ dq +:+ "x" +:+ dq +:+ nl
     +:+ "  version = " +:+ dq +:+ "0.1.0" +:+ dq +:+ nl) 0
  = Some ("[project]" +:+ nl +:+ "name = " +:+ dq +:+ "x" +:+ dq +:+ nl
     +:+ "  version = " +:+ dq +:+ "1.2.3" +:+ dq +:+ nl, 1)
  /\ Re.subn copilot_core_ref_re "\1v1.2.3\3"
       ("env:" +:+ nl +:+ "  NODETOOL_CORE_REF: v0.1.0  " +:+ nl +:+ "x: y") 0
     = Some ("env:" +:+ nl +:+ "  NODETOOL_CORE_REF: v1.2.3  " +:+ nl +:+ "x: y", 1)
  /\ Re.subn copilot_core_ref_re "\11.2.3\3" "" 0 = None
  /\ Re.subn git_package_ref_re "\1v1.2.3"
       "pip install git+https://github.com/nodetool-ai/nodetool-core.git@v0.1.0 x" 0
     = Some ("pip install git+https://github.com/nodetool-ai/nodetool-core.git@v1.2.3 x", 1)
  /\ Re.subn dockerfile_pypi_re "\1==1.2.3"
       "RUN pip install nodetool-core==0.6.0rc1 nodetool-base==0.6.0" 0
     = Some ("RUN pip install nodetool-core==1.2.3 nodetool-base==1.2.3", 2)
  /\ Re.subn constants_version_re "\g<1>1.2.3\g<2>"
       ("export const VERSION = " +:+ dq +:+ "0.1" +:+ dq +:+ ";") 1
     = Some ("export const VERSION = " +:+ dq +:+ "1.2.3" +:+ dq +:+ ";", 1).
Proof. vm_compute. repeat split. Qed.

(** ** Running a computation *)

Section Runs.
Context {W : Type} `{Platform W}.

Lemma run_bind {A B} (m : M W A) (f : A -> M W B) (w : W) :
  (m ≫= f) w =
  match outcome_of (m w) with
  | Ret a =>
      Result (outcome_of (f a (world_of (m w))))
        (world_of (f a (world_of (m w))))
        (events_of (m w) ++ events_of (f a (world_of (m w))))
  | Raise e => Result (Raise e) (world_of (m w)) (events_of (m w))
  | Exit c => Result (Exit c) (world_of (m w)) (events_of (m w))
  end.
Proof.
  unfold mbind, M_bind. destruct (m w) as [[a|e|c] w1 t1]; simpl;
    [| reflexivity | reflexivity].
  destruct (f a w1); reflexivity.
Qed.

(** [try_except] by the outcome of its body. *)
Lemma run_try_except {A} (body : M W A) h (w : W) :
  try_except body h w =
  match outcome_of (body w) with
  | Raise e =>
      match h e with
      | Some handler =>
          Result (outcome_of (handler (world_of (body w))))
            (world_of (handler (world_of (body w))))
            (events_of (body w) ++ events_of (handler (world_of (body w))))
      | None => body w
      end
  | _ => body w
  end.
Proof.
  unfold try_except. destruct (body w) as [[a|e|c] w1 t1]; simpl;
    [reflexivity | | reflexivity].
  destruct (h e) as [handler|]; [| reflexivity].
  destruct (handler w1); reflexivity.
Qed.

Lemma run_bind_ret {A B} (m : M W A) (f : A -> M W B) w a w1 t1 :
  m w = Result (Ret a) w1 t1 ->
  (m ≫= f) w =
  Result (outcome_of (f a w1)) (world_of (f a w1)) (t1 ++ events_of (f a w1)).
Proof. intros E. rewrite run_bind, E. reflexivity. Qed.

Lemma run_bind_raise {A B} (m : M W A) (f : A -> M W B) w e w1 t1 :
  m w = Result (Raise e) w1 t1 -> (m ≫= f) w = Result (Raise e) w1 t1.
Proof. intros E. rewrite run_bind, E. reflexivity. Qed.

Lemma run_bind_exit {A B} (m : M W A) (f : A -> M W B) w c w1 t1 :
  m w = Result (Exit c) w1 t1 -> (m ≫= f) w = Result (Exit c) w1 t1.
Proof. intros E. rewrite run_bind, E. reflexivity. Qed.

Lemma result_eta {A} (r : result W A) :
  r = Result (outcome_of r) (world_of r) (events_of r).
Proof. destruct r; reflexivity. Qed.

(** *** Computations all of whose events satisfy a predicate *)

Lemma only_ret {A} P (a : A) : only (W := W) P (mret a : M W A).
Proof. intros w. constructor. Qed.

Lemma only_bind {A B} P (m : M W A) (f : A -> M W B) :
  only (W := W) P m -> (forall a, only (W := W) P (f a)) -> only (W := W) P (m ≫= f).
Proof.
  intros Hm Hf w. rewrite run_bind. specialize (Hm w).
  destruct (outcome_of (m w)); simpl; auto.
  apply Forall_app; split; [assumption | apply Hf].
Qed.

Lemma only_emit P e : P e -> only (W := W) P (emit e).
Proof. intros He w. repeat constructor. exact He. Qed.

Lemma only_print P line : P (Print line) -> only (W := W) P (print line).
Proof. apply only_emit. Qed.

Lemma only_raise {A} P e : only (W := W) P (raise (A := A) e).
Proof. intros w. constructor. Qed.

Lemma only_exit {A} P c : only (W := W) P (sys_exit (A := A) c).
Proof. intros w. constructor. Qed.

Lemma only_ask {A} P (f : W -> A) : only (W := W) P (ask f).
Proof. intros w. constructor. Qed.

Lemma only_try_except {A} P (body : M W A) h :
  only (W := W) P body ->
  (forall e handler, h e = Some handler -> only (W := W) P handler) ->
  only (W := W) P (try_except body h).
Proof.
  intros Hb Hh w. rewrite run_try_except. specialize (Hb w).
  destruct (outcome_of (body w)); auto.
  destruct (h e) eqn:E; auto. simpl.
  apply Forall_app; split; [assumption | eapply Hh; eassumption].
Qed.

Lemma only_read_text P path : only (W := W) P (read_text path).
Proof.
  apply only_bind; [apply only_ask |].
  intros [t|]; [apply only_ret | apply only_raise].
Qed.

Lemma only_write_text P path text :
  P (WriteText path text) -> only (W := W) P (write_text path text).
Proof.
  intros He w. unfold write_text.
  destruct (fs_write_text path text w); repeat constructor. exact He.
Qed.

Lemma only_spawn P cmd cwd :
  (forall r, P (Run cmd cwd r)) -> only (W := W) P (spawn cmd cwd).
Proof.
  intros He w. unfold spawn. destruct (subprocess_run cmd cwd w).
  repeat constructor. apply He.
Qed.

Lemma only_input P prompt :
  (forall r, P (Input prompt r)) -> only (W := W) P (input prompt).
Proof.
  intros He w. unfold input. destruct (builtin_input prompt w) as [[a|] w'];
    repeat constructor; apply He.
Qed.

Lemma only_sleep P n : P (Sleep n) -> only (W := W) P (sleep n).
Proof. intros He w. repeat constructor. exact He. Qed.

Lemma only_when P c (body : M W unit) : only (W := W) P body -> only (W := W) P (when c body).
Proof. intros Hb. destruct c; [exact Hb | apply only_ret]. Qed.

Lemma only_for_each {A} P (l : list A) (body : A -> M W unit) :
  (forall x, only (W := W) P (body x)) -> only (W := W) P (for_each l body).
Proof.
  intros Hb. induction l as [|x l IH]; simpl.
  - apply only_ret.
  - apply only_bind; [apply Hb | intros _; exact IH].
Qed.

Lemma only_for_fold {A B} P (l : list A) (acc : B) (body : B -> A -> M W B) :
  (forall b x, only (W := W) P (body b x)) -> only (W := W) P (for_fold l acc body).
Proof.
  intros Hb. revert acc. induction l as [|x l IH]; intros acc; simpl.
  - apply only_ret.
  - apply only_bind; [apply Hb | intros b; apply IH].
Qed.

Lemma only_weaken {A} (P Q : event -> Prop) (m : M W A) :
  (forall e, P e -> Q e) -> only (W := W) P m -> only (W := W) Q m.
Proof. intros HPQ Hm w. eapply Forall_impl; [apply Hm | apply HPQ]. Qed.
End Runs.

(** ** Strings as lists of characters *)

Lemma chars_app (a b : string) : Str.chars (a +:+ b) = Str.chars a ++ Str.chars b.
Proof. induction a as [|c a IH]; simpl; [reflexivity | f_equal; exact IH]. Qed.


Lemma of_chars_chars (s : string) : Str.of_chars (Str.chars s) = s.
Proof. apply String.string_of_list_ascii_of_string. Qed.

Lemma lstrip_char_dash (x rest : string) :
  Str.lstrip_char "v" (x +:+ "-" +:+ rest)
  = Str.lstrip_char "v" x +:+ "-" +:+ rest.
Proof.
  induction x as [|c x IH]; simpl; [reflexivity |].
  destruct (Ascii.eqb c "v"); [exact IH | reflexivity].
Qed.

Lemma split_chars_nonempty sep s : Str.split_chars sep s <> [].
Proof.
  destruct s as [|c s]; simpl; [discriminate |].
  destruct (Ascii.eqb c sep); [discriminate |].
  destruct (Str.split_chars sep s); discriminate.
Qed.

Lemma split_chars_head_app sep (y rest : list ascii) :
  head (Str.split_chars sep (y ++ sep :: rest)) = head (Str.split_chars sep y).
Proof.
  induction y as [|c y IH]; simpl.
  - rewrite Ascii.eqb_refl. reflexivity.
  - destruct (Ascii.eqb c sep); [reflexivity |].
    pose proof (split_chars_nonempty sep (y ++ sep :: rest)) as N1.
    pose proof (split_chars_nonempty sep y) as N2.
    destruct (Str.split_chars sep (y ++ sep :: rest)) as [|a l1];
      [contradiction |].
    destruct (Str.split_chars sep y) as [|b l2]; [contradiction |].
    simpl in *. congruence.
Qed.

Lemma split_head_dash (y rest : string) :
  head (Str.split "-" (y +:+ "-" +:+ rest)) = head (Str.split "-" y).
Proof.
  unfold Str.split. rewrite !chars_app. simpl.
  pose proof (split_chars_head_app "-" (Str.chars y) (Str.chars rest)) as E.
  destruct (Str.split_chars "-" (Str.chars y ++ "-"%char :: Str.chars rest));
    destruct (Str.split_chars "-" (Str.chars y)); simpl in *; congruence.
Qed.

Section ParseVersion.
Context {V : Type} `{Packaging V}.

(** C10. [parse_version] sees a tag only up to its first dash: a tag
    [x-suffix] parses as [x] does, whatever the suffix and whether or not
    [x] itself has a dash; and it never raises: it returns what
    [version.parse] makes of the text that is left of [tag.lstrip('v')]
    before the first dash, [None] when [version.parse] rejects it. *)
Theorem parse_version_discards_suffix :
  (forall x suffix : string,
      parse_version (V := V) (x +:+ "-" +:+ suffix) = parse_version x)
  /\ (forall tag : string,
        exists version_str,
          head (Str.split "-" (Str.lstrip_char "v" tag)) = Some version_str
          /\ parse_version (V := V) tag = Ret (version_parse version_str)).
Proof.
  split.
  - intros x suffix. unfold parse_version.
    rewrite lstrip_char_dash.
    pose proof (split_head_dash (Str.lstrip_char "v" x) suffix) as E.
    destruct (Str.split "-" (Str.lstrip_char "v" x +:+ "-" +:+ suffix));
      destruct (Str.split "-" (Str.lstrip_char "v" x));
      simpl in E; try congruence.
    injection E as ->. reflexivity.
  - intros tag. unfold parse_version, Str.split.
    pose proof (split_chars_nonempty "-" (Str.chars (Str.lstrip_char "v" tag))) as N.
    destruct (Str.split_chars "-" (Str.chars (Str.lstrip_char "v" tag)))
      as [|h l]; [contradiction |].
    simpl. eexists; split; [reflexivity |].
    destruct (version_parse (Str.of_chars h)); reflexivity.
Qed.
End ParseVersion.

(** ** The per-repository status check *)

Section StatusCheck.
Context {W : Type} `{Platform W}.

Lemma run_print line (w : W) :
  print line w = Result (Ret tt) w [Print line].
Proof. reflexivity. Qed.

Lemma run_print_info msg (w : W) :
  print_info msg w
  = Result (Ret tt) w [Print (GREEN +:+ "[INFO]" +:+ NC +:+ " " +:+ msg)].
Proof. reflexivity. Qed.

Lemma run_spawn cmd cwd (w : W) r w1 :
  subprocess_run cmd cwd w = (r, w1) ->
  spawn cmd cwd w = Result (Ret r) w1 [Run cmd cwd r].
Proof. intros E. unfold spawn. rewrite E. reflexivity. Qed.

(** [run_command] with a subprocess that starts: it returns the finished
    process or, under [check], raises on an error status; the world is the
    one the subprocess left. *)
Lemma run_command_started cmd cwd check (w : W) q w1 :
  subprocess_run cmd cwd w = (Some q, w1) ->
  outcome_of (run_command cmd cwd check w)
    = (if check && negb (returncode q =? 0)
       then Raise (CalledProcessError q) else Ret q)
  /\ world_of (run_command cmd cwd check w) = w1.
Proof.
  intros E. unfold run_command, try_except, subprocess_run_checked, spawn.
  unfold mbind, M_bind, print_info, print_warning, print_error, print, emit,
    when, raise, mret, M_ret.
  rewrite E. simpl.
  destruct check; destruct (Z.eqb (returncode q) 0) eqn:Erc; simpl;
    rewrite ?Erc; simpl;
    destruct (Str.truthy (stdout q)); destruct (Str.truthy (stderr q));
    simpl; split; reflexivity.
Qed.

Lemma run_command_not_started cmd cwd check (w : W) w1 :
  subprocess_run cmd cwd w = (None, w1) ->
  outcome_of (run_command cmd cwd check w) = Raise FileNotFoundError
  /\ world_of (run_command cmd cwd check w) = w1.
Proof.
  intros E. unfold run_command, try_except, subprocess_run_checked, spawn.
  unfold mbind, M_bind, print_info, print, emit, raise.
  rewrite E. simpl. split; reflexivity.
Qed.

(** What [get_release_run] returns when [gh run list] exits with an error
    status or prints something that is not JSON. *)
Lemma get_release_run_query_failed repo_path tag w p w1 :
  subprocess_run GH_RUN_LIST (Some repo_path) w = (Some p, w1) ->
  returncode p <> 0 \/ json_loads (stdout p) = None ->
  outcome_of (get_release_run repo_path tag w) = Ret (None, false)
  /\ world_of (get_release_run repo_path tag w) = w1.
Proof.
  intros Hrun Hfail.
  destruct (run_command_started GH_RUN_LIST (Some repo_path) true w p w1 Hrun)
    as [Ho Hw].
  unfold get_release_run. rewrite run_bind, run_try_except, run_bind, Ho, Hw.
  simpl.
  destruct (returncode p =? 0) eqn:Erc; simpl; [| split; reflexivity].
  destruct Hfail as [Hrc | Hjson]; [apply Z.eqb_eq in Erc; contradiction |].
  rewrite Hjson. simpl. split; reflexivity.
Qed.

(** The outcome of [run_command] without [check]. *)
Lemma run_command_unchecked_outcome cmd cwd (w : W) :
  outcome_of (run_command cmd cwd false w) =
  match fst (subprocess_run cmd cwd w) with
  | Some q => Ret q
  | None => Raise FileNotFoundError
  end.
Proof.
  destruct (subprocess_run cmd cwd w) as [[q|] w1] eqn:E; simpl.
  - apply (run_command_started cmd cwd false w q w1 E).
  - apply (run_command_not_started cmd cwd false w w1 E).
Qed.

(** C6. When the run-list query itself fails ([gh run list] ends with an
    error status, or its output is not JSON), [check_workflow_completed]
    asks [gh release view] for the tag and reports success (0) when that
    command succeeds and pending (1) otherwise; it never reports failure (2)
    on this path. *)
Theorem check_falls_back_to_release repo_path tag w p w1 :
  subprocess_run GH_RUN_LIST (Some repo_path) w = (Some p, w1) ->
  returncode p <> 0 \/ json_loads (stdout p) = None ->
  outcome_of (check_workflow_completed repo_path tag w) =
    match fst (subprocess_run ["gh"; "release"; "view"; tag]
                 (Some repo_path) w1) with
    | Some release => Ret (if returncode release =? 0 then 0 else 1)
    | None => Raise FileNotFoundError
    end
  /\ outcome_of (check_workflow_completed repo_path tag w) <> Ret 2.
Proof.
  intros Hrun Hfail.
  destruct (get_release_run_query_failed repo_path tag w p w1 Hrun Hfail)
    as [Ho Hw].
  assert (outcome_of (check_workflow_completed repo_path tag w) =
          match fst (subprocess_run ["gh"; "release"; "view"; tag]
                       (Some repo_path) w1) with
          | Some release => Ret (if returncode release =? 0 then 0 else 1)
          | None => Raise FileNotFoundError
          end) as E.
  { unfold check_workflow_completed. rewrite run_bind, Ho, Hw. simpl.
    rewrite run_bind, run_command_unchecked_outcome.
    destruct (fst (subprocess_run ["gh"; "release"; "view"; tag]
                     (Some repo_path) w1)) as [q|]; simpl; [| reflexivity].
    destruct (returncode q =? 0); reflexivity. }
  split; [exact E |]. rewrite E.
  destruct (fst (subprocess_run ["gh"; "release"; "view"; tag]
                   (Some repo_path) w1)) as [q|]; [| discriminate].
  destruct (returncode q =? 0); discriminate.
Qed.

(** C9. A run that is completed with a conclusion other than success,
    failure and cancelled (skipped, neutral, timed_out, a missing
    conclusion, ...) counts as a success: the check returns 0. *)
Theorem completed_with_other_conclusion_succeeds repo_path tag w fields :
  outcome_of (get_release_run repo_path tag w)
    = Ret (Some (JObj fields), true) ->
  Py.lookup "status" fields = Some (JStr "completed") ->
  (forall c, c ∈ ["success"; "failure"; "cancelled"] ->
             Py.lookup "conclusion" fields <> Some (JStr c)) ->
  outcome_of (check_workflow_completed repo_path tag w) = Ret 0.
Proof.
  intros Hrun Hstatus Hconcl.
  assert (Py.truthy (JObj fields) = true) as Htruthy.
  { destruct fields; [discriminate | reflexivity]. }
  assert (forall c, c ∈ ["success"; "failure"; "cancelled"] ->
            Py.eq_str (default JNull (Py.lookup "conclusion" fields)) c
            = false) as Hne.
  { intros c Hc. specialize (Hconcl c Hc).
    destruct (Py.lookup "conclusion" fields) as [[| | |t| |]|];
      try reflexivity.
    simpl. destruct (String.eqb_spec t c); [congruence | reflexivity]. }
  unfold check_workflow_completed. rewrite run_bind, Hrun.
  cbv beta iota. rewrite Htruthy, Hstatus. simpl.
  rewrite (Hne "success"), (Hne "failure"), (Hne "cancelled") by set_solver.
  reflexivity.
Qed.
End StatusCheck.

(** ** The orchestrator's entry *)

Section Orchestrator.
Context {W : Type} `{Platform W}.

Lemma quiet_ret {A} (a : A) : quiet (W := W) (mret a : M W A).
Proof. intros w. exists a, []. split; [reflexivity | constructor]. Qed.

Lemma quiet_bind {A B} (m : M W A) (f : A -> M W B) :
  quiet (W := W) m -> (forall a, quiet (W := W) (f a)) -> quiet (W := W) (m ≫= f).
Proof.
  intros Hm Hf w. destruct (Hm w) as (a & t1 & E1 & F1).
  destruct (Hf a w) as (b & t2 & E2 & F2).
  exists b, (t1 ++ t2). split.
  - rewrite (run_bind_ret _ _ _ _ _ _ E1), E2. reflexivity.
  - apply Forall_app; split; assumption.
Qed.

Lemma quiet_print line : quiet (W := W) (print line).
Proof.
  intros w. exists tt, [Print line]. split; [reflexivity |].
  repeat constructor.
Qed.

Lemma quiet_ask {A} (f : W -> A) : quiet (W := W) (ask f).
Proof. intros w. exists (f w), []. split; [reflexivity | constructor]. Qed.

Lemma quiet_for_each {A} (l : list A) (body : A -> M W unit) :
  (forall x, quiet (W := W) (body x)) -> quiet (W := W) (for_each l body).
Proof.
  intros Hb. induction l as [|x l IH]; simpl.
  - apply quiet_ret.
  - apply quiet_bind; [apply Hb | intros _; exact IH].
Qed.

(** The diagnostics with which [main] starts. *)
Lemma quiet_env_report (var : string) (show : string -> string) :
  quiet (W := W) (val ← ask (os_getenv var);
         match val with
         | Some val =>
             if Str.truthy val
             then print_info (var +:+ ": " +:+ show val)
             else print_warning (var +:+ ": not set")
         | None => print_warning (var +:+ ": not set")
         end).
Proof.
  apply quiet_bind; [apply quiet_ask |].
  intros [val|]; [destruct (Str.truthy val) |]; apply quiet_print.
Qed.

(** A property of runs that survives more printing beforehand passes from
    the rest of a program to the whole, when the program starts quietly. *)
Lemma bind_quiet {A B} (m : M W A) (f : A -> M W B) w
  (Q : result W B -> Prop) :
  (forall r t, Forall (fun e => is_print e = true) t -> Q r ->
               Q (Result (outcome_of r) (world_of r) (t ++ events_of r))) ->
  quiet (W := W) m -> (forall a, Q (f a w)) -> Q ((m ≫= f) w).
Proof.
  intros Hstable Hm Hf. destruct (Hm w) as (a & t & E & F).
  rewrite (run_bind_ret _ _ _ _ _ _ E). apply Hstable; [exact F | apply Hf].
Qed.

Lemma declined_stable w1 answer (r : result W unit) t :
  Forall (fun e => is_print e = true) t -> declined w1 answer r ->
  declined w1 answer (Result (outcome_of r) (world_of r) (t ++ events_of r)).
Proof.
  intros Ft (Ho & Hw & d & Hd & Fd). repeat split; simpl; try assumption.
  exists (t ++ d). rewrite Hd, app_assoc. split; [reflexivity |].
  apply Forall_app; split; assumption.
Qed.

(** C8. When the version tag does not start with [v], [main] warns and asks
    whether to go on, and unless the answer, in lower case, is [y] or [yes],
    it exits with status 1.  Up to that point it has only printed and read
    the answer: no subprocess was started and no file was written, and the
    world is the one that [input] left. *)
Theorem main_exits_when_user_declines (a : args) (w w1 : W) (answer : string) :
  Str.startswith (arg_version_tag a) "v" = false ->
  builtin_input "Continue anyway? (y/n) " w = (Some answer, w1) ->
  Str.lower answer ∉ ["y"; "yes"] ->
  declined w1 answer (main a w).
Proof.
  intros Hv Hin Hno. unfold main. rewrite Hv. cbn [negb when].
  do 5 (apply bind_quiet;
        [apply declined_stable
        | first [apply quiet_print | apply quiet_ask] | intros ?]).
  apply bind_quiet; [apply declined_stable | | intros ?].
  { apply quiet_for_each. intros var. apply quiet_env_report. }
  apply bind_quiet; [apply declined_stable | apply quiet_print | intros ?].
  match goal with
  | |- declined _ _ ((?body ≫= ?rest) w) =>
      assert (body w = Result (Exit 1) w1
                [Print (YELLOW +:+ "[WARNING]" +:+ NC +:+ " " +:+
                        "Version tag should follow format: v<major>.<minor>.<patch> (e.g., v1.2.3)");
                 Input "Continue anyway? (y/n) " (Some answer)]) as Ebody
  end.
  { unfold print_warning, print, emit, input, sys_exit, mbind, M_bind.
    simpl. rewrite Hin. simpl.
    rewrite bool_decide_eq_false_2 by exact Hno. reflexivity. }
  rewrite (run_bind_exit _ _ _ _ _ _ Ebody).
  repeat split. exists []. split; [reflexivity | constructor].
Qed.
End Orchestrator.

(** ** The poll loop fetches a run log at most once *)

(** One step of a proof of [only P m], by the shape of [m]. *)
Ltac only_leaf := intros; simpl; reflexivity.

Ltac only_step :=
  lazymatch goal with
  | |- only _ (mret _) => apply only_ret
  | |- only _ (mbind _ _) => apply only_bind; [| intros ?]
  | |- only _ (raise _) => apply only_raise
  | |- only _ (sys_exit _) => apply only_exit
  | |- only _ (ask _) => apply only_ask
  | |- only _ (print _) => apply only_print; only_leaf
  | |- only _ (print_info _) => apply only_print; only_leaf
  | |- only _ (print_warning _) => apply only_print; only_leaf
  | |- only _ (print_error _) => apply only_print; only_leaf
  | |- only _ (read_text _) => apply only_read_text
  | |- only _ (write_text _ _) => apply only_write_text; only_leaf
  | |- only _ (spawn _ _) => apply only_spawn; only_leaf
  | |- only _ (input _) => apply only_input; only_leaf
  | |- only _ (sleep _) => apply only_sleep; only_leaf
  | |- only _ (when _ _) => apply only_when
  | |- only _ (for_each _ _) => apply only_for_each; intros ?
  | |- only _ (for_fold _ _ _) => apply only_for_fold; intros ? ?
  | |- only _ (try_except _ _) =>
      apply only_try_except;
      [| let e := fresh "e" in let E := fresh "E" in
         intros e ? E; destruct e; simpl in E; inversion E; subst; clear E]
  | |- only _ (if ?c then _ else _) => destruct c
  | |- only _ (match ?x with _ => _ end) => destruct x
  end.

Section LogOnce.
Context {W : Type} `{Platform W}.

Lemma only_run_command (P : event -> Prop) cmd cwd check :
  (forall line, P (Print line)) -> (forall r, P (Run cmd cwd r)) ->
  only (W := W) P (run_command cmd cwd check).
Proof.
  intros HP HR. unfold run_command, subprocess_run_checked.
  repeat first [ apply only_print; apply HP | apply only_spawn; apply HR
               | only_step ].
Qed.

Lemma only_first_release_run (P : event -> Prop) runs tag :
  only (W := W) P (first_release_run runs tag).
Proof.
  induction runs as [|run rest IH]; simpl; [apply only_ret |].
  destruct (Py.get run "headBranch" (JStr "")),
    (Py.get run "workflowName" (JStr "")); try apply only_raise.
  destruct (_ && _); [apply only_ret | exact IH].
Qed.

Lemma only_get_release_run (P : event -> Prop) repo_path tag :
  (forall line, P (Print line)) ->
  (forall r, P (Run GH_RUN_LIST (Some repo_path) r)) ->
  only (W := W) P (get_release_run repo_path tag).
Proof.
  intros HP HR. unfold get_release_run.
  repeat first [ apply only_run_command; [exact HP | exact HR]
               | apply only_first_release_run | only_step ].
Qed.

Lemma only_check_workflow_completed (P : event -> Prop) repo_path tag :
  (forall line, P (Print line)) ->
  (forall r, P (Run GH_RUN_LIST (Some repo_path) r)) ->
  (forall r, P (Run ["gh"; "release"; "view"; tag] (Some repo_path) r)) ->
  only (W := W) P (check_workflow_completed repo_path tag).
Proof.
  intros HP HR HV. unfold check_workflow_completed.
  apply only_bind; [apply only_get_release_run; assumption |].
  intros [run ok].
  repeat first [ apply only_run_command; [exact HP | exact HV] | only_step ].
Qed.

Lemma log_fetches_app p t1 t2 :
  log_fetches p (t1 ++ t2) = (log_fetches p t1 + log_fetches p t2)%nat.
Proof. unfold log_fetches. rewrite List.filter_app, length_app. reflexivity. Qed.

Lemma log_fetches_none p t :
  Forall (fun e => is_log_fetch p e = false) t -> log_fetches p t = 0%nat.
Proof.
  unfold log_fetches. induction 1 as [|e t He _ IH]; simpl; [reflexivity |].
  rewrite He. exact IH.
Qed.

Lemma is_log_fetch_other p p' cmd r :
  p' <> p -> is_log_fetch p (Run cmd (Some p') r) = false.
Proof.
  intros Hne. simpl. destruct (String.eqb_spec p' p); [contradiction |].
  apply andb_false_r.
Qed.

(** [run_command] starts one subprocess, and prints before and after. *)
Lemma run_command_events cmd cwd check (w : W) :
  exists pre post,
    events_of (run_command cmd cwd check w)
      = pre ++ Run cmd cwd (fst (subprocess_run cmd cwd w)) :: post
    /\ Forall (fun e => is_print e = true) pre
    /\ Forall (fun e => is_print e = true) post.
Proof.
  unfold run_command, try_except, subprocess_run_checked, spawn.
  unfold mbind, M_bind, print_info, print_warning, print_error, print, emit,
    when, raise, mret, M_ret.
  destruct (subprocess_run cmd cwd w) as [[q|] w1]; simpl.
  - destruct check; destruct (Z.eqb (returncode q) 0) eqn:Erc; simpl;
      rewrite ?Erc; simpl;
      destruct (Str.truthy (stdout q)); destruct (Str.truthy (stderr q));
      simpl;
      (eexists [_], _; split; [reflexivity |]; split; repeat constructor).
  - eexists [_], _; split; [reflexivity |]; split; repeat constructor.
Qed.

Lemma log_fetches_prints p t :
  Forall (fun e => is_print e = true) t -> log_fetches p t = 0%nat.
Proof.
  intros F. apply log_fetches_none. eapply Forall_impl; [exact F |].
  intros [] E; try discriminate E. reflexivity.
Qed.

Lemma log_fetches_one p e : (log_fetches p [e] <= 1)%nat.
Proof.
  unfold log_fetches. cbn [List.filter].
  destruct (is_log_fetch p e); simpl; lia.
Qed.

Lemma run_command_fetches p cmd cwd check (w : W) :
  (log_fetches p (events_of (run_command cmd cwd check w)) <= 1)%nat.
Proof.
  destruct (run_command_events cmd cwd check w) as (pre & post & -> & F1 & F2).
  rewrite log_fetches_app, (log_fetches_prints p pre F1).
  change (Run cmd cwd (subprocess_run cmd cwd w).1 :: post)
    with ([Run cmd cwd (subprocess_run cmd cwd w).1] ++ post).
  rewrite log_fetches_app, (log_fetches_prints p post F2).
  pose proof (log_fetches_one p (Run cmd cwd (subprocess_run cmd cwd w).1)).
  lia.
Qed.

Lemma get_release_run_fetches p repo_path tag (w : W) :
  log_fetches p (events_of (get_release_run repo_path tag w)) = 0%nat.
Proof.
  apply log_fetches_none.
  apply (only_get_release_run (fun e => is_log_fetch p e = false));
    intros; reflexivity.
Qed.

Lemma check_workflow_completed_fetches p repo_path tag (w : W) :
  log_fetches p (events_of (check_workflow_completed repo_path tag w)) = 0%nat.
Proof.
  apply log_fetches_none.
  apply (only_check_workflow_completed (fun e => is_log_fetch p e = false));
    intros; reflexivity.
Qed.

Lemma fetches_none_of_only {A} p (m : M W A) :
  only (fun e => is_log_fetch p e = false) m -> fetches_at_most 0 p m.
Proof. intros Hm w. rewrite log_fetches_none; [lia | apply Hm]. Qed.

Lemma fetches_bind {A B} a b p (m : M W A) (f : A -> M W B) :
  fetches_at_most a p m -> (forall x, fetches_at_most b p (f x)) ->
  fetches_at_most (a + b) p (m ≫= f).
Proof.
  intros Hm Hf w. rewrite run_bind. specialize (Hm w).
  destruct (outcome_of (m w)); simpl; try lia.
  rewrite log_fetches_app. specialize (Hf a0 (world_of (m w))). lia.
Qed.

Lemma fetches_mono {A} a b p (m : M W A) :
  (a <= b)%nat -> fetches_at_most a p m -> fetches_at_most b p m.
Proof. intros Hab Hm w. specialize (Hm w). lia. Qed.

Lemma fetches_print p n line :
  fetches_at_most (W := W) n p (print line).
Proof. intros w. unfold log_fetches. simpl. lia. Qed.

(** [print_workflow_logs] fetches a run log once at most, and only the log
    of its own repository. *)
Lemma print_workflow_logs_fetches p repo_path tag :
  fetches_at_most (W := W) 1 p (print_workflow_logs repo_path tag).
Proof.
  unfold print_workflow_logs.
  apply (fetches_bind 0 1).
  { apply fetches_none_of_only.
    apply only_get_release_run; intros; reflexivity. }
  intros [run ok].
  destruct ok; cbn [negb]; [| apply fetches_print].
  destruct run as [[| | | | |fields]|];
    try (match goal with
         | |- context [if negb ?c then _ else _] => destruct c
         end; intros w; unfold log_fetches; simpl; lia);
    try apply fetches_print.
  destruct (_ || _); [apply fetches_print |].
  apply (fetches_bind 0 1); [apply fetches_print | intros _].
  apply (fetches_bind 1 0); [intros w; apply run_command_fetches |].
  intros proc. destruct (_ && _); apply fetches_print.
Qed.

Lemma print_workflow_logs_other p repo_path tag :
  repo_path <> p ->
  fetches_at_most (W := W) 0 p (print_workflow_logs repo_path tag).
Proof.
  intros Hne. apply fetches_none_of_only. unfold print_workflow_logs.
  apply only_bind.
  { apply only_get_release_run; intros; reflexivity. }
  intros [run ok].
  repeat first
    [ apply only_run_command;
      [intros; reflexivity | intros; apply is_log_fetch_other; exact Hne]
    | only_step ].
Qed.

Lemma path_join_inj cwd a b : Path.join cwd a = Path.join cwd b -> a = b.
Proof.
  unfold Path.join. intros E. apply String.app_inj in E.
  simpl in E. injection E as E. exact E.
Qed.

Lemma fetched_is_logged_same repo logged n :
  fetched_is_logged repo logged n -> fetched_is_logged repo logged (n + 0).
Proof. rewrite Nat.add_0_r. exact id. Qed.

Lemma poll_repo_keeps tag cwd repo v r (w : W) n :
  fetched_is_logged repo (logged_failures v) n ->
  exists k,
    log_fetches (Path.join cwd repo) (events_of (poll_repo tag cwd v r w)) = k
    /\ (n + k <= 1)%nat
    /\ forall v', outcome_of (poll_repo tag cwd v r w) = Ret v' ->
                  fetched_is_logged repo (logged_failures v') (n + k)%nat.
Proof.
  intros Hv. pose proof Hv as [Hn Hin]. set (p := Path.join cwd repo).
  unfold poll_repo. rewrite run_bind. cbn [ask outcome_of world_of events_of].
  destruct (negb (path_is_dir (Path.join cwd r) w)).
  { exists 0%nat. split; [reflexivity |]. split; [lia |].
    intros v' E. injection E as <-. apply fetched_is_logged_same, Hv. }
  rewrite run_bind.
  pose proof (check_workflow_completed_fetches p (Path.join cwd r) tag w) as E0.
  set (c := check_workflow_completed (Path.join cwd r) tag w) in *.
  destruct (outcome_of c) as [result| |]; cbn [outcome_of events_of app];
    try (exists 0%nat; split; [exact E0 |]; split; [lia | discriminate]).
  rewrite log_fetches_app, E0. cbn [Nat.add].
  destruct (result =? 0).
  { exists 0%nat. split; [reflexivity |]. split; [lia |].
    intros v' E. injection E as <-. apply fetched_is_logged_same, Hv. }
  destruct (result =? 2).
  2:{ exists 0%nat. split; [reflexivity |]. split; [lia |].
      intros v' E. injection E as <-. apply fetched_is_logged_same, Hv. }
  rewrite run_bind. cbn [print_error print emit outcome_of world_of events_of].
  rewrite run_bind. rewrite log_fetches_app.
  unfold log_fetches at 1. cbn [List.filter is_log_fetch length Nat.add].
  destruct (bool_decide (r ∉ logged_failures v)) eqn:Er.
  - apply bool_decide_eq_true in Er.
    rewrite run_bind.
    set (l := print_workflow_logs (Path.join cwd r) tag (world_of c)).
    pose proof (print_workflow_logs_fetches p (Path.join cwd r) tag
                  (world_of c)) as E1. fold l in E1.
    assert (r <> repo -> log_fetches p (events_of l) = 0%nat) as E2.
    { intros Hne.
      pose proof (print_workflow_logs_other p (Path.join cwd r) tag
                    ltac:(intros E; apply Hne, (path_join_inj cwd); exact E)
                    (world_of c)) as E2. fold l in E2. lia. }
    assert (n = 1%nat -> r <> repo) as Hnr.
    { intros E ->. apply Er, Hin, E. }
    exists (log_fetches p (events_of l)).
    assert (n + log_fetches p (events_of l) <= 1)%nat as Hle.
    { destruct (decide (n = 1%nat)) as [E|E]; [rewrite (E2 (Hnr E)) |]; lia. }
    destruct (outcome_of l); cbn [outcome_of world_of events_of mret M_ret];
      rewrite ?log_fetches_app; unfold log_fetches at 2 3;
      cbn [List.filter length app Nat.add]; rewrite ?Nat.add_0_r;
      (split; [reflexivity |]); (split; [exact Hle |]); try discriminate.
    intros v' E. injection E as <-. cbn [logged_failures].
    split; [exact Hle |].
    intros E. destruct (decide (r = repo)) as [->|Hne]; [set_solver |].
    destruct (decide (n = 1%nat)) as [E'|E'];
      [specialize (Hin E'); set_solver |].
    rewrite (E2 Hne) in E. lia.
  - cbn [mret M_ret outcome_of world_of events_of app].
    exists 0%nat. split; [reflexivity |]. split; [lia |].
    intros v' E. injection E as <-. apply fetched_is_logged_same, Hv.
Qed.

Lemma for_fold_poll_keeps tag cwd repo repos v (w : W) n :
  fetched_is_logged repo (logged_failures v) n ->
  exists k,
    log_fetches (Path.join cwd repo)
      (events_of (for_fold repos v (poll_repo tag cwd) w)) = k
    /\ (n + k <= 1)%nat
    /\ forall v', outcome_of (for_fold repos v (poll_repo tag cwd) w) = Ret v' ->
                  fetched_is_logged repo (logged_failures v') (n + k)%nat.
Proof.
  revert v w n. induction repos as [|r repos IH]; intros v w n Hv; simpl.
  - exists 0%nat. split; [reflexivity |]. split; [destruct Hv; lia |].
    intros v' E. injection E as <-. apply fetched_is_logged_same, Hv.
  - rewrite run_bind.
    destruct (poll_repo_keeps tag cwd repo v r w n Hv) as (k1 & E1 & L1 & K1).
    destruct (outcome_of (poll_repo tag cwd v r w)) as [v1| |];
      cbn [outcome_of events_of];
      try (exists k1; split; [exact E1 |]; split; [exact L1 | discriminate]).
    destruct (IH v1 (world_of (poll_repo tag cwd v r w)) (n + k1)%nat
                (K1 v1 eq_refl)) as (k2 & E2 & L2 & K2).
    exists (k1 + k2)%nat. rewrite log_fetches_app, E1, E2, Nat.add_assoc.
    split; [reflexivity |]. split; [exact L2 | exact K2].
Qed.

Lemma wait_loop_fetches repo repos tag cwd elapsed logged (w : W) n :
  fetched_is_logged repo logged n ->
  (n + log_fetches (Path.join cwd repo)
         (events_of (wait_loop repos tag cwd elapsed logged w)) <= 1)%nat.
Proof.
  revert w n.
  apply (wait_loop_elim
           (fun repos tag cwd elapsed logged m =>
              forall w n, fetched_is_logged repo logged n ->
                (n + log_fetches (Path.join cwd repo) (events_of (m w)) <= 1)%nat)).
  - clear. intros repos tag cwd elapsed Hlt logged IH _ w n Hv.
    rewrite run_bind.
    destruct (for_fold_poll_keeps tag cwd repo repos
                {| all_completed := true; any_failed := false;
                   logged_failures := logged |} w n Hv)
      as (k & Ek & Lk & K).
    set (round1 := for_fold repos _ (poll_repo tag cwd) w) in *.
    destruct (outcome_of round1) as [v| |]; cbn [events_of];
      rewrite ?Ek; try exact Lk.
    rewrite log_fetches_app, Ek.
    specialize (K v eq_refl).
    destruct (all_completed v).
    { destruct (any_failed v); unfold log_fetches at 1; simpl; lia. }
    destruct (elapsed <? MAX_WAIT).
    2:{ unfold log_fetches at 1; simpl; lia. }
    rewrite run_bind. cbn [sleep outcome_of world_of events_of].
    rewrite run_bind.
    cbn [print_info print emit outcome_of world_of events_of].
    rewrite !log_fetches_app. unfold log_fetches at 1 2.
    cbn [List.filter is_log_fetch length Nat.add].
    specialize (IH v tt tt (time_sleep POLL_INTERVAL (world_of round1))
                  (time_sleep POLL_INTERVAL (world_of round1)) (n + k)%nat K).
    lia.
  - clear. intros repos tag cwd elapsed Hge logged _ w n [Hn _].
    unfold log_fetches. simpl. lia.
Qed.

(** C3. In one call of [wait_for_repos], whatever the repositories and
    whatever the world answers, the run log of a repository is fetched
    ([gh run view <id> --log] in that repository) once at most, however many
    rounds of the loop find the repository failed. *)
Theorem wait_for_repos_fetches_log_once (repos : list string)
  (version_tag cwd repo : string) (w : W) :
  (log_fetches (Path.join cwd repo)
     (events_of (wait_for_repos repos version_tag cwd w)) <= 1)%nat.
Proof.
  unfold wait_for_repos.
  apply (wait_loop_fetches repo repos version_tag cwd 0 ∅ w 0).
  split; [lia | discriminate].
Qed.
End LogOnce.

(** ** The repository driver stops when the push of the commit fails *)

Ltac quiet_run_command :=
  apply only_run_command; [intros; reflexivity | intros; reflexivity].

(** A proof of [only P m] for a program made of the helpers of
    [release.py], when [P] holds of every event that [m] can cause. *)
Ltac only_auto :=
  repeat
    lazymatch goal with
    | |- only _ (run_command _ _ _) => quiet_run_command
    | |- only _ (for_each (_ :: _) _) => cbn [for_each]
    | |- only _ (for_each [] _) => cbn [for_each]
    | |- _ => only_step
    end.

Section PushFailure.
Context {W : Type} `{Platform W}.

#[local] Abbreviation calm := (fun e => is_release_step e = false).

Lemma only_print_git_diagnostics repo_path :
  only (W := W) calm (print_git_diagnostics repo_path).
Proof. unfold print_git_diagnostics. only_auto. Qed.

Lemma only_setup_git_auth repo_path :
  only (W := W) calm (setup_git_auth repo_path).
Proof. unfold setup_git_auth. only_auto. Qed.

Lemma only_re_subn (P : event -> Prop) r template text count :
  only (W := W) P (re_subn r template text count).
Proof. unfold re_subn. only_auto. Qed.

Ltac patcher :=
  repeat
    lazymatch goal with
    | |- only _ (re_subn _ _ _ _) => apply only_re_subn
    | |- _ => only_step
    end.

Lemma only_update_pyproject_version path version :
  only (W := W) calm (update_pyproject_version path version).
Proof. unfold update_pyproject_version. patcher. Qed.

Lemma only_update_nodetool_core_dependency path version :
  only (W := W) calm (update_nodetool_core_dependency path version).
Proof. unfold update_nodetool_core_dependency. patcher. Qed.

Lemma only_update_copilot_core_ref path tag :
  only (W := W) calm (update_copilot_core_ref path tag).
Proof. unfold update_copilot_core_ref. patcher. Qed.

Lemma only_update_git_package_refs path tag :
  only (W := W) calm (update_git_package_refs path tag).
Proof. unfold update_git_package_refs. patcher. Qed.

Lemma only_update_dockerfile_pypi_versions path version :
  only (W := W) calm (update_dockerfile_pypi_versions path version).
Proof. unfold update_dockerfile_pypi_versions. patcher. Qed.

Lemma only_update_package_json_version path version :
  only (W := W) calm (update_package_json_version path version).
Proof. unfold update_package_json_version. patcher. Qed.

Lemma only_update_constants_version path version :
  only (W := W) calm (update_constants_version path version).
Proof. unfold update_constants_version. patcher. Qed.

Lemma only_run_package_scan repo_path :
  only (W := W) calm (run_package_scan repo_path).
Proof. unfold run_package_scan. only_auto. Qed.

Lemma only_generate_uv_lock repo_path :
  only (W := W) calm (generate_uv_lock repo_path).
Proof. unfold generate_uv_lock. only_auto. Qed.

Lemma only_note (P : event -> Prop) u (patch : M W bool) :
  only P patch -> only P (note u patch).
Proof. intros Hp. unfold note. apply only_bind; [exact Hp | intros; apply only_ret]. Qed.

Lemma only_update_version_files repo_path is_nodetool version tag a :
  only (W := W) calm
    (update_version_files repo_path is_nodetool version tag a).
Proof.
  unfold update_version_files, find_dockerfiles, find_metadata_dirs.
  repeat
    lazymatch goal with
    | |- only _ (note _ _) => apply only_note
    | |- only _ (update_pyproject_version _ _) =>
        apply only_update_pyproject_version
    | |- only _ (update_nodetool_core_dependency _ _) =>
        apply only_update_nodetool_core_dependency
    | |- only _ (update_copilot_core_ref _ _) =>
        apply only_update_copilot_core_ref
    | |- only _ (update_git_package_refs _ _) =>
        apply only_update_git_package_refs
    | |- only _ (update_dockerfile_pypi_versions _ _) =>
        apply only_update_dockerfile_pypi_versions
    | |- only _ (update_package_json_version _ _) =>
        apply only_update_package_json_version
    | |- only _ (update_constants_version _ _) =>
        apply only_update_constants_version
    | |- only _ (run_package_scan _) => apply only_run_package_scan
    | |- only _ (generate_uv_lock _) => apply only_generate_uv_lock
    | |- _ => only_step
    end.
Qed.

Lemma only_git_add_relative repo_path f :
  only (W := W) calm (git_add_relative repo_path f).
Proof. unfold git_add_relative. only_auto. Qed.

Lemma only_stage_version_updates repo_path is_nodetool dockerfiles :
  only (W := W) calm (stage_version_updates repo_path is_nodetool dockerfiles).
Proof.
  unfold stage_version_updates, find_metadata_dirs, NODETOOL_FILES.
  repeat
    lazymatch goal with
    | |- only _ (git_add_relative _ _) => apply only_git_add_relative
    | |- only _ (run_command _ _ _) => quiet_run_command
    | |- only _ (for_each (_ :: _) _) => cbn [for_each]
    | |- only _ (for_each [] _) => cbn [for_each]
    | |- _ => only_step
    end.
Qed.

(** Tagging does not push the commit. *)
Lemma only_create_and_push_tag repo repo_path tag :
  only (W := W) (fun e => is_push_main e = false)
    (create_and_push_tag repo repo_path tag).
Proof.
  unfold create_and_push_tag.
  repeat
    lazymatch goal with
    | |- only _ (run_command _ _ _) => quiet_run_command
    | |- only _ (print_git_diagnostics _) =>
        apply (only_weaken calm);
        [ intros e E; apply orb_false_iff in E; apply E
        | apply only_print_git_diagnostics ]
    | |- _ => only_step
    end.
Qed.

Section Driver.
Variables (repo repo_path : string).

Lemma calm_not_push t cwd r :
  Forall calm t -> Run PUSH_MAIN cwd r ∉ t.
Proof.
  intros F Hin. rewrite Forall_forall in F. specialize (F _ Hin).
  discriminate F.
Qed.

Lemma stops_calm (r : result W unit) :
  Forall calm (events_of r) -> stops_on_failed_push repo repo_path r.
Proof. intros F p Hin. destruct (calm_not_push _ _ _ F Hin). Qed.

Lemma calm_not_tag t :
  Forall calm t -> Forall (fun e => is_tag_command e = false) t.
Proof.
  intros F. eapply Forall_impl; [exact F |].
  intros e E. apply orb_false_iff in E. apply E.
Qed.

Lemma stops_stable (r : result W unit) t :
  Forall calm t -> stops_on_failed_push repo repo_path r ->
  stops_on_failed_push repo repo_path
    (Result (outcome_of r) (world_of r) (t ++ events_of r)).
Proof.
  intros F Hr p Hin Hrc. cbn [events_of] in Hin.
  apply elem_of_app in Hin as [Hin | Hin];
    [destruct (calm_not_push _ _ _ F Hin) |].
  destruct (Hr p Hin Hrc) as (Htag & before & w1 & E & Ho).
  split; cbn [events_of outcome_of].
  - apply Forall_app; split; [apply calm_not_tag, F | exact Htag].
  - exists (t ++ before), w1. rewrite E, app_assoc. split; [reflexivity | exact Ho].
Qed.

Lemma stops_bind {A} (m : M W A) (f : A -> M W unit) w :
  only calm m -> (forall a w1, stops_on_failed_push repo repo_path (f a w1)) ->
  stops_on_failed_push repo repo_path ((m ≫= f) w).
Proof.
  intros Hm Hf. rewrite run_bind. specialize (Hm w).
  destruct (outcome_of (m w)) as [a| |].
  - apply stops_stable; [exact Hm | apply Hf].
  - apply stops_calm. exact Hm.
  - apply stops_calm. exact Hm.
Qed.

Lemma stops_of_only (m : M W unit) w :
  only calm m -> stops_on_failed_push repo repo_path (m w).
Proof. intros Hm. apply stops_calm, Hm. Qed.

Lemma prints_not_push t cwd r :
  Forall (fun e => is_print e = true) t -> Run PUSH_MAIN cwd r ∉ t.
Proof.
  intros F Hin. rewrite Forall_forall in F. specialize (F _ Hin).
  discriminate F.
Qed.

Lemma prints_not_tag t :
  Forall (fun e => is_print e = true) t ->
  Forall (fun e => is_tag_command e = false) t.
Proof.
  intros F. eapply Forall_impl; [exact F |].
  intros [] E; try discriminate E. reflexivity.
Qed.

Lemma stops_without_push (r : result W unit) :
  Forall (fun e => is_push_main e = false) (events_of r) ->
  stops_on_failed_push repo repo_path r.
Proof.
  intros F p Hin. rewrite Forall_forall in F. specialize (F _ Hin).
  discriminate F.
Qed.

(** The steps after the commit: the push, and what follows it. *)
Lemma push_step_stops tag (w : W) :
  stops_on_failed_push repo repo_path
    ((push_result ← run_command PUSH_MAIN (Some repo_path) false;
      if returncode push_result =? 0 then
        print_info "  Pushed commit";;
        create_and_push_tag repo repo_path tag
      else
        print_error ("  Failed to push commit for " +:+ repo);;
        print_error ("  stdout: " +:+ or_empty (stdout push_result));;
        print_error ("  stderr: " +:+ or_empty (stderr push_result));;
        print_git_diagnostics repo_path) w).
Proof.
  rewrite run_bind.
  destruct (run_command_events PUSH_MAIN (Some repo_path) false w)
    as (pre & post & Ev & Fpre & Fpost).
  destruct (subprocess_run PUSH_MAIN (Some repo_path) w) as [[q|] w1] eqn:E.
  - destruct (run_command_started _ _ false _ _ _ E) as [Ho Hw].
    rewrite Ho, Hw, Ev. cbn [andb fst].
    destruct (returncode q =? 0) eqn:Erc.
    + intros p Hin Hrc. exfalso. cbn [events_of] in Hin.
      apply elem_of_app in Hin as [Hin | Hin].
      * apply elem_of_app in Hin as [Hin | Hin];
          [destruct (prints_not_push _ _ _ Fpre Hin) |].
        apply elem_of_cons in Hin as [Hin | Hin];
          [| destruct (prints_not_push _ _ _ Fpost Hin)].
        injection Hin as ->. apply Z.eqb_eq in Erc. contradiction.
      * assert (only (W := W) (fun e => is_push_main e = false)
                  (print_info "  Pushed commit";;
                   create_and_push_tag repo repo_path tag)) as F.
        { apply only_bind; [apply only_print; reflexivity |].
          intros _. apply only_create_and_push_tag. }
        specialize (F w1). rewrite Forall_forall in F.
        specialize (F _ Hin). discriminate F.
    + rewrite run_bind. cbn [print_error print emit outcome_of world_of events_of].
      rewrite run_bind. cbn [print_error print emit outcome_of world_of events_of].
      rewrite run_bind. cbn [print_error print emit outcome_of world_of events_of].
      intros p Hin Hrc. cbn [events_of] in Hin.
      assert (p = q) as ->.
      { apply elem_of_app in Hin as [Hin | Hin].
        - apply elem_of_app in Hin as [Hin | Hin];
            [destruct (prints_not_push _ _ _ Fpre Hin) |].
          apply elem_of_cons in Hin as [Hin | Hin];
            [| destruct (prints_not_push _ _ _ Fpost Hin)].
          injection Hin as ->. reflexivity.
        - exfalso. do 3 (apply elem_of_cons in Hin as [Hin | Hin];
                         [discriminate Hin |]).
          exact (calm_not_push _ _ _
                   (only_print_git_diagnostics repo_path w1) Hin). }
      split; cbn [events_of outcome_of].
      * apply Forall_app; split.
        -- apply Forall_app; split; [apply prints_not_tag, Fpre |].
           constructor; [reflexivity | apply prints_not_tag, Fpost].
        -- cbn [app]. repeat (constructor; [reflexivity |]).
           apply calm_not_tag, (only_print_git_diagnostics repo_path w1).
      * exists (pre ++ Run PUSH_MAIN (Some repo_path) (Some q) :: post), w1.
        split; reflexivity.
  - destruct (run_command_not_started _ _ false _ _ E) as [Ho Hw].
    rewrite Ho, Hw, Ev. cbn [fst].
    intros p Hin Hrc. exfalso. cbn [events_of] in Hin.
    apply elem_of_app in Hin as [Hin | Hin];
      [destruct (prints_not_push _ _ _ Fpre Hin) |].
    apply elem_of_cons in Hin as [Hin | Hin];
      [discriminate Hin | destruct (prints_not_push _ _ _ Fpost Hin)].
Qed.

Lemma tag_step_stops tag (m : M W unit) (w : W) :
  only (fun e => is_push_main e = false) m ->
  stops_on_failed_push repo repo_path ((m;; create_and_push_tag repo repo_path tag) w).
Proof.
  intros Hm. apply stops_without_push.
  apply (only_bind (fun e => is_push_main e = false));
    [exact Hm | intros _; apply only_create_and_push_tag].
Qed.
End Driver.

(** C7. Whenever a run of [process_repo] holds the push of the version-bump
    commit ([git push -v origin main] in the repository) and that push ended
    with an error status, the run stopped there: its last events are the
    three error lines (the failure, and stdout and stderr of the push) and
    the git diagnostics, and no event of the whole run is a [git tag] or the
    push of a tag. *)
Theorem process_repo_stops_when_push_fails (repo : string)
  (repos_to_process : list string) (version version_tag : string) (a : args)
  (cwd : string) (w : W) (p : completed) :
  Run PUSH_MAIN (Some (Path.join cwd repo)) (Some p)
    ∈ events_of (process_repo repo repos_to_process version version_tag a cwd w) ->
  returncode p <> 0 ->
  stopped_at_push repo (Path.join cwd repo) p
    (process_repo repo repos_to_process version version_tag a cwd w).
Proof.
  revert p.
  change (stops_on_failed_push repo (Path.join cwd repo)
            (process_repo repo repos_to_process version version_tag a cwd w)).
  unfold process_repo.
  do 4 (apply stops_bind; [only_auto | intros ? ?]).
  destruct (negb _); [apply stops_of_only; only_auto |].
  apply stops_bind; [only_auto | intros is_git ?].
  destruct (negb is_git); [apply stops_of_only; only_auto |].
  apply stops_bind; [apply only_print_git_diagnostics | intros _ ?].
  apply stops_bind; [apply only_setup_git_auth | intros _ ?].
  apply stops_bind; [only_auto | intros _ ?].
  apply stops_bind; [apply only_update_version_files |].
  intros [dockerfiles files_updated] ?.
  destruct files_updated.
  - apply stops_bind; [apply only_stage_version_updates | intros _ ?].
    apply stops_bind; [only_auto | intros _ ?].
    apply stops_bind; [only_auto | intros proc ?].
    destruct (returncode proc =? 0).
    + do 2 (apply stops_bind; [only_auto | intros _ ?]).
      apply push_step_stops.
    + apply tag_step_stops. apply only_print. reflexivity.
  - apply tag_step_stops. apply only_print. reflexivity.
Qed.
End PushFailure.

(** ** The properties in the simulated world *)

Section Simulated.
Import Sim Scenario.

Lemma check_falls_back_to_release_witness :
  subprocess_run GH_RUN_LIST (Some core) query_fails
    = (Some (failed "HTTP 502"), query_fails)
  /\ returncode (failed "HTTP 502") <> 0
  /\ outcome_of (check_workflow_completed core "v1.2.3" query_fails) = Ret 1.
Proof.
  assert (returncode (failed "HTTP 502") <> 0) as Hrc by discriminate.
  split; [reflexivity |]. split; [exact Hrc |].
  exact (proj1 (check_falls_back_to_release core "v1.2.3" query_fails
                  (failed "HTTP 502") query_fails eq_refl (or_introl Hrc))).
Defined.

Lemma completed_with_other_conclusion_succeeds_witness :
  outcome_of (check_workflow_completed core "v1.2.3" (concluded "skipped"))
  = Ret 0.
Proof.
  apply (completed_with_other_conclusion_succeeds core "v1.2.3"
           (concluded "skipped")
           [("databaseId", JNum 42); ("status", JStr "completed");
            ("conclusion", JStr "skipped"); ("headBranch", JStr "v1.2.3");
            ("workflowName", JStr "Release")]).
  - vm_compute. reflexivity.
  - reflexivity.
  - intros c Hc E. vm_compute in E. injection E as <-.
    repeat (apply elem_of_cons in Hc as [Hc | Hc]; [discriminate Hc |]).
    inversion Hc.
Defined.

Lemma main_exits_when_user_declines_witness :
  declined checkout "n" (main (release_args "1.2.3") user_says_no).
Proof.
  apply (main_exits_when_user_declines (release_args "1.2.3") user_says_no
           checkout "n").
  - reflexivity.
  - reflexivity.
  - intros Hin. vm_compute in Hin.
    repeat (apply elem_of_cons in Hin as [Hin | Hin]; [discriminate Hin |]).
    inversion Hin.
Defined.

Lemma process_repo_stops_when_push_fails_witness :
  stopped_at_push "nodetool-core" core
    {| returncode := 1; stdout := ""; stderr := "! [rejected] main -> main" |}
    (process_repo "nodetool-core" REPOS "1.2.3" "v1.2.3"
       (release_args "v1.2.3") "/work" push_rejected).
Proof.
  apply (process_repo_stops_when_push_fails "nodetool-core" REPOS "1.2.3"
           "v1.2.3" (release_args "v1.2.3") "/work" push_rejected).
  - vm_compute. apply list_elem_of_In. simpl.
    repeat first [ left; reflexivity | right ].
  - discriminate.
Defined.

(** C1, at [pyproject.toml].  The first call of [update_pyproject_version]
    moves the file from 0.1.0 to 1.2.3 and reports a change.  The second
    call with the same version leaves the content as it is, but it writes
    the file again and reports a change again: it returns [True], where
    every other patcher compares the new text with the old one. *)
Theorem update_pyproject_version_reports_change_twice :
  let path := "/work/nodetool-core/pyproject.toml" in
  let first := update_pyproject_version path "1.2.3" checkout in
  let second := update_pyproject_version path "1.2.3" (world_of first) in
  outcome_of first = Ret true
  /\ outcome_of second = Ret true
  /\ files (world_of second) !! path = files (world_of first) !! path
  /\ files (world_of first) !! path
     = Some ("[project]" +:+ nl
             +:+ "name = " +:+ dq +:+ "nodetool-core" +:+ dq +:+ nl
             +:+ "version = " +:+ dq +:+ "1.2.3" +:+ dq +:+ nl)
  /\ exists text, WriteText path text ∈ events_of second.
Proof.
  vm_compute. repeat split. eexists. apply list_elem_of_In. simpl.
  right. left. reflexivity.
Qed.

(** C2, with one repository whose release run has failed.  Every round
    finds the run failed, and the loop goes on: it sleeps sixty times thirty
    seconds, the whole budget, and then leaves by the time-out exit.  The
    exit for failed workflows is never taken. *)
Theorem wait_for_failed_repo_runs_out_the_budget :
  let r := wait_for_repos ["nodetool-core"] "v1.2.3" "/work"
             (concluded "failure") in
  outcome_of r = Exit 1
  /\ seconds_slept (events_of r) = MAX_WAIT
  /\ clock (world_of r) = 1800
  /\ last (events_of r)
     = Some (Print (RED +:+ "[ERROR]" +:+ NC +:+ " "
                    +:+ "Timeout waiting for release workflows to complete"))
  /\ prints_line (RED +:+ "[ERROR]" +:+ NC +:+ " "
                  +:+ "Some release workflows failed or were cancelled")
       (events_of r) = false.
Proof. vm_compute. repeat split. Qed.
End Simulated.

(** ** The package page *)

Section PackagePage.
Context {W V : Type} `{Platform W} `{Network W} `{Packaging V}.

Lemma http_no_exit method f url (w : W) c :
  outcome_of (http method f url w) <> Exit c.
Proof.
  unfold http. destruct (f url w) as [[resp|] w1]; discriminate.
Qed.

Lemma probe_sidecar_returns asset_url (w : W) :
  exists r, outcome_of (probe_sidecar asset_url w) = Ret r.
Proof.
  unfold probe_sidecar, try_all. rewrite run_try_except, run_bind.
  pose proof (http_no_exit "HEAD" requests_head (asset_url +:+ ".metadata") w)
    as N1.
  destruct (outcome_of (http "HEAD" requests_head _ w)) as [meta_head|e|c];
    cbn [outcome_of]; [| eexists; reflexivity | destruct (N1 c eq_refl)].
  destruct (status_code meta_head =? 200); [| eexists; reflexivity].
  rewrite run_bind.
  match goal with
  | |- context [http "GET" requests_get ?u ?x] =>
      pose proof (http_no_exit "GET" requests_get u x) as N2;
      destruct (outcome_of (http "GET" requests_get u x)) as [meta_get|e|c];
      cbn [outcome_of]; [| eexists; reflexivity | destruct (N2 c eq_refl)]
  end.
  destruct (_ && _); eexists; reflexivity.
Qed.

(** [get_wheel_metadata] always returns, and what it returns carries the
    URL and the name it was given. *)
Lemma get_wheel_metadata_returns asset_url asset_name (w : W) :
  exists wh,
    outcome_of (get_wheel_metadata asset_url asset_name w) = Ret wh
    /\ url wh = asset_url /\ filename wh = asset_name.
Proof.
  unfold get_wheel_metadata. rewrite run_try_except, run_bind.
  pose proof (http_no_exit "HEAD" requests_head asset_url w) as N1.
  destruct (outcome_of (http "HEAD" requests_head asset_url w))
    as [resp|e|c]; cbn [outcome_of];
    [| eexists; split; [reflexivity | split; reflexivity]
     | destruct (N1 c eq_refl)].
  rewrite run_bind.
  set (w1 := world_of (http "HEAD" requests_head asset_url w)).
  destruct (content_length resp) as [l|].
  - destruct (py_int l) as [n|]; cbn [raise mret M_ret outcome_of world_of];
      [| eexists; split; [reflexivity | split; reflexivity]].
    rewrite run_bind.
    destruct (probe_sidecar_returns asset_url w1) as ([available digest] & ->).
    cbn. eexists; split; [reflexivity | split; reflexivity].
  - cbn [mret M_ret outcome_of world_of]. rewrite run_bind.
    destruct (probe_sidecar_returns asset_url w1) as ([available digest] & ->).
    cbn. eexists; split; [reflexivity | split; reflexivity].
Qed.

(** The wheels of a release with one wheel asset, without a filter. *)
Lemma collect_assets_plain tag a r (v : V) wheels (w : W) :
  plain_release tag a r ->
  exists wh,
    outcome_of (collect_assets None v r wheels w) = Ret (wheels ++ [wh])
    /\ wheel_of a (version_str v) wh.
Proof.
  intros (_ & _ & _ & Ha & Hwhl). unfold collect_assets. rewrite Ha.
  cbn [for_fold]. rewrite Hwhl. rewrite run_bind, run_bind.
  destruct (get_wheel_metadata_returns (browser_download_url a) (asset_name a) w)
    as (m & -> & Hu & Hf).
  cbn. eexists. split; [reflexivity |]. repeat split; assumption.
Qed.

Lemma collect_wheels_two a1 a2 tag1 tag2 r1 r2 (v1 v2 : V) (w : W) :
  plain_release tag1 a1 r1 -> plain_release tag2 a2 r2 ->
  exists wh1 wh2,
    outcome_of (collect_wheels None [(v1, r1); (v2, r2)] w) = Ret [wh1; wh2]
    /\ wheel_of a1 (version_str v1) wh1 /\ wheel_of a2 (version_str v2) wh2.
Proof.
  intros P1 P2. unfold collect_wheels. cbn [for_fold]. rewrite run_bind.
  destruct (collect_assets_plain tag1 a1 r1 v1 [] w P1) as (wh1 & -> & K1).
  cbn [outcome_of app]. rewrite run_bind.
  match goal with
  | |- context [collect_assets None v2 r2 [wh1] ?x] =>
      destruct (collect_assets_plain tag2 a2 r2 v2 [wh1] x P2)
        as (wh2 & -> & K2)
  end.
  cbn. exists wh1, wh2. repeat split; assumption || apply K1 || apply K2.
Qed.

Lemma parse_version_of_tag (tag text : string) (v : V) :
  Str.split "-" (Str.lstrip_char "v" tag) = [text] ->
  version_parse text = Some v ->
  parse_version tag = Ret (Some v).
Proof. intros Hs Hp. unfold parse_version. rewrite Hs, Hp. reflexivity. Qed.

(** The six lists that are permutations of [[a; b; c]]. *)
Lemma permutation_of_three {A} (a b c : A) l :
  Permutation l [a; b; c] ->
  l = [a; b; c] \/ l = [a; c; b] \/ l = [b; a; c]
  \/ l = [b; c; a] \/ l = [c; a; b] \/ l = [c; b; a].
Proof.
  intros P. apply Permutation_cons_inv_r in P as (k1 & k2 & -> & P).
  apply Permutation_length_2_inv in P.
  destruct P as [E | E];
    destruct k1 as [|x [|y [|z k1]]]; simplify_eq/=; tauto.
Qed.

#[local] Abbreviation dry := (fun e => is_write e = false).

Lemma only_http method f url : only (W := W) dry (http method f url).
Proof.
  intros w. unfold http. destruct (f url w) as [[resp|] w1];
    repeat constructor.
Qed.

Lemma only_probe_sidecar asset_url :
  only (W := W) dry (probe_sidecar asset_url).
Proof.
  unfold probe_sidecar, try_all. apply only_try_except.
  - apply only_bind; [apply only_http |]. intros meta_head.
    destruct (status_code meta_head =? 200); [| apply only_ret].
    apply only_bind; [apply only_http |]. intros meta_get.
    destruct (_ && _); apply only_ret.
  - intros e handler [= <-]. apply only_ret.
Qed.

Lemma only_get_wheel_metadata asset_url asset_name :
  only (W := W) dry (get_wheel_metadata asset_url asset_name).
Proof.
  unfold get_wheel_metadata. apply only_try_except.
  - apply only_bind; [apply only_http |]. intros resp.
    apply only_bind.
    + destruct (content_length resp) as [l|]; [| apply only_ret].
      destruct (py_int l); [apply only_ret | apply only_raise].
    + intros n. apply only_bind; [apply only_probe_sidecar |].
      intros [available digest]. apply only_ret.
  - intros e handler [= <-].
    apply only_bind; [apply only_print; reflexivity |].
    intros _. apply only_ret.
Qed.

Lemma only_collect_assets wheel_filter (v : V) r wheels :
  only (W := W) dry (collect_assets wheel_filter v r wheels).
Proof.
  unfold collect_assets. apply only_for_fold. intros acc a.
  destruct (Str.endswith _ _); [| apply only_ret].
  destruct (match wheel_filter with Some _ => _ | None => _ end);
    [apply only_ret |].
  apply only_bind; [apply only_get_wheel_metadata |].
  intros m. apply only_ret.
Qed.

Lemma only_collect_wheels wheel_filter (sorted : list (V * release)) :
  only (W := W) dry (collect_wheels wheel_filter sorted).
Proof.
  unfold collect_wheels. apply only_for_fold. intros acc [v r].
  apply only_collect_assets.
Qed.

(** The releases that are kept, newest first, whatever the order in which
    the three releases are listed. *)
Lemma sorted_valid_releases a100 a110 r100 r110 rc (v100 v110 : V) l :
  plain_release "v1.0.0" a100 r100 ->
  plain_release "v1.1.0" a110 r110 ->
  prerelease rc = true ->
  version_parse "1.0.0" = Some v100 ->
  version_parse "1.1.0" = Some v110 ->
  version_lt v100 v110 = true ->
  version_lt v110 v100 = false ->
  Permutation l [r100; r110; rc] ->
  exists valid,
    valid_releases l = Ret valid
    /\ sort_desc valid = [(v110, r110); (v100, r100)].
Proof.
  intros (T1 & D1 & R1 & _) (T2 & D2 & R2 & _) Rc P100 P110 Lt Ge Hl.
  assert (E100 : parse_version (tag_name r100) = Ret (Some v100))
    by (rewrite T1; apply (parse_version_of_tag _ "1.0.0");
        [reflexivity | assumption]).
  assert (E110 : parse_version (tag_name r110) = Ret (Some v110))
    by (rewrite T2; apply (parse_version_of_tag _ "1.1.0");
        [reflexivity | assumption]).
  assert (Erc : draft rc || prerelease rc = true)
    by (rewrite Rc; apply orb_true_r).
  apply permutation_of_three in Hl.
  destruct Hl as [-> | [-> | [-> | [-> | [-> | ->]]]]];
    cbn [valid_releases];
    rewrite ?D1, ?R1, ?D2, ?R2, ?Erc, ?E100, ?E110; cbn [orb];
    eexists; (split; [reflexivity |]);
    unfold sort_desc; cbn; rewrite ?Lt, ?Ge; reflexivity.
Qed.

(** C5. A repository has the releases [v1.0.0] and [v1.1.0], each published
    with one wheel asset, and a release [v2.0.0-rc1] marked prerelease, listed
    in any order. Then the page that [generate_package_page] writes, and it
    writes nothing else, is the page of exactly two wheels: the wheel of
    [v1.1.0] first, the wheel of [v1.0.0] second. When the function returns,
    it has written that page to [index.html] of the package and returns 2. *)
Theorem package_page_lists_releases_newest_first
    package repo output_dir a100 a110 r100 r110 rc (v100 v110 : V) (w : W) :
  plain_release "v1.0.0" a100 r100 ->
  plain_release "v1.1.0" a110 r110 ->
  tag_name rc = "v2.0.0-rc1" ->
  prerelease rc = true ->
  version_parse "1.0.0" = Some v100 ->
  version_parse "1.1.0" = Some v110 ->
  version_lt v100 v110 = true ->
  version_lt v110 v100 = false ->
  Permutation (client_get_releases repo w).1 [r100; r110; rc] ->
  exists wh110 wh100,
    wheel_of a110 (version_str v110) wh110
    /\ wheel_of a100 (version_str v100) wh100
    /\ let run := generate_package_page package repo output_dir None w in
       let page := Str.join nl (html_lines package [wh110; wh100]) in
       let index := Path.join (Path.join output_dir package) "index.html" in
       (forall path text,
          In (WriteText path text) (events_of run) ->
          path = index /\ text = page)
       /\ (forall n,
             outcome_of run = Ret n ->
             n = 2 /\ In (WriteText index page) (events_of run)).
Proof.
  intros P100 P110 _ Rc E100 E110 Lt Ge Hl.
  destruct (sorted_valid_releases a100 a110 r100 r110 rc v100 v110 _
              P100 P110 Rc E100 E110 Lt Ge Hl) as (valid & Hv & Hs).
  destruct (client_get_releases repo w) as [l w1] eqn:Eg. cbn [fst] in Hv.
  destruct (collect_wheels_two a110 a100 _ _ r110 r100 v110 v100 w1 P110 P100)
    as (wh110 & wh100 & Hw & K110 & K100).
  pose proof (only_collect_wheels None [(v110, r110); (v100, r100)] w1) as Dry.
  pose proof (result_eta (collect_wheels None [(v110, r110); (v100, r100)] w1))
    as Ec.
  rewrite Hw in Ec.
  set (t := events_of (collect_wheels None _ w1)) in *.
  set (w2 := world_of (collect_wheels None _ w1)) in *.
  assert (Ht : forall path text, ~ In (WriteText path text) t).
  { intros path text Hin. rewrite Forall_forall in Dry.
    apply list_elem_of_In, Dry in Hin. discriminate Hin. }
  exists wh110, wh100. split; [exact K110 |]. split; [exact K100 |].
  cbv zeta. unfold generate_package_page.
  rewrite (run_bind_ret (get_releases repo) _ w l w1
             [Request "GET" ("https://api.github.com/repos/" +:+ repo
                             +:+ "/releases")])
    by (unfold get_releases; rewrite Eg; reflexivity).
  rewrite (run_bind_ret (lift (valid_releases l)) _ w1 valid w1 [])
    by (unfold lift; rewrite Hv; reflexivity).
  rewrite Hs, (run_bind_ret _ _ w1 _ w2 t Ec).
  cbn [outcome_of world_of events_of app length].
  set (dir := Path.join output_dir package).
  set (page := Str.join nl (html_lines package [wh110; wh100])).
  destruct (fs_mkdir dir w2) as [w3|] eqn:Em.
  - rewrite (run_bind_ret (mkdir dir) _ w2 tt w3 [Mkdir dir])
      by (unfold mkdir; rewrite Em; reflexivity).
    destruct (fs_write_text (Path.join dir "index.html") page w3)
      as [w4|] eqn:Ew.
    + rewrite (run_bind_ret (write_text _ page) _ w3 tt w4
                 [WriteText (Path.join dir "index.html") page])
        by (unfold write_text; rewrite Ew; reflexivity).
      cbn [outcome_of events_of app]. split.
      * intros path text [E | Hin]; [discriminate E |].
        rewrite !in_app_iff in Hin. cbn -[page] in Hin.
        destruct Hin as [Hin | [E | [E | [E | []]]]];
          try discriminate E; [destruct (Ht _ _ Hin) |].
        injection E as <- <-. split; reflexivity.
      * intros n E. cbn in E. injection E as <-. split; [reflexivity |].
        right. rewrite !in_app_iff. right. right. left. reflexivity.
    + rewrite (run_bind_raise (write_text _ page) _ w3
                 (OtherError "OSError") w3 [])
        by (unfold write_text; rewrite Ew; reflexivity).
      cbn [outcome_of events_of app]. split.
      * intros path text [E | Hin]; [discriminate E |].
        rewrite !in_app_iff in Hin. cbn [In] in Hin.
        destruct Hin as [Hin | [E | []]];
          try discriminate E. destruct (Ht _ _ Hin).
      * intros n E. discriminate E.
  - rewrite (run_bind_raise (mkdir dir) _ w2 (OtherError "OSError") w2 [])
      by (unfold mkdir; rewrite Em; reflexivity).
    cbn [outcome_of events_of app]. split.
    + intros path text [E | Hin]; [discriminate E |].
      rewrite app_nil_r in Hin. destruct (Ht _ _ Hin).
    + intros n E. discriminate E.
Qed.
End PackagePage.

Section SimulatedRegistry.
Import Sim Scenario.

Lemma package_page_lists_releases_newest_first_witness :
  let a100 := wheel_asset "1.0.0" in
  let a110 := wheel_asset "1.1.0" in
  let v100 := [1; 0; 0]%nat in
  let v110 := [1; 1; 0]%nat in
  outcome_of (generate_package_page (V := list nat) "pkg" "o/pkg" "/out" None
                registry) = Ret 2
  /\ exists wh110 wh100,
       wheel_of a110 (version_str v110) wh110
       /\ wheel_of a100 (version_str v100) wh100
       /\ let run := generate_package_page (V := list nat) "pkg" "o/pkg"
                       "/out" None registry in
          let page := Str.join nl (html_lines "pkg" [wh110; wh100]) in
          let index := Path.join (Path.join "/out" "pkg") "index.html" in
          (forall path text,
             In (WriteText path text) (events_of run) ->
             path = index /\ text = page)
          /\ (forall n,
                outcome_of run = Ret n ->
                n = 2 /\ In (WriteText index page) (events_of run)).
Proof.
  split; [vm_compute; reflexivity |].
  apply (package_page_lists_releases_newest_first (V := list nat)
           "pkg" "o/pkg" "/out" (wheel_asset "1.0.0") (wheel_asset "1.1.0")
           (released "1.0.0" false) (released "1.1.0" false)
           (released "2.0.0-rc1" true) [1; 0; 0]%nat [1; 1; 0]%nat registry).
  - vm_compute. repeat split.
  - vm_compute. repeat split.
  - reflexivity.
  - reflexivity.
  - vm_compute. reflexivity.
  - vm_compute. reflexivity.
  - vm_compute. reflexivity.
  - vm_compute. reflexivity.
  - vm_compute.
    eapply perm_trans; [apply perm_swap | apply perm_skip, perm_swap].
Defined.
End SimulatedRegistry.

(** ** Where the matches of a pattern lie *)

Section Matches.
#[local] Open Scope nat_scope.


Section Quantified.
Context {R : Type}.
Variable cls : ascii -> bool.
Variable lo : nat.
Variable k : option ascii -> nat -> list ascii -> option R.
Variable end_of : R -> nat.
Hypothesis k_bounds : forall prev pos s r,
  k prev pos s = Some r -> pos <= end_of r <= pos + length s.


End Quantified.





Lemma ordered_empty lo hi ms : hi <= lo -> ordered lo hi ms -> ms = [].
Proof. destruct ms as [|m ms]; simpl; [reflexivity | lia]. Qed.

Section Scan.
Variable r : Re.regex.
Hypothesis not_empty : forall prev pos s e gs,
  Re.match_here r [] [] prev pos s = Some (e, gs) ->
  pos < e <= pos + length s.


End Scan.


(** *** Replacing the matches *)

Section Splice.
Variable repl : Re.rmatch -> string.



(** What a splice keeps: a quantity [f] that adds up over the pieces of a
    text and that every replacement shares with the match it replaces. *)
Section Kept.
Context {X : Type}.
Variable f : list ascii -> X.
Variable op : X -> X -> X.
Hypothesis f_app : forall a b, f (a ++ b) = op (f a) (f b).

End Kept.


End Splice.
End Matches.

(** ** Lines *)

Section Lines.
#[local] Open Scope nat_scope.



Lemma find_chars_none c l :
  ~ In c l -> Str.find_chars [c] l = None.
Proof.
  induction l as [|b l IH]; simpl; [reflexivity |].
  intros N. destruct (Ascii.eqb_spec c b) as [-> | _]; [tauto |].
  rewrite IH by tauto. reflexivity.
Qed.


Lemma find_chars_some_in c l i :
  Str.find_chars [c] l = Some i -> In c l.
Proof.
  destruct (in_dec Ascii.ascii_dec c l) as [Hin | N]; [trivial |].
  rewrite find_chars_none by exact N. discriminate.
Qed.



Lemma find_chars_in c l : In c l -> is_Some (Str.find_chars [c] l).
Proof.
  induction l as [|b l IH]; simpl; [tauto |].
  destruct (Ascii.eqb_spec c b) as [-> | N]; [eexists; reflexivity |].
  intros [-> | Hin]; [tauto |].
  destruct (IH Hin) as (i & ->). eexists; reflexivity.
Qed.


Lemma contains_nl_true s :
  Str.contains nl s = true -> In nl_char (Str.chars s).
Proof.
  unfold Str.contains. intros E. apply bool_decide_eq_true in E.
  destruct E as (i & E). apply find_chars_some_in in E. exact E.
Qed.



Section Inside.
Variables (text : string) (A line B : list ascii).
Hypothesis text_eq : Str.chars text = A ++ line ++ B.
Hypothesis before : A = [] \/ exists p, A = p ++ [nl_char].
Hypothesis after : B = [] \/ exists q, B = nl_char :: q.
Hypothesis one_line : ~ In nl_char line.






End Inside.

(** *** The lines of a text *)





End Lines.

(** ** The dependency pin, line by line *)

Section LineByLine.
#[local] Open Scope nat_scope.



Section Spliced.
Variables (text : string) (repl : Re.rmatch -> string).
Variable line : list ascii.


End Spliced.


End LineByLine.


Section PinPatch.
Context {W : Type} `{Platform W}.

End PinPatch.

Section SimulatedPin.
Import Sim Scenario.


(** C4, at a name declaration that a quoted token runs into.  The token
    begins on the line before the declaration, where a double quote is not
    closed, and [[^QUOTE]*] takes it over the line break to the first quote
    of the declaration.  The guard of [replacement] looks at the two lines
    as one text, which does not begin with [name =], so the match is
    rewritten: the declaration is line 1 of the file, and the text that is
    written has no such line, the rest of the declaration stands behind the
    pin on line 0. *)
Theorem pin_patch_rewrites_straddled_name_line :
  let path := "/pkg/pyproject.toml" in
  let name_line := "name = " +:+ dq +:+ "pkg" +:+ dq in
  let run :=
    update_nodetool_core_dependency path "1.2.3"
      (with_file path straddling_toml) in
  Str.split nl_char straddling_toml !! 1%nat = Some name_line
  /\ Re.search name_decl_re name_line = true
  /\ exists new_text,
       In (WriteText path new_text) (events_of run)
       /\ Str.split nl_char new_text
          = ["description = 'uses " +:+ dq +:+ "nodetool-core==1.2.3" +:+ dq
             +:+ "pkg" +:+ dq; ""]
       /\ ~ In name_line (Str.split nl_char new_text).
Proof.
  cbv zeta. split; [vm_compute; reflexivity |].
  split; [vm_compute; reflexivity |].
  eexists. split; [vm_compute; left; reflexivity |].
  split; [vm_compute; reflexivity |].
  vm_compute. intros [E | [E | []]]; discriminate E.
Qed.
End SimulatedPin.

(** ** Commands *)

Section Commands.
Context {W : Type} `{Platform W}.

(** X1. A command that ends with an error status: [run_command] starts it once,
    and then, with [check], prints the two error lines and raises
    [CalledProcessError]; without [check] it prints one warning and returns
    the result.  In both cases what the command wrote to stdout and to stderr
    is printed, if it wrote anything. *)
Theorem run_command_nonzero_exit cmd cwd (check : bool) (w w1 : W) p :
  subprocess_run cmd cwd w = (Some p, w1) ->
  returncode p <> 0 ->
  run_command cmd cwd check w
  = Result (if check then Raise (CalledProcessError p) else Ret p) w1
      ([Print (GREEN +:+ "[INFO]" +:+ NC +:+ " " +:+ "Running: "
               +:+ Str.join " " cmd +:+ " (cwd=" +:+ str_of_cwd cwd +:+ ")");
        Run cmd cwd (Some p)]
       ++ (if check
           then [Print (RED +:+ "[ERROR]" +:+ NC +:+ " " +:+ "Command failed: "
                        +:+ Str.join " " cmd);
                 Print (RED +:+ "[ERROR]" +:+ NC +:+ " " +:+ "Exit code: "
                        +:+ Str.of_Z (returncode p))]
           else [Print (YELLOW +:+ "[WARNING]" +:+ NC +:+ " "
                        +:+ "Command returned " +:+ Str.of_Z (returncode p))])
       ++ (if Str.truthy (stdout p)
           then [Print ("stdout: " +:+ stdout p)] else [])
       ++ (if Str.truthy (stderr p)
           then [Print ("stderr: " +:+ stderr p)] else [])).
Proof.
  intros Hrun Hrc.
  unfold run_command, try_except, subprocess_run_checked, print_info,
    print_warning, print_error, print, emit, spawn, when, raise,
    mbind, M_bind, mret, M_ret.
  rewrite Hrun.
  destruct (returncode p) as [|n|n] eqn:Erc; [congruence | |];
    destruct check; cbn -[String.append Str.join Str.of_Z];
    rewrite ?Erc;
    destruct (Str.truthy (stdout p)), (Str.truthy (stderr p)); reflexivity.
Qed.
End Commands.

(** ** The version patchers *)

Ltac touch_leaf := intros; first [exact I | reflexivity].

Ltac touch :=
  repeat
    lazymatch goal with
    | |- only _ (mret _) => apply only_ret
    | |- only _ (mbind _ _) => apply only_bind; [| intros ?]
    | |- only _ (raise _) => apply only_raise
    | |- only _ (ask _) => apply only_ask
    | |- only _ (print _) => apply only_print; touch_leaf
    | |- only _ (print_info _) => apply only_print; touch_leaf
    | |- only _ (print_warning _) => apply only_print; touch_leaf
    | |- only _ (read_text _) => apply only_read_text
    | |- only _ (write_text _ _) => apply only_write_text; touch_leaf
    | |- only _ (re_subn _ _ _ _) => apply only_re_subn
    | |- only _ (try_except _ _) =>
        apply only_try_except;
        [| let e := fresh "e" in let E := fresh "E" in
           intros e ? E; destruct e; simpl in E; inversion E; subst; clear E]
    | |- only _ (if ?c then _ else _) => destruct c
    | |- only _ (match ?x with _ => _ end) => destruct x
    end.

Section Patchers.
Context {W : Type} `{Platform W}.

(** X2. Whatever the world, a patcher prints and writes the file it was given,
    and does nothing else: it writes no other file and starts no
    subprocess. *)
Theorem patchers_touch_only_their_file (path version : string) :
  only (W := W) (prints_or_writes path) (update_pyproject_version path version)
  /\ only (W := W) (prints_or_writes path)
       (update_nodetool_core_dependency path version)
  /\ only (W := W) (prints_or_writes path)
       (update_package_json_version path version)
  /\ only (W := W) (prints_or_writes path)
       (update_constants_version path version)
  /\ only (W := W) (prints_or_writes path)
       (update_copilot_core_ref path version)
  /\ only (W := W) (prints_or_writes path)
       (update_git_package_refs path version)
  /\ only (W := W) (prints_or_writes path)
       (update_dockerfile_pypi_versions path version).
Proof.
  repeat split.
  - unfold update_pyproject_version. touch.
  - unfold update_nodetool_core_dependency. touch.
  - unfold update_package_json_version. touch.
  - unfold update_constants_version. touch.
  - unfold update_copilot_core_ref. touch.
  - unfold update_git_package_refs. touch.
  - unfold update_dockerfile_pypi_versions. touch.
Qed.

Lemma honest_silent path text (o : outcome bool) :
  o <> Ret true -> honest_report path text o [].
Proof.
  intros N. split; [intros p new [] |]. split; [tauto |]. intros _ p new [].
Qed.

(** The end of a patcher that compares the new text with the old one. *)
Lemma honest_guarded (c : bool) path new text msg (w : W) :
  let r := (if c && negb (new =s? text)
            then write_text path new;; print_info msg;; mret true
            else mret false) w in
  honest_report path text (outcome_of r) (events_of r).
Proof.
  cbv zeta. destruct (c && negb (new =s? text)) eqn:G.
  - apply andb_prop in G as [_ G]. apply negb_true_iff, String.eqb_neq in G.
    destruct (fs_write_text path new w) as [w1|] eqn:Ew.
    + rewrite (run_bind_ret (write_text path new) _ w tt w1
                 [WriteText path new])
        by (unfold write_text; rewrite Ew; reflexivity).
      cbn. split; [| split].
      * intros p t [E | [E | []]]; [| discriminate E].
        injection E as <- <-. split; [reflexivity | exact G].
      * intros _. exists new. left. reflexivity.
      * discriminate.
    + rewrite (run_bind_raise (write_text path new) _ w
                 (OtherError "OSError") w [])
        by (unfold write_text; rewrite Ew; reflexivity).
      apply honest_silent. discriminate.
  - apply honest_silent. discriminate.
Qed.

(** A step that returns without an event and leaves the world alone. *)
Lemma run_bind_silent {A B} (m : M W A) (f : A -> M W B) (w : W) a :
  m w = Result (Ret a) w [] -> (m ≫= f) w = f a w.
Proof.
  intros E. rewrite (run_bind_ret m f w a w [] E). cbn [app].
  symmetry. apply result_eta.
Qed.

Lemma try_except_ext {A} (body body' : M W A) h (w : W) :
  body w = body' w -> try_except body h w = try_except body' h w.
Proof. intros E. unfold try_except. rewrite E. reflexivity. Qed.

Lemma run_read_text path text (w : W) :
  fs_read_text path w = Some text ->
  read_text path w = Result (Ret text) w [].
Proof.
  intros E. unfold read_text.
  rewrite (run_bind_ret _ _ w _ w [] eq_refl), E. reflexivity.
Qed.

(** A patcher that substitutes a pattern and compares. *)
Lemma honest_substitution r template count path text msg (w : W) :
  fs_read_text path w = Some text ->
  let run :=
    (ex ← ask (path_exists path);
     if negb ex then mret false else
     text ← read_text path;
     '(new_text, n) ← re_subn r template text count;
     if (0 <? n) && negb (new_text =s? text) then
       write_text path new_text;; print_info msg;; mret true
     else mret false) w in
  honest_report path text (outcome_of run) (events_of run).
Proof.
  intros Hread. cbv zeta.
  rewrite (run_bind_ret (ask (path_exists path)) _ w _ w [] eq_refl).
  cbn [outcome_of events_of app].
  destruct (path_exists path w); cbn [negb];
    [| apply honest_silent; discriminate].
  rewrite (run_bind_ret _ _ w _ w [] (run_read_text path text w Hread)).
  cbn [outcome_of events_of app]. unfold re_subn.
  destruct (Re.subn r template text count) as [[new n]|].
  - rewrite (run_bind_ret _ _ w _ w [] eq_refl).
    cbn [outcome_of events_of app]. apply honest_guarded.
  - rewrite (run_bind_raise _ _ w ReError w [] eq_refl).
    apply honest_silent. discriminate.
Qed.

(** X3. The patchers that compare the new text with the old one never write a
    file back as it was, and their report is true: [True] after a write,
    [False] after none. *)
Theorem guarded_patchers_report_the_truth (path version text : string)
    (w : W) :
  fs_read_text path w = Some text ->
  honest_report path text
    (outcome_of (update_constants_version path version w))
    (events_of (update_constants_version path version w))
  /\ honest_report path text
       (outcome_of (update_copilot_core_ref path version w))
       (events_of (update_copilot_core_ref path version w))
  /\ honest_report path text
       (outcome_of (update_git_package_refs path version w))
       (events_of (update_git_package_refs path version w))
  /\ honest_report path text
       (outcome_of (update_dockerfile_pypi_versions path version w))
       (events_of (update_dockerfile_pypi_versions path version w))
  /\ honest_report path text
       (outcome_of (update_nodetool_core_dependency path version w))
       (events_of (update_nodetool_core_dependency path version w)).
Proof.
  intros Hread.
  pose proof (run_read_text path text w Hread) as Hr.
  split; [apply (honest_substitution constants_version_re); exact Hread |].
  split; [apply (honest_substitution copilot_core_ref_re); exact Hread |].
  split; [apply (honest_substitution git_package_ref_re); exact Hread |].
  split.
  - unfold update_dockerfile_pypi_versions.
    rewrite (run_bind_ret (ask (path_exists path)) _ w _ w [] eq_refl).
    cbn [outcome_of events_of app].
    destruct (path_exists path w); cbn [negb];
      [| apply honest_silent; discriminate].
    rewrite (run_bind_ret _ _ w _ w [] Hr).
    cbn [outcome_of events_of app]. unfold re_subn.
    destruct (Re.subn dockerfile_pypi_re _ text 0) as [[new n]|].
    + rewrite (run_bind_ret _ _ w _ w [] eq_refl).
      cbn [outcome_of events_of app].
      destruct ((0 <? n) && negb (new =s? text)) eqn:G.
      * rewrite (run_bind_ret _ _ w _ w [] Hr).
        cbn [outcome_of events_of app].
        apply (honest_guarded true path new text).
      * rewrite (run_bind_ret _ _ w text w [] eq_refl).
        apply honest_silent. discriminate.
    + rewrite (run_bind_raise _ _ w ReError w [] eq_refl).
      apply honest_silent. discriminate.
  - unfold update_nodetool_core_dependency.
    rewrite (run_bind_ret (ask (path_exists path)) _ w _ w [] eq_refl).
    cbn [outcome_of events_of app].
    destruct (path_exists path w); cbn [negb];
      [| apply honest_silent; discriminate].
    rewrite (run_bind_ret _ _ w _ w [] Hr).
    cbn [outcome_of events_of app].
    destruct (negb (Str.contains "nodetool-core" text));
      [apply honest_silent; discriminate |].
    destruct (pin_core_dependency text version) as [new updated].
    apply honest_guarded.
Qed.
End Patchers.

(** ** The version of a [package.json] *)

Section PackageJson.
Context {W : Type} `{Platform W}.

Lemma lookup_set_item_eq k v l : Py.lookup k (Py.set_item k v l) = Some v.
Proof.
  induction l as [|[k' v'] l IH]; simpl.
  - rewrite String.eqb_refl. reflexivity.
  - destruct (k' =s? k) eqn:E; simpl; rewrite E; [reflexivity | exact IH].
Qed.

Lemma lookup_set_item_ne k k' v l :
  k' <> k -> Py.lookup k' (Py.set_item k v l) = Py.lookup k' l.
Proof.
  intros N. induction l as [|[k0 v0] l IH]; simpl.
  - destruct (String.eqb_spec k k') as [-> |]; [tauto | reflexivity].
  - destruct (String.eqb_spec k0 k) as [-> | N0]; simpl.
    + destruct (String.eqb_spec k k') as [-> |]; [tauto | reflexivity].
    + rewrite IH. reflexivity.
Qed.

Lemma keys_set_item k v l :
  map fst (Py.set_item k v l)
  = match Py.lookup k l with
    | Some _ => map fst l
    | None => map fst l ++ [k]
    end.
Proof.
  induction l as [|[k0 v0] l IH]; simpl; [reflexivity |].
  destruct (String.eqb_spec k0 k) as [-> | N0]; simpl; [reflexivity |].
  rewrite IH. destruct (Py.lookup k l); reflexivity.
Qed.

(** X4. [update_package_json_version] on a file that holds a JSON object: when
    the object has the version already, nothing is written and the answer is
    [False]; otherwise the object is written back with [version] set, every
    other key as it was and the keys in their order, a new [version] key
    last. *)
Theorem package_json_version_is_set (path version text : string)
    (fields : list (string * json)) (w : W) :
  path_exists path w = true ->
  fs_read_text path w = Some text ->
  json_loads text = Some (JObj fields) ->
  let fields' := Py.set_item "version" (JStr version) fields in
  let run := update_package_json_version path version w in
  (Py.lookup "version" fields = Some (JStr version) ->
   run = Result (Ret false) w [])
  /\ (Py.lookup "version" fields <> Some (JStr version) ->
      forall w1,
        fs_write_text path (json_dumps (JObj fields') +:+ nl) w = Some w1 ->
        run = Result (Ret true) w1
                [WriteText path (json_dumps (JObj fields') +:+ nl);
                 Print (GREEN +:+ "[INFO]" +:+ NC +:+ " "
                        +:+ "  Updated version in " +:+ path)])
  /\ Py.lookup "version" fields' = Some (JStr version)
  /\ (forall k, k <> "version" -> Py.lookup k fields' = Py.lookup k fields)
  /\ map fst fields'
     = match Py.lookup "version" fields with
       | Some _ => map fst fields
       | None => map fst fields ++ ["version"]
       end.
Proof.
  intros Hex Hread Hjson. cbv zeta.
  unfold update_package_json_version.
  rewrite (run_bind_silent (ask (path_exists path)) _ w _ eq_refl), Hex.
  cbn [negb].
  erewrite try_except_ext
    by (rewrite (run_bind_silent _ _ w _ (run_read_text path text w Hread)),
          Hjson; apply (run_bind_silent _ _ w _ eq_refl)).
  rewrite run_try_except.
  split; [| split; [| split; [| split]]].
  - intros E. rewrite E. cbn [Py.eq_str]. rewrite String.eqb_refl.
    reflexivity.
  - intros N w1 Ew.
    assert (G : match Py.lookup "version" fields with
                | Some v => Py.eq_str v version
                | None => false
                end = false).
    { destruct (Py.lookup "version" fields) as [[| | |s| |]|]; try reflexivity.
      cbn [Py.eq_str]. destruct (String.eqb_spec s version) as [-> |];
        [congruence | reflexivity]. }
    rewrite G.
    rewrite (run_bind_ret (write_text path _) _ w tt w1
               [WriteText path
                  (json_dumps
                     (JObj (Py.set_item "version" (JStr version) fields))
                   +:+ nl)])
      by (unfold write_text; rewrite Ew; reflexivity).
    reflexivity.
  - apply lookup_set_item_eq.
  - intros k N. apply lookup_set_item_ne. exact N.
  - apply keys_set_item.
Qed.

(** X5. A [package.json] that is not JSON is left alone with a warning; one that
    is JSON but no object makes [update_package_json_version] raise
    [AttributeError], which it does not catch.  Nothing is written in either
    case. *)
Theorem package_json_that_is_no_object (path version text : string) (w : W) :
  path_exists path w = true ->
  fs_read_text path w = Some text ->
  (json_loads text = None ->
   update_package_json_version path version w
   = Result (Ret false) w
       [Print (YELLOW +:+ "[WARNING]" +:+ NC +:+ " "
               +:+ "  Could not parse JSON in " +:+ path)])
  /\ (forall v, json_loads text = Some v ->
                (forall fields, v <> JObj fields) ->
                update_package_json_version path version w
                = Result (Raise (OtherError "AttributeError")) w []).
Proof.
  intros Hex Hread. unfold update_package_json_version.
  rewrite (run_bind_silent (ask (path_exists path)) _ w _ eq_refl), Hex.
  cbn [negb].
  erewrite try_except_ext
    by apply (run_bind_silent _ _ w _ (run_read_text path text w Hread)).
  rewrite run_try_except.
  split.
  - intros ->. rewrite (run_bind_raise _ _ w JSONDecodeError w [] eq_refl).
    reflexivity.
  - intros v -> Hv. rewrite (run_bind_silent _ _ w v eq_refl).
    destruct v as [| | | | |fields]; try reflexivity.
    destruct (Hv fields eq_refl).
Qed.
End PackageJson.

(** ** The helpers of the release *)

Section Helpers.
Context {W : Type} `{Platform W}.

(** X6. [run_package_scan] never raises: a scan that cannot be started or that
    fails is answered with [False], a scan that ends well with [True]; and in
    nodetool-core nothing is started at all. *)
Theorem run_package_scan_never_raises (repo_path : string) (w : W) :
  outcome_of (run_package_scan repo_path w)
  = Ret (if Path.name repo_path =s? "nodetool-core" then false
         else match fst (subprocess_run ["nodetool"; "package"; "scan"]
                           (Some repo_path) w) with
              | Some p => returncode p =? 0
              | None => false
              end)
  /\ (Path.name repo_path = "nodetool-core" ->
      run_package_scan repo_path w
      = Result (Ret false) w
          [Print (GREEN +:+ "[INFO]" +:+ NC +:+ " "
                  +:+ "  Skipping nodetool package scan for nodetool-core")]).
Proof.
  unfold run_package_scan. split.
  - destruct (Path.name repo_path =s? "nodetool-core"); [reflexivity |].
    rewrite run_bind. cbn [print_info print emit outcome_of world_of].
    rewrite run_try_except, run_bind.
    destruct (subprocess_run ["nodetool"; "package"; "scan"]
                (Some repo_path) w) as [[p|] w1] eqn:E; cbn [fst].
    + destruct (run_command_started _ _ true w p w1 E) as [-> _].
      cbn [andb]. destruct (returncode p =? 0); reflexivity.
    + destruct (run_command_not_started _ _ true w w1 E) as [-> _].
      reflexivity.
  - intros ->. reflexivity.
Qed.

(** X7. [generate_uv_lock] answers [True] only when [uv lock] ended well and
    left a [uv.lock]; a [uv lock] that fails is answered with [False], and
    only a missing [uv] raises.  Without a [pyproject.toml] nothing is
    started. *)
Theorem generate_uv_lock_outcome (repo_path : string) (w : W) :
  outcome_of (generate_uv_lock repo_path w)
  = if path_exists (Path.join repo_path "pyproject.toml") w then
      match subprocess_run ["uv"; "lock"] (Some repo_path) w with
      | (Some p, w1) =>
          Ret ((returncode p =? 0)
               && path_exists (Path.join repo_path "uv.lock") w1)
      | (None, _) => Raise FileNotFoundError
      end
    else Ret false.
Proof.
  unfold generate_uv_lock.
  rewrite (run_bind_silent (ask (path_exists _)) _ w _ eq_refl).
  destruct (path_exists (Path.join repo_path "pyproject.toml") w);
    [| reflexivity].
  cbn [negb]. rewrite run_bind.
  cbn [print_info print emit outcome_of world_of]. rewrite run_bind.
  destruct (subprocess_run ["uv"; "lock"] (Some repo_path) w)
    as [[p|] w1] eqn:E.
  - destruct (run_command_started _ _ false w p w1 E) as [-> ->].
    cbn [andb outcome_of].
    destruct (returncode p =? 0).
    + rewrite (run_bind_silent (ask (path_exists _)) _ w1 _ eq_refl).
      destruct (path_exists (Path.join repo_path "uv.lock") w1); reflexivity.
    + rewrite run_bind. cbn [print_warning print emit outcome_of world_of].
      rewrite run_bind.
      assert (Q : quiet (W := W)
                    (when (Str.truthy (stderr p))
                       (for_each
                          (take 5 (Str.split nl_char (Str.strip (stderr p))))
                          (fun line => print ("    " +:+ line))))).
      { unfold when. destruct (Str.truthy (stderr p)); [| apply quiet_ret].
        apply quiet_for_each. intros line. apply quiet_print. }
      destruct (Q w1) as (a & t & -> & _). reflexivity.
  - destruct (run_command_not_started _ _ false w w1 E) as [-> _].
    reflexivity.
Qed.

(** *** The run that the poller looks at *)

Lemma first_release_run_spec tag l (w : W) :
  first_release_run l tag w
  = Result (outcome_of (first_release_run l tag w)) w []
  /\ first_of_runs tag l (outcome_of (first_release_run l tag w)).
Proof.
  induction l as [|run l [IH1 IH2]]; cbn [first_release_run].
  - split; [reflexivity |]. split; [reflexivity | constructor].
  - destruct run as [| | | | |fields];
      try (split; [reflexivity |]; split; [reflexivity |];
           eexists [], _, l; split; [reflexivity |];
           split; [discriminate | constructor]).
    cbn [Py.get].
    destruct (Py.eq_str _ tag && existsb _ RELEASE_WORKFLOWS) eqn:E.
    + split; [reflexivity |]. split; [reflexivity |].
      exists [], l. repeat split; [exact E | constructor].
    + assert (P : passed_over tag (JObj fields))
        by (split; [eexists; reflexivity | exact E]).
      split; [exact IH1 |].
      destruct (outcome_of (first_release_run l tag w))
        as [[[r|] ok]|e|c]; cbn [first_of_runs] in *.
      * destruct IH2 as (-> & before & after & -> & Hr & Hb).
        split; [reflexivity |].
        exists (JObj fields :: before), after.
        repeat split; [exact Hr |]. constructor; [exact P | exact Hb].
      * destruct IH2 as (-> & Hl). split; [reflexivity |].
        constructor; [exact P | exact Hl].
      * destruct IH2 as (-> & before & x & after & -> & Hx & Hb).
        split; [reflexivity |].
        exists (JObj fields :: before), x, after.
        repeat split; [exact Hx |]. constructor; [exact P | exact Hb].
      * exact IH2.
Qed.

(** X8. When [gh run list] ends well and prints JSON that can be iterated,
    [get_release_run] goes through the runs in order.  It returns the first
    run that is on the branch of the tag and belongs to a release workflow,
    when every run before it is a dict that is no such run; it returns
    [None] when every run of the list is a dict that is no such run; and it
    raises [AttributeError] at the first run that is no dict, when every run
    before that one is a dict that is no such run.  The call never
    exits. *)
Theorem get_release_run_picks_first (repo_path tag : string) (w w1 : W)
    (p : completed) (runs : json) (l : list json) :
  subprocess_run GH_RUN_LIST (Some repo_path) w = (Some p, w1) ->
  returncode p = 0 ->
  json_loads (stdout p) = Some runs ->
  py_iter runs = Some l ->
  first_of_runs tag l (outcome_of (get_release_run repo_path tag w)).
Proof.
  intros Hrun Hrc Hjson Hiter. unfold get_release_run. rewrite run_bind.
  rewrite run_try_except, run_bind.
  destruct (run_command_started _ _ true w p w1 Hrun) as [E1 E2].
  rewrite Hrc in E1. cbn in E1. rewrite E1, E2, Hjson.
  cbn [outcome_of world_of mret M_ret]. rewrite Hiter.
  apply first_release_run_spec.
Qed.

(** *** The three answers of the status check *)

Lemma fallback_answers repo_path tag (w : W) c :
  outcome_of
    ((proc_release ← run_command ["gh"; "release"; "view"; tag]
                       (Some repo_path) false;
      if returncode proc_release =? 0 then mret 0 else mret 1) w) = Ret c ->
  c = 0 \/ c = 1.
Proof.
  rewrite run_bind, run_command_unchecked_outcome.
  destruct (fst (subprocess_run _ _ w)) as [q|]; [| discriminate].
  destruct (returncode q =? 0); intros [= <-]; auto.
Qed.

(** X9. [check_workflow_completed] answers 0, 1 or 2, and it answers 2, failed,
    exactly when [get_release_run] found a run whose status is [completed] and
    whose conclusion is [failure] or [cancelled]. *)
Theorem check_reports_failure_exactly (repo_path tag : string) (w : W) :
  (forall c, outcome_of (check_workflow_completed repo_path tag w) = Ret c ->
             c = 0 \/ c = 1 \/ c = 2)
  /\ (outcome_of (check_workflow_completed repo_path tag w) = Ret 2
      <-> exists fields,
            outcome_of (get_release_run repo_path tag w)
              = Ret (Some (JObj fields), true)
            /\ Py.lookup "status" fields = Some (JStr "completed")
            /\ (Py.lookup "conclusion" fields = Some (JStr "failure")
                \/ Py.lookup "conclusion" fields = Some (JStr "cancelled"))).
Proof.
  unfold check_workflow_completed. rewrite run_bind.
  destruct (outcome_of (get_release_run repo_path tag w))
    as [[run ok]|e|c0] eqn:Eg; cbn [outcome_of].
  2,3: split; [discriminate |];
       split; [discriminate | intros (fields & E & _); discriminate E].
  set (w1 := world_of (get_release_run repo_path tag w)).
  assert (Fb : forall (b : bool) run',
            b = true ->
            (forall c,
               outcome_of
                 ((if b then
                     proc_release ← run_command ["gh"; "release"; "view"; tag]
                                      (Some repo_path) false;
                     if returncode proc_release =? 0 then mret 0 else mret 1
                   else run') w1) = Ret c -> c = 0 \/ c = 1 \/ c = 2)
            /\ outcome_of
                 ((if b then
                     proc_release ← run_command ["gh"; "release"; "view"; tag]
                                      (Some repo_path) false;
                     if returncode proc_release =? 0 then mret 0 else mret 1
                   else run') w1) <> Ret 2).
  { intros b run' ->. split.
    - intros c E. apply fallback_answers in E. tauto.
    - intros E. apply fallback_answers in E. lia. }
  destruct ok; cbn [negb].
  2:{ destruct (Fb true (mret 0) eq_refl) as [F1 F2].
      split; [exact F1 |]. split; [intros E; destruct (F2 E) |].
      intros (fields & E & _). discriminate E. }
  destruct run as [run|]; cbn [negb].
  2:{ destruct (Fb true (mret 0) eq_refl) as [F1 F2].
      split; [exact F1 |]. split; [intros E; destruct (F2 E) |].
      intros (fields & E & _). discriminate E. }
  destruct (Py.truthy run) eqn:Et; cbn [negb].
  2:{ destruct (Fb true (mret 0) eq_refl) as [F1 F2].
      split; [exact F1 |]. split; [intros E; destruct (F2 E) |].
      intros (fields & E & Hs & _). injection E as ->.
      destruct fields; [discriminate Hs | discriminate Et]. }
  destruct run as [| | | | |fields];
    try (split; [discriminate |];
         split; [discriminate | intros (fields & E & _); discriminate E]).
  cbv zeta.
  destruct (Py.lookup "status" fields) as [status|] eqn:Es; cbn [from_option id].
  2:{ cbn. split; [intros c [= <-]; auto |].
      split; [discriminate | intros (f & E & Hs & _)].
      injection E as <-. congruence. }
  destruct (Py.eq_str status "completed") eqn:Ec.
  2:{ cbn. split; [intros c [= <-]; auto |].
      split; [discriminate | intros (f & E & Hs & _)].
      injection E as <-. rewrite Es in Hs. injection Hs as ->.
      discriminate Ec. }
  assert (status = JStr "completed") as ->.
  { destruct status; try discriminate Ec. cbn in Ec.
    apply String.eqb_eq in Ec. congruence. }
  destruct (Py.lookup "conclusion" fields) as [conclusion|] eqn:Eq;
    cbn [from_option id].
  2:{ cbn. split; [intros c [= <-]; auto |].
      split; [discriminate | intros (f & E & _ & [Hc | Hc])];
        injection E as <-; congruence. }
  destruct conclusion as [| | |s| |];
    try (cbn; split; [intros c [= <-]; auto |];
         split; [discriminate | intros (f & E & _ & [Hc | Hc])];
         injection E as <-; congruence).
  cbn [Py.eq_str existsb orb].
  destruct (String.eqb_spec s "success") as [-> | N1].
  { cbn. split; [intros c [= <-]; auto |].
    split; [discriminate | intros (f & E & _ & [Hc | Hc])];
      injection E as <-; congruence. }
  destruct (String.eqb_spec s "failure") as [-> | N2].
  { cbn. split; [intros c [= <-]; auto |].
    split; [intros _ | reflexivity].
    exists fields. repeat split; auto. }
  destruct (String.eqb_spec s "cancelled") as [-> | N3].
  { cbn. split; [intros c [= <-]; auto |].
    split; [intros _ | reflexivity].
    exists fields. repeat split; auto. }
  cbn. split; [intros c [= <-]; auto |].
  split; [discriminate | intros (f & E & _ & [Hc | Hc])];
    injection E as <-; congruence.
Qed.
End Helpers.

(** ** Computations that never exit *)

Section NoExit.
Context {W : Type} `{Platform W}.

Lemma never_exits_ret {A} (a : A) : never_exits (mret a : M W A).
Proof. intros w c. discriminate. Qed.

Lemma never_exits_bind {A B} (m : M W A) (f : A -> M W B) :
  never_exits m -> (forall a, never_exits (f a)) -> never_exits (m ≫= f).
Proof.
  intros Hm Hf w c. rewrite run_bind. specialize (Hm w).
  destruct (outcome_of (m w)) as [a|e|c']; cbn [outcome_of];
    [apply Hf | discriminate | destruct (Hm c' eq_refl)].
Qed.

Lemma never_exits_raise {A} e : never_exits (raise e : M W A).
Proof. intros w c. discriminate. Qed.

Lemma never_exits_ask {A} (f : W -> A) : never_exits (ask f).
Proof. intros w c. discriminate. Qed.

Lemma never_exits_print line : never_exits (W := W) (print line).
Proof. intros w c. discriminate. Qed.

Lemma never_exits_spawn cmd cwd : never_exits (W := W) (spawn cmd cwd).
Proof.
  intros w c. unfold spawn. destruct (subprocess_run cmd cwd w). discriminate.
Qed.

Lemma never_exits_when (b : bool) (body : M W unit) :
  never_exits body -> never_exits (when b body).
Proof. intros Hb. destruct b; [exact Hb | apply never_exits_ret]. Qed.

Lemma never_exits_for_fold {A B} (l : list A) (acc : B)
    (body : B -> A -> M W B) :
  (forall b x, never_exits (body b x)) -> never_exits (for_fold l acc body).
Proof.
  intros Hb. revert acc. induction l as [|x l IH]; intros acc; simpl.
  - apply never_exits_ret.
  - apply never_exits_bind; [apply Hb | exact IH].
Qed.

Lemma never_exits_try_except {A} (body : M W A) h :
  never_exits body ->
  (forall e handler, h e = Some handler -> never_exits handler) ->
  never_exits (try_except body h).
Proof.
  intros Hb Hh w c. rewrite run_try_except. specialize (Hb w).
  destruct (outcome_of (body w)) as [a|e|c'] eqn:E; try (rewrite E; congruence).
  destruct (h e) as [handler|] eqn:Eh; [| rewrite E; discriminate].
  cbn [outcome_of]. apply (Hh e handler Eh).
Qed.
End NoExit.

Ltac no_exit_with leaf :=
  repeat
    lazymatch goal with
    | |- never_exits (mret _) => apply never_exits_ret
    | |- never_exits (mbind _ _) => apply never_exits_bind; [| intros ?]
    | |- never_exits (raise _) => apply never_exits_raise
    | |- never_exits (ask _) => apply never_exits_ask
    | |- never_exits (print _) => apply never_exits_print
    | |- never_exits (print_info _) => apply never_exits_print
    | |- never_exits (print_warning _) => apply never_exits_print
    | |- never_exits (print_error _) => apply never_exits_print
    | |- never_exits (spawn _ _) => apply never_exits_spawn
    | |- never_exits (when _ _) => apply never_exits_when
    | |- never_exits (for_fold _ _ _) => apply never_exits_for_fold; intros ? ?
    | |- never_exits (try_except _ _) =>
        apply never_exits_try_except;
        [| let e := fresh "e" in let E := fresh "E" in
           intros e ? E; destruct e; simpl in E; inversion E; subst; clear E]
    | |- never_exits (if ?c then _ else _) => destruct c
    | |- never_exits (match ?x with _ => _ end) => destruct x
    | |- never_exits _ => leaf
    end.

Ltac no_exit := no_exit_with fail.

(** ** The poll loop *)

Section PollLoop.
Context {W : Type} `{Platform W}.

Lemma never_exits_run_command cmd cwd check :
  never_exits (W := W) (run_command cmd cwd check).
Proof. unfold run_command, subprocess_run_checked. no_exit. Qed.

Lemma never_exits_first_release_run runs tag :
  never_exits (W := W) (first_release_run runs tag).
Proof. induction runs as [|run runs IH]; simpl; no_exit; exact IH. Qed.

Lemma never_exits_get_release_run repo_path tag :
  never_exits (W := W) (get_release_run repo_path tag).
Proof.
  unfold get_release_run.
  no_exit_with ltac:(first [ apply never_exits_run_command
                           | apply never_exits_first_release_run ]).
Qed.

Lemma never_exits_print_workflow_logs repo_path tag :
  never_exits (W := W) (print_workflow_logs repo_path tag).
Proof.
  unfold print_workflow_logs.
  no_exit_with ltac:(first [ apply never_exits_run_command
                           | apply never_exits_get_release_run ]).
Qed.

Lemma never_exits_check_workflow_completed repo_path tag :
  never_exits (W := W) (check_workflow_completed repo_path tag).
Proof.
  unfold check_workflow_completed.
  no_exit_with ltac:(first [ apply never_exits_run_command
                           | apply never_exits_get_release_run ]).
Qed.

Lemma never_exits_poll_repo tag cwd v repo :
  never_exits (W := W) (poll_repo tag cwd v repo).
Proof.
  unfold poll_repo.
  no_exit_with ltac:(first [ apply never_exits_check_workflow_completed
                           | apply never_exits_print_workflow_logs ]).
Qed.

#[local] Abbreviation awake := (fun e => is_sleep e = false).

Lemma only_print_workflow_logs (P : event -> Prop) repo_path tag :
  (forall line, P (Print line)) -> (forall cmd r, P (Run cmd (Some repo_path) r)) ->
  only (W := W) P (print_workflow_logs repo_path tag).
Proof.
  intros Hp Hr. unfold print_workflow_logs.
  apply only_bind; [apply only_get_release_run; [exact Hp | apply Hr] |].
  intros [run ok]. destruct (negb ok); [apply only_print, Hp |].
  destruct run as [[| | | | |fields]|];
    try (destruct (negb _); [apply only_print, Hp | apply only_raise]);
    try apply only_print, Hp.
  destruct (_ || _); [apply only_print, Hp |].
  apply only_bind; [apply only_print, Hp |]. intros _.
  apply only_bind; [apply only_run_command; [exact Hp | apply Hr] |].
  intros proc. destruct (_ && _); apply only_print, Hp.
Qed.

Lemma only_poll_repo (P : event -> Prop) tag cwd v repo :
  (forall line, P (Print line)) -> (forall cmd p r, P (Run cmd p r)) ->
  only (W := W) P (poll_repo tag cwd v repo).
Proof.
  intros Hp Hr. unfold poll_repo. apply only_bind; [apply only_ask |].
  intros is_dir. destruct (negb is_dir); [apply only_ret |].
  apply only_bind;
    [apply only_check_workflow_completed; [exact Hp | apply Hr | apply Hr] |].
  intros result. destruct (result =? 0).
  { apply only_bind; [apply only_print, Hp | intros _; apply only_ret]. }
  destruct (result =? 2).
  - apply only_bind; [apply only_print, Hp |]. intros _.
    apply only_bind; [| intros logged; apply only_ret].
    destruct (bool_decide _); [| apply only_ret].
    apply only_bind; [| intros _; apply only_ret].
    apply only_print_workflow_logs; [exact Hp | intros; apply Hr].
  - apply only_bind; [apply only_print, Hp | intros _; apply only_ret].
Qed.

Lemma seconds_slept_app t1 t2 :
  seconds_slept (t1 ++ t2) = seconds_slept t1 + seconds_slept t2.
Proof.
  induction t1 as [|e t1 IH]; simpl; [reflexivity |].
  destruct e; lia.
Qed.

Lemma seconds_slept_awake t : Forall awake t -> seconds_slept t = 0.
Proof.
  induction 1 as [|e t He _ IH]; simpl; [reflexivity |].
  destruct e; try exact IH. discriminate He.
Qed.

(** One repository of a round. *)
Lemma poll_repo_flags tag cwd v repo (w : W) v' :
  failed_is_pending v ->
  outcome_of (poll_repo tag cwd v repo w) = Ret v' ->
  failed_is_pending v'.
Proof.
  intros Hv. unfold poll_repo.
  rewrite (run_bind_silent (ask (path_is_dir _)) _ w _ eq_refl).
  destruct (negb _); [intros [= <-]; exact Hv |].
  rewrite run_bind.
  destruct (outcome_of (check_workflow_completed _ tag w)) as [result| |];
    cbn [outcome_of]; try discriminate.
  destruct (result =? 0).
  { rewrite run_bind. cbn. intros [= <-]. exact Hv. }
  destruct (result =? 2).
  - rewrite run_bind. cbn [print_error print emit outcome_of world_of].
    rewrite run_bind.
    match goal with
    | |- outcome_of match outcome_of ?m with _ => _ end = _ -> _ =>
        destruct (outcome_of m) as [logged| |]
    end; cbn; try discriminate.
    intros [= <-]. intros _. reflexivity.
  - rewrite run_bind. cbn. intros [= <-]. intros _. reflexivity.
Qed.

(** One round: it does not sleep, it does not exit, and it keeps the
    flags together. *)
Lemma round_spec tag cwd repos v (w : W) :
  failed_is_pending v ->
  let r := for_fold repos v (poll_repo tag cwd) w in
  seconds_slept (events_of r) = 0
  /\ (forall c, outcome_of r <> Exit c)
  /\ (forall v', outcome_of r = Ret v' -> failed_is_pending v').
Proof.
  intros Hv. cbv zeta. split; [| split].
  - apply seconds_slept_awake.
    apply (only_for_fold awake repos v (poll_repo tag cwd)).
    intros b x. apply only_poll_repo; reflexivity.
  - apply (never_exits_for_fold repos v (poll_repo tag cwd)).
    intros b x. apply never_exits_poll_repo.
  - revert v w Hv. induction repos as [|repo repos IH]; intros v w Hv v'; simpl.
    + intros [= <-]. exact Hv.
    + rewrite run_bind.
      destruct (outcome_of (poll_repo tag cwd v repo w)) as [v1| |] eqn:E;
        cbn [outcome_of]; try discriminate.
      apply IH. apply (poll_repo_flags tag cwd v repo w v1 Hv E).
Qed.

Lemma wait_loop_within_budget repos tag cwd elapsed logged (w : W) :
  (exists k, elapsed = POLL_INTERVAL * k) -> elapsed <= MAX_WAIT ->
  within_budget elapsed (wait_loop repos tag cwd elapsed logged w).
Proof.
  revert w.
  apply (wait_loop_elim
           (fun repos tag cwd elapsed logged m =>
              forall w,
                (exists k, elapsed = POLL_INTERVAL * k) ->
                elapsed <= MAX_WAIT ->
                within_budget elapsed (m w))).
  - clear. intros repos tag cwd elapsed Hlt logged IH _ w [k Hk] Hle.
    rewrite run_bind.
    destruct (round_spec tag cwd repos
                {| all_completed := true; any_failed := false;
                   logged_failures := logged |} w)
      as (S0 & X0 & F0); [discriminate |].
    set (round1 := for_fold repos _ (poll_repo tag cwd) w) in *.
    destruct (outcome_of round1) as [v|e|c0] eqn:E1; cbn [events_of outcome_of].
    2:{ unfold within_budget. cbn [events_of outcome_of]. rewrite S0.
        split; [lia | discriminate]. }
    2:{ destruct (X0 c0 eq_refl). }
    specialize (F0 v eq_refl). unfold within_budget.
    cbn [events_of outcome_of]. rewrite seconds_slept_app, S0.
    destruct (all_completed v) eqn:Ea.
    { destruct (any_failed v) eqn:Ef; [specialize (F0 Ef); congruence |].
      cbn. split; [lia | discriminate]. }
    destruct (Z.ltb_spec elapsed MAX_WAIT) as [_ | Hge]; [| lia].
    rewrite run_bind. cbn [sleep outcome_of world_of events_of].
    rewrite run_bind.
    cbn [print_info print emit outcome_of world_of events_of].
    assert (Hnext : elapsed + POLL_INTERVAL <= MAX_WAIT)
      by (unfold MAX_WAIT, POLL_INTERVAL in *; lia).
    destruct (IH v tt tt (time_sleep POLL_INTERVAL (world_of round1))
                (time_sleep POLL_INTERVAL (world_of round1))
                ltac:(exists (k + 1); unfold POLL_INTERVAL in *; lia) Hnext)
      as [B1 B2].
    set (rest := wait_loop repos tag cwd (elapsed + POLL_INTERVAL)
                   (logged_failures v) _) in *.
    rewrite !seconds_slept_app. cbn [seconds_slept foldr].
    clearbody rest. split; [lia |].
    intros c Ec. destruct (B2 c Ec) as (-> & Es & El).
    split; [reflexivity |]. split; [lia |].
    rewrite !last_app, El. reflexivity.
  - clear. intros repos tag cwd elapsed Hge logged _ w _ Hle.
    change (timed_out w) with (Result (A := unit) (Exit 1) w [Print TIMEOUT_LINE]).
    unfold within_budget. cbn [events_of outcome_of seconds_slept foldr].
    split; [lia |]. intros c [= <-].
    split; [reflexivity |]. split; [lia | reflexivity].
Qed.

Lemma seconds_slept_nonneg t :
  Forall (fun e => match e with Sleep n => 0 <= n | _ => True end) t ->
  0 <= seconds_slept t.
Proof. induction 1 as [|e t He _ IH]; simpl; [lia |]. destruct e; lia. Qed.

Lemma wait_loop_sleeps_forward repos tag cwd elapsed logged :
  only (W := W) (fun e => match e with Sleep n => 0 <= n | _ => True end)
    (wait_loop repos tag cwd elapsed logged).
Proof.
  apply (wait_loop_elim
           (fun repos tag cwd elapsed logged m =>
              only (W := W)
                (fun e => match e with Sleep n => 0 <= n | _ => True end) m)).
  - clear. intros repos tag cwd elapsed Hlt logged IH _.
    apply only_bind.
    + apply only_for_fold. intros b x. apply only_poll_repo; intros; exact I.
    + intros v. destruct (all_completed v).
      { destruct (any_failed v); [| apply only_ret].
        apply only_bind; [apply only_print; exact I |].
        intros _. apply only_exit. }
      destruct (elapsed <? MAX_WAIT).
      * apply only_bind; [apply only_sleep; discriminate |]. intros _.
        apply only_bind; [apply only_print; exact I |]. intros _ w.
        apply (IH v tt tt w).
      * apply only_bind; [apply only_print; exact I |].
        intros _. apply only_exit.
  - clear. intros repos tag cwd elapsed Hge logged _.
    apply only_bind; [apply only_print; exact I |].
    intros _. apply only_exit.
Qed.

(** X10. [wait_for_repos] sleeps [MAX_WAIT] seconds in all at most, whatever the
    repositories and whatever the world answers. *)
Theorem wait_for_repos_sleeps_within_budget (repos : list string)
    (version_tag cwd : string) (w : W) :
  0 <= seconds_slept (events_of (wait_for_repos repos version_tag cwd w))
    <= MAX_WAIT.
Proof.
  unfold wait_for_repos.
  destruct (wait_loop_within_budget repos version_tag cwd 0 ∅ w) as [B _].
  - exists 0. reflexivity.
  - discriminate.
  - split; [| lia].
    apply seconds_slept_nonneg, wait_loop_sleeps_forward.
Qed.

(** X11. Every [sys.exit] of [wait_for_repos] is the exit of the time-out: it has
    status 1, the whole of [MAX_WAIT] has been slept, and the last line
    printed is the time-out line.  The exit that follows the line [Some
    release workflows failed or were cancelled] is never taken, since a round
    that finds a failed repository counts it as not completed. *)
Theorem wait_for_repos_exits_by_timeout_only (repos : list string)
    (version_tag cwd : string) (w : W) (c : Z) :
  outcome_of (wait_for_repos repos version_tag cwd w) = Exit c ->
  c = 1
  /\ seconds_slept (events_of (wait_for_repos repos version_tag cwd w))
     = MAX_WAIT
  /\ last (events_of (wait_for_repos repos version_tag cwd w))
     = Some (Print TIMEOUT_LINE).
Proof.
  unfold wait_for_repos. intros E.
  destruct (wait_loop_within_budget repos version_tag cwd 0 ∅ w) as [_ B].
  - exists 0. reflexivity.
  - discriminate.
  - destruct (B c E) as (-> & Es & El). split; [reflexivity |].
    split; [lia | exact El].
Qed.

(** A round over repositories that are not there does nothing. *)
Lemma round_idle repos tag cwd (w : W) :
  (forall repo, In repo repos -> path_is_dir (Path.join cwd repo) w = false) ->
  forall v, for_fold repos v (poll_repo tag cwd) w = Result (Ret v) w [].
Proof.
  induction repos as [|repo repos IH]; intros Hd v; [reflexivity |].
  cbn [for_fold].
  rewrite (run_bind_silent (poll_repo tag cwd v repo) _ w v).
  - apply IH. intros r Hr. apply Hd. right. exact Hr.
  - unfold poll_repo.
    rewrite (run_bind_silent (ask (path_is_dir _)) _ w _ eq_refl).
    rewrite (Hd repo (or_introl eq_refl)). reflexivity.
Qed.

(** X12. Repositories whose directories are missing are passed over: when none
    of them is there, [wait_for_repos] returns at once, without a command,
    a line or a pause. *)
Theorem wait_for_repos_without_directories (repos : list string)
    (version_tag cwd : string) (w : W) :
  (forall repo, In repo repos -> path_is_dir (Path.join cwd repo) w = false) ->
  wait_for_repos repos version_tag cwd w = Result (Ret tt) w [].
Proof.
  intros Hd. unfold wait_for_repos. rewrite wait_loop_equation_1.
  destruct (Z_lt_dec 0 MAX_WAIT) as [Hlt | Hge]; [| destruct Hge; reflexivity].
  cbn [wait_loop_unfold_clause_1].
  rewrite (run_bind_silent _ _ w _ (round_idle repos version_tag cwd w Hd _)).
  reflexivity.
Qed.
End PollLoop.

(** ** The helpers in the simulated world *)

Section SimulatedHelpers.
Import Sim Scenario Cases.

Lemma run_command_nonzero_exit_witness :
  run_command GH_RUN_LIST (Some core) true query_fails
  = Result (Raise (CalledProcessError (failed "HTTP 502"))) query_fails
      [Print (GREEN +:+ "[INFO]" +:+ NC +:+ " " +:+ "Running: "
              +:+ Str.join " " GH_RUN_LIST +:+ " (cwd=" +:+ core +:+ ")");
       Run GH_RUN_LIST (Some core) (Some (failed "HTTP 502"));
       Print (RED +:+ "[ERROR]" +:+ NC +:+ " " +:+ "Command failed: "
              +:+ Str.join " " GH_RUN_LIST);
       Print (RED +:+ "[ERROR]" +:+ NC +:+ " " +:+ "Exit code: 1");
       Print "stderr: HTTP 502"].
Proof.
  rewrite (run_command_nonzero_exit (W := world) GH_RUN_LIST (Some core) true
             query_fails query_fails (failed "HTTP 502")).
  - vm_compute. reflexivity.
  - vm_compute. reflexivity.
  - vm_compute. discriminate.
Defined.

Lemma guarded_patchers_report_the_truth_witness :
  let path := "/pkg/pyproject.toml" in
  let run :=
    update_nodetool_core_dependency path "1.2.3" (with_file path extras_toml) in
  honest_report path extras_toml (outcome_of run) (events_of run).
Proof.
  cbv zeta.
  apply (guarded_patchers_report_the_truth (W := world) "/pkg/pyproject.toml"
           "1.2.3" extras_toml (with_file "/pkg/pyproject.toml" extras_toml)).
  vm_compute. reflexivity.
Defined.

Lemma package_json_version_is_set_witness :
  let path := "/pkg/package.json" in
  let run := update_package_json_version path "1.2.3"
               (with_file path package_json) in
  outcome_of run = Ret true
  /\ events_of run
     = [WriteText path package_json_released;
        Print (GREEN +:+ "[INFO]" +:+ NC +:+ " "
               +:+ "  Updated version in " +:+ path)]
  /\ files (world_of run) !! path = Some package_json_released.
Proof.
  cbv zeta.
  pose proof (package_json_version_is_set (W := world) (H := platform) "/pkg/package.json"
                "1.2.3" package_json
                [("name", JStr "pkg"); ("version", JStr "0.1.0")]
                (with_file "/pkg/package.json" package_json)
                ltac:(vm_compute; reflexivity)
                ltac:(vm_compute; reflexivity)
                ltac:(vm_compute; reflexivity)) as T.
  cbv zeta in T. destruct T as (_ & T & _).
  rewrite (T ltac:(vm_compute; discriminate)
             (with_file "/pkg/package.json" package_json_released)
             ltac:(vm_compute; reflexivity)).
  vm_compute. repeat split.
Defined.

Lemma package_json_that_is_no_object_witness :
  let path := "/pkg/package.json" in
  update_package_json_version path "1.2.3" (with_file path "[1, 2]")
  = Result (Raise (OtherError "AttributeError")) (with_file path "[1, 2]") [].
Proof.
  cbv zeta.
  apply (proj2 (package_json_that_is_no_object (W := world) (H := platform)
                  "/pkg/package.json" "1.2.3" "[1, 2]"
                  (with_file "/pkg/package.json" "[1, 2]")
                  ltac:(vm_compute; reflexivity)
                  ltac:(vm_compute; reflexivity))
           (JArr [JNum 1; JNum 2])).
  - vm_compute. reflexivity.
  - discriminate.
Defined.

Lemma get_release_run_picks_first_witness :
  first_of_runs "v1.2.3" [release_run "failure"]
    (outcome_of (get_release_run core "v1.2.3" (concluded "failure"))).
Proof.
  apply (get_release_run_picks_first (W := world) core "v1.2.3"
           (concluded "failure") (concluded "failure")
           (ok (runs_json "failure")) (JArr [release_run "failure"])).
  - vm_compute. reflexivity.
  - reflexivity.
  - vm_compute. reflexivity.
  - reflexivity.
Defined.

Lemma wait_for_repos_exits_by_timeout_only_witness :
  let r := wait_for_repos ["nodetool-core"] "v1.2.3" "/work"
             (concluded "failure") in
  seconds_slept (events_of r) = MAX_WAIT
  /\ last (events_of r) = Some (Print TIMEOUT_LINE).
Proof.
  cbv zeta.
  apply (wait_for_repos_exits_by_timeout_only (W := world) ["nodetool-core"]
           "v1.2.3" "/work" (concluded "failure") 1).
  vm_compute. reflexivity.
Defined.

Lemma wait_for_repos_without_directories_witness :
  wait_for_repos ["nodetool-core"; "nodetool-base"] "v1.2.3" "/work" Sim.empty
  = Result (Ret tt) Sim.empty [].
Proof.
  apply (wait_for_repos_without_directories (W := world)).
  intros repo [<- | [<- | []]]; vm_compute; reflexivity.
Defined.
End SimulatedHelpers.

(** ** A release without version updates *)

Section HandsOff.
Context {W : Type} `{Platform W}.

Lemma only_bind_silent {A B} (P : event -> Prop) (m : M W A) (f : A -> M W B)
    a :
  (forall w, m w = Result (Ret a) w []) -> only P (f a) -> only P (m ≫= f).
Proof.
  intros Hm Hf w. rewrite (run_bind_ret m f w a w [] (Hm w)). apply Hf.
Qed.

Ltac hands_off_leaf := intros; split; reflexivity.

Ltac hands_off :=
  repeat
    lazymatch goal with
    | |- only _ (run_command _ _ _) =>
        apply only_run_command; hands_off_leaf
    | |- only _ (print _) => apply only_print; hands_off_leaf
    | |- only _ (print_info _) => apply only_print; hands_off_leaf
    | |- only _ (print_warning _) => apply only_print; hands_off_leaf
    | |- only _ (print_error _) => apply only_print; hands_off_leaf
    | |- only _ (for_each (_ :: _) _) => cbn [for_each]
    | |- only _ (for_each [] _) => cbn [for_each]
    | |- _ => only_step
    end.

Lemma hands_off_print_git_diagnostics repo_path :
  only (W := W) keeps_hands_off (print_git_diagnostics repo_path).
Proof. unfold print_git_diagnostics. hands_off. Qed.

Lemma hands_off_setup_git_auth repo_path :
  only (W := W) keeps_hands_off (setup_git_auth repo_path).
Proof. unfold setup_git_auth. hands_off. Qed.

Lemma hands_off_create_and_push_tag repo repo_path tag :
  only (W := W) keeps_hands_off (create_and_push_tag repo repo_path tag).
Proof.
  unfold create_and_push_tag.
  repeat
    lazymatch goal with
    | |- only _ (print_git_diagnostics _) =>
        apply hands_off_print_git_diagnostics
    | |- _ => progress hands_off
    end.
Qed.

Lemma update_version_files_disabled repo_path is_nodetool version tag a
    (w : W) :
  arg_update_versions a = false ->
  update_version_files repo_path is_nodetool version tag a w
  = Result (Ret ([], false)) w [].
Proof. intros E. unfold update_version_files. rewrite E. reflexivity. Qed.

(** X13. Without [--update-versions], [process_repo] writes no file, stages
    nothing, commits nothing and does not push [main], whatever the world:
    all it can do to the repository is to set the remote URL, to tag and to
    push the tag. *)
Theorem process_repo_without_update_versions (repo : string)
    (repos_to_process : list string) (version version_tag : string)
    (a : args) (cwd : string) :
  arg_update_versions a = false ->
  only (W := W) keeps_hands_off
    (process_repo repo repos_to_process version version_tag a cwd).
Proof.
  intros Hoff. unfold process_repo.
  do 4 (apply only_bind; [hands_off | intros ?]).
  destruct (negb _); [hands_off |].
  apply only_bind; [hands_off | intros ?].
  destruct (negb _); [hands_off |].
  apply only_bind; [apply hands_off_print_git_diagnostics | intros _].
  apply only_bind; [apply hands_off_setup_git_auth | intros _].
  apply only_bind; [hands_off | intros _].
  apply (only_bind_silent _ _ _ ([], false)).
  - intros w. apply update_version_files_disabled, Hoff.
  - apply only_bind; [hands_off | intros _].
    apply hands_off_create_and_push_tag.
Qed.
End HandsOff.

(** ** A release from a directory without checkouts *)

Section NoCheckout.
Context {W : Type} `{Platform W}.

Lemma quiet_at_of_quiet {A} (m : M W A) w : quiet m -> quiet_at w m.
Proof. intros Q. exact (Q w). Qed.

Lemma quiet_at_bind {A B} (m : M W A) (f : A -> M W B) w :
  quiet_at w m -> (forall a, quiet_at w (f a)) -> quiet_at w (m ≫= f).
Proof.
  intros (a & t1 & E1 & F1) Hf. destruct (Hf a) as (b & t2 & E2 & F2).
  exists b, (t1 ++ t2). split.
  - rewrite (run_bind_ret _ _ _ _ _ _ E1), E2. reflexivity.
  - apply Forall_app; split; assumption.
Qed.

Lemma quiet_at_for_each {A} (l : list A) (body : A -> M W unit) w :
  (forall x, In x l -> quiet_at w (body x)) -> quiet_at w (for_each l body).
Proof.
  induction l as [|x l IH]; intros Hb; simpl.
  - apply quiet_at_of_quiet, quiet_ret.
  - apply quiet_at_bind; [apply Hb; left; reflexivity |].
    intros _. apply IH. intros y Hy. apply Hb. right. exact Hy.
Qed.

Lemma bind_quiet_at {A B} (m : M W A) (f : A -> M W B) w
    (Q : result W B -> Prop) :
  (forall r t, Forall (fun e => is_print e = true) t -> Q r ->
               Q (Result (outcome_of r) (world_of r) (t ++ events_of r))) ->
  quiet_at w m -> (forall a, Q (f a w)) -> Q ((m ≫= f) w).
Proof.
  intros Hstable (a & t & E & F) Hf.
  rewrite (run_bind_ret _ _ _ _ _ _ E). apply Hstable; [exact F | apply Hf].
Qed.

(** A repository that is not there, or that is no git repository, is
    passed over with two lines. *)
Lemma process_repo_skips repo repos version tag a cwd (w : W) :
  path_is_dir (Path.join cwd repo) w = false
  \/ path_is_dir (Path.join (Path.join cwd repo) ".git") w = false ->
  quiet_at w (process_repo repo repos version tag a cwd).
Proof.
  intros Hd. unfold process_repo, quiet_at.
  rewrite (run_bind_silent (ask _) _ w _ eq_refl).
  rewrite (run_bind_silent (ask _) _ w _ eq_refl).
  rewrite (run_bind_ret _ _ w tt w _ (run_print_info _ w)).
  rewrite (run_bind_silent (ask _) _ w _ eq_refl).
  destruct (path_is_dir (Path.join cwd repo) w) eqn:E; cbn [negb].
  - destruct Hd as [Hd | Hd]; [discriminate Hd |].
    rewrite (run_bind_silent (ask _) _ w _ eq_refl), Hd. cbn [negb].
    eexists _, _. split; [reflexivity | repeat constructor].
  - eexists _, _. split; [reflexivity | repeat constructor].
Qed.

Lemma released_nothing_stable cwd p (r : result W unit) t :
  Forall (fun e => is_print e = true) t -> released_nothing cwd p r ->
  released_nothing cwd p (Result (outcome_of r) (world_of r) (t ++ events_of r)).
Proof.
  intros Ft (Hall & Hin & Hexit). repeat split; cbn [events_of outcome_of].
  - apply Forall_app. split; [| exact Hall].
    eapply Forall_impl; [exact Ft |]. intros [] E; try discriminate E. exact I.
  - apply in_or_app. right. exact Hin.
  - exact Hexit.
Qed.

Lemma bind_ret_at {A B} (m : M W A) (f : A -> M W B) w a t
    (Q : result W B -> Prop) :
  (forall r t, Forall (fun e => is_print e = true) t -> Q r ->
               Q (Result (outcome_of r) (world_of r) (t ++ events_of r))) ->
  m w = Result (Ret a) w t -> Forall (fun e => is_print e = true) t ->
  Q (f a w) -> Q ((m ≫= f) w).
Proof.
  intros Hstable E F Hf. rewrite (run_bind_ret _ _ _ _ _ _ E).
  apply Hstable; [exact F | exact Hf].
Qed.

Lemma quiet_at_print line (w : W) : quiet_at w (print line).
Proof. apply quiet_at_of_quiet, quiet_print. Qed.
End NoCheckout.

(** One step of a run of [main] that has only printed so far. *)
Ltac quietly stable :=
  lazymatch goal with
  | |- _ ((mbind _ (ask ?f)) ?w) =>
      rewrite (run_bind_silent (ask f) _ w _ eq_refl); cbv beta
  | |- _ ((mbind _ (mret ?x)) ?w) =>
      rewrite (run_bind_silent (mret x) _ w _ eq_refl); cbv beta
  | |- _ ((mbind _ (print_info _)) ?w) =>
      apply bind_quiet_at; [stable | apply quiet_at_print | intros _]
  | |- _ ((mbind _ (print_warning _)) ?w) =>
      apply bind_quiet_at; [stable | apply quiet_at_print | intros _]
  | |- _ ((mbind _ (for_each _ _)) ?w) =>
      apply bind_quiet_at;
      [ stable
      | apply quiet_at_of_quiet, quiet_for_each; intros ?;
        apply quiet_env_report
      | intros _ ]
  | |- _ ((mbind _ (if _ then print_info _ else print_info _)) ?w) =>
      apply bind_quiet_at;
      [ stable
      | match goal with |- quiet_at _ (if ?c then _ else _) => destruct c end;
        apply quiet_at_print
      | intros _ ]
  end.

Section NoCheckoutMain.
Context {W : Type} `{Platform W}.

(** X14. In a directory where none of the repositories is checked out, [main]
    passes every repository over, waits for nothing, and starts the registry
    workflow all the same: a run consists of lines and [gh] commands only, the
    trigger is among them, and a trigger that fails ends the run with status
    1. *)
Theorem main_without_checkouts_still_triggers (a : args) (w w1 : W)
    (p : completed) (contents : string) :
  let cwd := Path.parent (Path.parent (script_file w)) in
  Str.startswith (arg_version_tag a) "v" = true ->
  (forall r, selected_repo a = Some r -> In r REPOS) ->
  (forall repo, In repo REPOS -> path_is_dir (Path.join cwd repo) w = false) ->
  fs_iterdir_repr cwd w = Some contents ->
  subprocess_run TRIGGER (Some cwd) w = (Some p, w1) ->
  released_nothing cwd p (main a w).
Proof.
  intros cwd Hv Hsel Hd Hc Hrun. subst cwd. unfold main. rewrite Hv.
  cbn [negb when].
  do 8 quietly ltac:(apply released_nothing_stable).
  assert (Hcore : In "nodetool-core" REPOS) by (left; reflexivity).
  assert (Hidle : forall repos,
            (forall repo, In repo repos -> In repo REPOS) ->
            wait_for_repos repos (arg_version_tag a)
              (Path.parent (Path.parent (script_file w))) w
            = Result (Ret tt) w []).
  { intros repos Hin. unfold wait_for_repos. rewrite wait_loop_equation_1.
    destruct (Z_lt_dec 0 MAX_WAIT) as [Hlt | Hge];
      [| destruct Hge; reflexivity].
    cbn [wait_loop_unfold_clause_1].
    rewrite (run_bind_silent _ _ w _
               (round_idle repos _ _ w
                  (fun repo Hr => Hd repo (Hin repo Hr)) _)).
    reflexivity. }
  assert (exists repos t,
             match selected_repo a with
             | Some r =>
                 if negb (bool_decide (r ∈ REPOS)) then
                   print_error ("Repository '" +:+ r
                                +:+ "' not in known repos: "
                                +:+ Str.join ", " REPOS);;
                   sys_exit 1
                 else
                   print_info ("Processing only repository: " +:+ r);;
                   mret [r]
             | None => mret REPOS
             end w = Result (Ret repos) w t
             /\ Forall (fun e => is_print e = true) t
             /\ forall x, In x repos -> In x REPOS)
    as (repos & t & Er & Ft & Hrepos).
  { destruct (selected_repo a) as [r|] eqn:Es.
    - rewrite bool_decide_eq_true_2
        by (apply list_elem_of_In, Hsel; reflexivity).
      exists [r], [Print (GREEN +:+ "[INFO]" +:+ NC +:+ " "
                          +:+ "Processing only repository: " +:+ r)].
      split; [reflexivity |]. split; [repeat constructor |].
      intros x [<- | []]. apply Hsel. reflexivity.
    - exists REPOS, []. split; [reflexivity |]. split; [constructor |].
      intros x Hx. exact Hx. }
  apply (bind_ret_at _ _ w repos t);
    [apply released_nothing_stable | exact Er | exact Ft |].
  do 5 quietly ltac:(apply released_nothing_stable).
  rewrite Hc.
  do 7 quietly ltac:(apply released_nothing_stable).
  rewrite (Hd "nodetool-core" Hcore). cbn [when].
  do 2 quietly ltac:(apply released_nothing_stable).
  apply bind_quiet_at; [apply released_nothing_stable | | intros _].
  { match goal with |- quiet_at _ (when ?c _) => destruct c end;
      [| apply quiet_at_of_quiet, quiet_ret].
    cbn [when]. apply quiet_at_bind.
    - apply process_repo_skips. left. apply Hd, Hcore.
    - intros _. destruct (negb (arg_no_wait_core a));
        [| apply quiet_at_of_quiet, quiet_ret].
      cbn [when]. apply quiet_at_bind; [apply quiet_at_print | intros _].
      apply quiet_at_bind; [| intros _; apply quiet_at_print].
      exists tt, []. split; [| constructor].
      apply Hidle. intros repo [<- | []]. exact Hcore. }
  quietly ltac:(apply released_nothing_stable).
  apply bind_quiet_at; [apply released_nothing_stable | | intros _].
  { apply quiet_at_for_each. intros repo Hr. apply process_repo_skips.
    left. apply Hd, Hrepos, Hr. }
  quietly ltac:(apply released_nothing_stable).
  rewrite (run_bind_silent _ _ w tt (Hidle repos Hrepos)).
  do 2 quietly ltac:(apply released_nothing_stable).
  destruct (run_command_started TRIGGER
              (Some (Path.parent (Path.parent (script_file w)))) false w p w1
              Hrun) as [Eo Ew].
  cbn [andb] in Eo.
  split; [| split].
  - match goal with
    | |- Forall _ (events_of (?m w)) =>
        assert (Hall : only prints_or_asks_gh m); [| exact (Hall w)]
    end.
    cbv zeta.
    repeat
      lazymatch goal with
      | |- only _ (run_command _ _ _) =>
          apply only_run_command; intros; first [exact I | reflexivity]
      | |- only _ (print _) => apply only_print; exact I
      | |- only _ (print_info _) => apply only_print; exact I
      | |- only _ (print_error _) => apply only_print; exact I
      | |- _ => only_step
      end.
  - rewrite run_bind. fold TRIGGER. rewrite Eo. cbn [events_of].
    apply in_or_app. left.
    destruct (run_command_events TRIGGER
                (Some (Path.parent (Path.parent (script_file w)))) false w)
      as (pre & post & E & _).
    rewrite E, Hrun. cbn [fst]. apply in_or_app. right. left. reflexivity.
  - intros Hrc. rewrite run_bind. fold TRIGGER. rewrite Eo, Ew.
    cbn [outcome_of].
    apply Z.eqb_neq in Hrc. rewrite Hrc.
    rewrite (run_bind_exit _ _ w1 1 w1
               [Print (RED +:+ "[ERROR]" +:+ NC +:+ " "
                       +:+ "Failed to trigger registry workflow")] eq_refl).
    reflexivity.
Qed.
Lemma refused_stable w0 line (r : result W unit) t :
  Forall (fun e => is_print e = true) t -> refused w0 line r ->
  refused w0 line (Result (outcome_of r) (world_of r) (t ++ events_of r)).
Proof.
  intros Ft (Ho & Hw & Hall & Hlast). repeat split; cbn [events_of outcome_of].
  - exact Ho.
  - exact Hw.
  - apply Forall_app. split; assumption.
  - rewrite last_app, Hlast. reflexivity.
Qed.

Lemma refused_after_question_stable (w1 : W) answer line
    (r : result W unit) t :
  Forall (fun e => is_print e = true) t ->
  refused_after_question w1 answer line r ->
  refused_after_question w1 answer line
    (Result (outcome_of r) (world_of r) (t ++ events_of r)).
Proof.
  intros Ft (Hw & Ho & before & Fb & E).
  split; [exact Hw |]. split; [exact Ho |].
  exists (t ++ before). split; [apply Forall_app; split; assumption |].
  cbn [events_of]. rewrite E, app_assoc. reflexivity.
Qed.

(** X15. A [--repo] that is not one of [REPOS] stops [main] at the check of
    the repository at the latest; no command is started and no file is
    written.  With a tag that starts with [v], [main] prints its diagnostics
    and the error line that names the repository, and exits with status 1:
    it has only printed, and the world is as it was.  With any other tag the
    question about the tag comes first, and it is the one event that is no
    printed line; the world is the one that [input] left.  Then [main]
    exits with status 1 whatever the answer is, at the question when the
    answer is not [y] or [yes] in lower case, after the error line when it
    is; and it ends with [EOFError] when there is no answer. *)
Theorem main_rejects_unknown_repo (a : args) (w : W) (r : string) :
  selected_repo a = Some r ->
  ~ In r REPOS ->
  turned_away (arg_version_tag a)
    (RED +:+ "[ERROR]" +:+ NC +:+ " " +:+ "Repository '" +:+ r
     +:+ "' not in known repos: " +:+ Str.join ", " REPOS)
    w (main a w).
Proof.
  intros Hsel Hno. unfold turned_away, main. rewrite Hsel.
  rewrite (bool_decide_eq_false_2 (r ∈ REPOS))
    by (intros Hin; apply Hno, list_elem_of_In, Hin).
  cbn [negb].
  destruct (Str.startswith (arg_version_tag a) "v") eqn:Hv; cbn [negb when].
  - do 8 quietly ltac:(apply refused_stable).
    rewrite (run_bind_exit _ _ w 1 w
               [Print (RED +:+ "[ERROR]" +:+ NC +:+ " " +:+ "Repository '"
                       +:+ r +:+ "' not in known repos: "
                       +:+ Str.join ", " REPOS)]
               eq_refl).
    repeat split. repeat constructor.
  - destruct (builtin_input QUESTION w) as [answer w1] eqn:Hin.
    do 7 quietly ltac:(apply refused_after_question_stable).
    set (WARN := Print (YELLOW +:+ "[WARNING]" +:+ NC +:+ " " +:+
                 "Version tag should follow format: v<major>.<minor>.<patch> (e.g., v1.2.3)")).
    set (LINE := RED +:+ "[ERROR]" +:+ NC +:+ " " +:+ "Repository '"
                 +:+ r +:+ "' not in known repos: " +:+ Str.join ", " REPOS).
    fold QUESTION.
    match goal with
    | |- refused_after_question _ _ _ ((?body ≫= ?rest) w) =>
        assert (Ebody :
          body w
          = Result
              match answer with
              | Some s =>
                  if bool_decide (Str.lower s ∈ ["y"; "yes"])
                  then Ret tt else Exit 1
              | None => Raise (OtherError "EOFError")
              end w1 [WARN; Input QUESTION answer])
    end.
    { unfold print_warning, print, emit, input, sys_exit, mbind, M_bind.
      cbn. rewrite Hin. destruct answer as [s|]; cbn; [| reflexivity].
      destruct (bool_decide (Str.lower s ∈ ["y"; "yes"])); reflexivity. }
    destruct answer as [s|].
    + destruct (bool_decide (Str.lower s ∈ ["y"; "yes"])) eqn:Ey.
      * rewrite (run_bind_ret _ _ _ _ _ _ Ebody).
        rewrite (run_bind_exit _ _ w1 1 w1 [Print LINE] eq_refl).
        split; [reflexivity |]. split; [reflexivity |].
        exists [WARN]. split; [repeat constructor |].
        rewrite Ey. reflexivity.
      * rewrite (run_bind_exit _ _ _ _ _ _ Ebody).
        split; [reflexivity |]. split; [reflexivity |].
        exists [WARN]. split; [repeat constructor |].
        rewrite Ey. reflexivity.
    + rewrite (run_bind_raise _ _ _ _ _ _ Ebody).
      split; [reflexivity |]. split; [reflexivity |].
      exists [WARN]. split; [repeat constructor | reflexivity].
Qed.
End NoCheckoutMain.

(** ** The token in the remote URL *)

Section Token.
Context {W : Type} `{Platform W}.

Lemma prefix_split (p s : string) :
  String.prefix p s = true -> exists rest, s = p +:+ rest.
Proof.
  revert s. induction p as [|a p IH]; intros s E.
  - exists s. reflexivity.
  - destruct s as [|b s]; [discriminate E |]. cbn in E.
    destruct (Ascii.ascii_dec a b) as [-> | N]; [| discriminate E].
    destruct (IH s E) as (rest & ->). exists rest. reflexivity.
Qed.

Lemma append_assoc (a b c : string) : (a +:+ b) +:+ c = a +:+ (b +:+ c).
Proof.
  induction a as [|x a IH]; [reflexivity |].
  change (String x ((a +:+ b) +:+ c) = String x (a +:+ (b +:+ c))).
  rewrite IH. reflexivity.
Qed.

Lemma is_prefix_app (p s : list ascii) : Str.is_prefix p (p ++ s) = true.
Proof.
  induction p as [|a p IH]; simpl; [reflexivity |].
  rewrite Ascii.eqb_refl. exact IH.
Qed.

Lemma of_chars_app (a b : list ascii) :
  Str.of_chars (a ++ b) = Str.of_chars a +:+ Str.of_chars b.
Proof. induction a as [|c a IH]; simpl; [reflexivity |]. rewrite IH. reflexivity. Qed.

(** [s.replace(old, new)] on a string that starts with [old] starts with
    [new]. *)
Lemma replace_at_start (old new rest : string) :
  old <> "" ->
  exists rest', Str.replace (old +:+ rest) old new = new +:+ rest'.
Proof.
  intros N. unfold Str.replace. rewrite chars_app.
  destruct old as [|c old]; [destruct (N eq_refl) |].
  change (Str.chars (String c old)) with (c :: Str.chars old).
  cbn [app Str.replace_chars].
  change (c :: Str.chars old ++ Str.chars rest)
    with ((c :: Str.chars old) ++ Str.chars rest).
  rewrite is_prefix_app, of_chars_app, of_chars_chars.
  eexists. reflexivity.
Qed.

(** How [run_command] begins. *)
Lemma run_command_begins cmd cwd check (w : W) :
  exists post,
    events_of (run_command cmd cwd check w)
    = Print (running_line cmd cwd)
      :: Run cmd cwd (fst (subprocess_run cmd cwd w)) :: post.
Proof.
  unfold run_command, try_except, subprocess_run_checked, spawn.
  unfold mbind, M_bind, print_info, print_warning, print_error, print, emit,
    when, raise, mret, M_ret.
  destruct (subprocess_run cmd cwd w) as [[q|] w1]; simpl.
  - destruct check; destruct (Z.eqb (returncode q) 0) eqn:Erc; simpl;
      rewrite ?Erc; simpl;
      destruct (Str.truthy (stdout q)); destruct (Str.truthy (stderr q));
      simpl; eexists; reflexivity.
  - eexists; reflexivity.
Qed.

(** The end of [setup_git_auth], once the URL with the token is made. *)
Lemma finish_shows_url repo_path auth_url (w : W) :
  let finish :=
    run_command ["git"; "remote"; "set-url"; "origin"; auth_url]
      (Some repo_path) true;;
    print_info ("Configured git authentication for " +:+ repo_path);;
    mret true in
  outcome_of (finish w) = Ret true ->
  exists p,
    In (Run ["git"; "remote"; "set-url"; "origin"; auth_url] (Some repo_path)
          (Some p)) (events_of (finish w))
    /\ returncode p = 0
    /\ In (Print (running_line
                    ["git"; "remote"; "set-url"; "origin"; auth_url]
                    (Some repo_path))) (events_of (finish w)).
Proof.
  cbv zeta. rewrite run_bind.
  destruct (run_command_begins
              ["git"; "remote"; "set-url"; "origin"; auth_url]
              (Some repo_path) true w) as (post & Ev).
  destruct (subprocess_run ["git"; "remote"; "set-url"; "origin"; auth_url]
              (Some repo_path) w) as [[p|] w1] eqn:E.
  - destruct (run_command_started _ _ true w p w1 E) as [Eo Ew].
    rewrite Eo. cbn [andb fst] in *.
    destruct (returncode p =? 0) eqn:Erc; cbn [negb outcome_of];
      [| discriminate].
    intros _. exists p. cbn [events_of]. rewrite Ev.
    split; [right; left; reflexivity |].
    split; [apply Z.eqb_eq, Erc | left; reflexivity].
  - destruct (run_command_not_started _ _ true w w1 E) as [Eo Ew].
    rewrite Eo. discriminate.
Qed.

(** X16. When [setup_git_auth] returns [True], it has set the remote URL to an
    HTTPS URL that holds the token of the environment, with a command that
    ended well; and the line that announces this command has printed the URL,
    and with it the token, in full. *)
Theorem setup_git_auth_shows_the_token (repo_path : string) (w : W) :
  outcome_of (setup_git_auth repo_path w) = Ret true ->
  exists token rest p,
    let auth_url :=
      "https://x-access-token:" +:+ token +:+ "@github.com/" +:+ rest in
    let cmd := ["git"; "remote"; "set-url"; "origin"; auth_url] in
    first_env TOKEN_VARS w = Some token
    /\ In (Run cmd (Some repo_path) (Some p))
         (events_of (setup_git_auth repo_path w))
    /\ returncode p = 0
    /\ In (Print (running_line cmd (Some repo_path)))
         (events_of (setup_git_auth repo_path w)).
Proof.
  unfold setup_git_auth. fold TOKEN_VARS.
  rewrite (run_bind_silent (ask (first_env TOKEN_VARS)) _ w _ eq_refl).
  destruct (first_env TOKEN_VARS w) as [token|]; [| discriminate].
  rewrite run_bind.
  destruct (outcome_of (run_command ["git"; "remote"; "get-url"; "origin"]
                          (Some repo_path) false w)) as [result| |];
    cbn [outcome_of]; try discriminate.
  set (w1 := world_of (run_command _ _ false w)).
  set (t1 := events_of (run_command _ _ false w)).
  destruct (negb (returncode result =? 0)); [discriminate |].
  cbv zeta. rewrite run_bind. cbn [print_info print emit outcome_of world_of
                                     events_of].
  set (remote_url := Str.strip (stdout result)).
  assert (Hfin : forall auth_url,
            outcome_of
              ((run_command ["git"; "remote"; "set-url"; "origin"; auth_url]
                  (Some repo_path) true;;
                print_info ("Configured git authentication for " +:+ repo_path);;
                mret true) w1) = Ret true ->
            forall rest,
              auth_url = "https://x-access-token:" +:+ token +:+ "@github.com/"
                         +:+ rest ->
              exists rest p,
                In (Run ["git"; "remote"; "set-url"; "origin";
                         "https://x-access-token:" +:+ token
                         +:+ "@github.com/" +:+ rest]
                      (Some repo_path) (Some p))
                  (t1 ++ Print (GREEN +:+ "[INFO]" +:+ NC +:+ " "
                                +:+ "Original remote URL: " +:+ remote_url)
                      :: events_of
                           ((run_command
                               ["git"; "remote"; "set-url"; "origin"; auth_url]
                               (Some repo_path) true;;
                             print_info ("Configured git authentication for "
                                         +:+ repo_path);;
                             mret true) w1))
                /\ returncode p = 0
                /\ In (Print (running_line
                                ["git"; "remote"; "set-url"; "origin";
                                 "https://x-access-token:" +:+ token
                                 +:+ "@github.com/" +:+ rest]
                                (Some repo_path)))
                     (t1 ++ Print (GREEN +:+ "[INFO]" +:+ NC +:+ " "
                                   +:+ "Original remote URL: " +:+ remote_url)
                         :: events_of
                              ((run_command
                                  ["git"; "remote"; "set-url"; "origin";
                                   auth_url] (Some repo_path) true;;
                                print_info
                                  ("Configured git authentication for "
                                   +:+ repo_path);;
                                mret true) w1))).
  { intros auth_url Ho rest ->.
    destruct (finish_shows_url repo_path _ w1 Ho) as (p & H1 & H2 & H3).
    exists rest, p.
    split; [apply in_or_app; right; right; exact H1 |].
    split; [exact H2 | apply in_or_app; right; right; exact H3]. }
  destruct (Str.startswith remote_url "https://github.com/") eqn:Ehttps.
  - intros Ho. exists token.
    destruct (prefix_split _ _ Ehttps) as (tail & Et).
    destruct (replace_at_start "https://github.com/"
                ("https://x-access-token:" +:+ token +:+ "@github.com/") tail
                ltac:(discriminate)) as (rest & Er).
    rewrite Et in *. rewrite Er in *.
    destruct (Hfin _ Ho rest) as (rest' & p & K).
    { rewrite !append_assoc. reflexivity. }
    exists rest', p. split; [reflexivity | exact K].
  - destruct (Str.startswith remote_url "git@github.com:").
    + intros Ho. exists token.
      destruct (Hfin _ Ho _ eq_refl) as (rest' & p & K).
      exists rest', p. split; [reflexivity | exact K].
    + discriminate.
Qed.
End Token.

(** ** The index of a package, in general *)

Section Index.
Context {W V : Type} `{Platform W} `{Network W} `{Packaging V}.

Lemma requests_app t1 t2 : requests (t1 ++ t2) = (requests t1 + requests t2)%nat.
Proof. unfold requests. rewrite List.filter_app, length_app. reflexivity. Qed.

Lemma probe_sidecar_spec asset_url (w : W) :
  exists available digest,
    outcome_of (probe_sidecar asset_url w) = Ret (available, digest)
    /\ (available = true <-> is_Some digest)
    /\ Forall (fun e => exists m, e = Request m (asset_url +:+ ".metadata"))
         (events_of (probe_sidecar asset_url w))
    /\ (length (events_of (probe_sidecar asset_url w)) <= 2)%nat.
Proof.
  unfold probe_sidecar, try_all, try_except, http, mbind, M_bind, mret, M_ret.
  destruct (requests_head (asset_url +:+ ".metadata") w) as [[meta_head|] w1].
  2:{ exists false, None. cbn. repeat split; try discriminate.
      - intros [x E]; discriminate E.
      - repeat constructor. eexists; reflexivity.
      - lia. }
  destruct (status_code meta_head =? 200).
  2:{ exists false, None. cbn. repeat split; try discriminate.
      - intros [x E]; discriminate E.
      - repeat constructor. eexists; reflexivity.
      - lia. }
  destruct (requests_get (asset_url +:+ ".metadata") w1) as [[meta_get|] w2].
  2:{ exists false, None. cbn. repeat split; try discriminate.
      - intros [x E]; discriminate E.
      - repeat constructor; eexists; reflexivity.
      - lia. }
  destruct (response_ok meta_get && Str.truthy (content meta_get)).
  - exists true, (Some (sha256_hexdigest (content meta_get))). cbn.
    repeat split; try (eexists; reflexivity).
    + repeat constructor; eexists; reflexivity.
    + lia.
  - exists false, None. cbn. repeat split; try discriminate.
    + intros [x E]; discriminate E.
    + repeat constructor; eexists; reflexivity.
    + lia.
Qed.

Lemma requests_le_length t : (requests t <= length t)%nat.
Proof. unfold requests. apply List.filter_length_le. Qed.

(** X17. [get_wheel_metadata] never fails: it answers with a record for the URL
    and the name it was given, after three requests at most, all of them for
    the wheel or its metadata file.  The record says that metadata is
    available exactly when it has a digest, and after a warning it is the
    fallback record. *)
Theorem get_wheel_metadata_always_answers (asset_url asset_name : string)
    (w : W) :
  let run := get_wheel_metadata asset_url asset_name w in
  exists wh,
    outcome_of run = Ret wh
    /\ url wh = asset_url /\ filename wh = asset_name
    /\ (metadata_available wh = true <-> is_Some (metadata_sha256 wh))
    /\ Forall (asks_about asset_url) (events_of run)
    /\ (requests (events_of run) <= 3)%nat
    /\ (forall line, In (Print line) (events_of run) -> is_fallback wh).
Proof.
  cbv zeta. unfold get_wheel_metadata.
  match goal with
  | |- context [try_except ?b ?h] => set (body := b); set (handler := h)
  end.
  assert (Hb : (exists wh w' t,
                  body w = Result (Ret wh) w' t
                  /\ url wh = asset_url /\ filename wh = asset_name
                  /\ (metadata_available wh = true
                       <-> is_Some (metadata_sha256 wh))
                  /\ Forall (asks_about asset_url) t
                  /\ (requests t <= 3)%nat
                  /\ forall line, ~ In (Print line) t)
               \/ (exists e w',
                     body w = Result (Raise e) w' [Request "HEAD" asset_url])).
  { unfold body.
    destruct (requests_head asset_url w) as [[resp|] w1] eqn:Eh.
    2:{ right. eexists _, _.
        apply run_bind_raise. unfold http. rewrite Eh. reflexivity. }
    rewrite (run_bind_ret (http "HEAD" requests_head asset_url) _ w resp w1
               [Request "HEAD" asset_url])
      by (unfold http; rewrite Eh; reflexivity).
    assert (Hsize : (exists n,
                       match content_length resp with
                       | Some l =>
                           match py_int l with
                           | Some n => mret n
                           | None => raise (OtherError "ValueError")
                           end
                       | None => mret 0
                       end w1 = Result (Ret n) w1 [])
                    \/ (exists e,
                          match content_length resp with
                          | Some l =>
                              match py_int l with
                              | Some n => mret n
                              | None => raise (OtherError "ValueError")
                              end
                          | None => mret 0
                          end w1 = Result (Raise e) w1 [])).
    { destruct (content_length resp) as [l|]; [destruct (py_int l) |];
        [left | right | left]; eexists; reflexivity. }
    destruct Hsize as [[n En] | [e Ee]].
    2:{ right. rewrite (run_bind_raise _ _ w1 e w1 [] Ee).
        eexists _, _. reflexivity. }
    rewrite (run_bind_ret _ _ w1 n w1 [] En). cbn [app].
    destruct (probe_sidecar_spec asset_url w1)
      as (available & digest & Eo & Hiff & Fp & Lp).
    rewrite run_bind, Eo. cbn [outcome_of world_of events_of app].
    left. eexists _, _, _. split; [reflexivity |].
    cbn [url filename metadata_available metadata_sha256].
    rewrite app_nil_r.
    split; [reflexivity |]. split; [reflexivity |]. split; [exact Hiff |].
    split; [| split].
    - constructor; [left; reflexivity |].
      eapply Forall_impl; [exact Fp |]. intros e [m ->]. right. reflexivity.
    - pose proof (requests_le_length (events_of (probe_sidecar asset_url w1))).
      change (requests (Request "HEAD" asset_url :: ?t))
        with (S (requests t)). lia.
    - intros line [E | Hin]; [discriminate E |].
      rewrite Forall_forall in Fp. apply list_elem_of_In, Fp in Hin.
      destruct Hin as [m E]. discriminate E. }
  unfold try_except.
  destruct Hb as [(wh & w' & t & -> & Hu & Hf & Hiff & Ft & Rt & Np)
                 | (e & w' & ->)].
  - exists wh. cbn [outcome_of events_of].
    split; [reflexivity |]. split; [exact Hu |]. split; [exact Hf |].
    split; [exact Hiff |]. split; [exact Ft |]. split; [exact Rt |].
    intros line Hin. destruct (Np line Hin).
  - subst handler. unfold mbind, M_bind, print, emit, mret, M_ret. cbn.
    eexists. split; [reflexivity |]. cbn.
    split; [reflexivity |]. split; [reflexivity |].
    split; [split; [discriminate | intros [x E]; discriminate E] |].
    split; [repeat constructor; left; reflexivity |].
    split; [lia |]. intros _ _. repeat split.
Qed.
(** *** The releases that are shown *)

Lemma parse_version_returns (tag : string) :
  exists o : option V, parse_version tag = Ret o.
Proof.
  unfold parse_version, catch_all.
  destruct (Str.split "-" (Str.lstrip_char "v" tag)) as [|text rest];
    [eexists; reflexivity |].
  destruct (version_parse text); eexists; reflexivity.
Qed.

Lemma valid_releases_returns (releases : list release) :
  exists l : list (V * release), valid_releases releases = Ret l.
Proof.
  induction releases as [|r rest (l & IH)]; cbn [valid_releases].
  - eexists; reflexivity.
  - destruct (draft r || prerelease r); [exists l; exact IH |].
    destruct (parse_version_returns (tag_name r)) as ([v|] & ->);
      [| exists l; exact IH].
    rewrite IH. eexists; reflexivity.
Qed.

(** X18. [valid_releases] never fails, whatever the tags are: it keeps the
    releases that are neither drafts nor prereleases and whose tag is a
    version, in the order in which they came, each with its version. *)
Theorem valid_releases_keeps_published (releases : list release) :
  exists l : list (V * release),
    valid_releases releases = Ret l
    /\ map snd l = List.filter is_valid releases
    /\ Forall (fun x => parse_version (tag_name (snd x)) = Ret (Some (fst x)))
         l.
Proof.
  induction releases as [|r rest (l & IH & Hl & Hp)]; cbn [valid_releases].
  - exists []. repeat split. constructor.
  - cbn [List.filter].
    assert (Ev : is_valid r
                 = negb (draft r || prerelease r)
                   && match parse_version (tag_name r) with
                      | Ret (Some _) => true
                      | _ => false
                      end) by reflexivity.
    rewrite Ev. clear Ev.
    destruct (draft r || prerelease r); cbn [negb andb];
      [exists l; repeat split; assumption |].
    destruct (parse_version_returns (tag_name r)) as ([v|] & E); rewrite E.
    + rewrite IH. exists ((v, r) :: l). split; [reflexivity |].
      split; [cbn; rewrite Hl; reflexivity |].
      constructor; [exact E | exact Hp].
    + exists l. repeat split; assumption.
Qed.

(** *** The order of the releases *)

Lemma insert_desc_perm (x : V * release) l :
  Permutation (insert_desc x l) (x :: l).
Proof.
  induction l as [|y l IH]; cbn [insert_desc]; [reflexivity |].
  destruct (version_lt (fst y) (fst x)); [reflexivity |].
  rewrite IH. apply perm_swap.
Qed.

Lemma insert_desc_descending (x : V * release) l :
  (forall a b : V, version_lt a b = true -> version_lt b a = false) ->
  descending l -> descending (insert_desc x l).
Proof.
  intros Asym. induction l as [|y l IH]; intros D; cbn [insert_desc].
  - exact I.
  - destruct (version_lt (fst y) (fst x)) eqn:E.
    + split; [apply Asym, E | exact D].
    + destruct l as [|z l]; cbn [insert_desc].
      * split; [exact E | exact I].
      * destruct D as [Dyz D]. specialize (IH D). cbn [insert_desc] in IH.
        destruct (version_lt (fst z) (fst x)) eqn:E2.
        -- split; [exact E | exact IH].
        -- split; [exact Dyz | exact IH].
Qed.

(** X19. [sort_desc], the sort of [generate_package_page], loses no release and
    makes none up; and when no two versions are each less than the other, it
    leaves every version followed by one that is not greater. *)
Theorem sort_desc_puts_newest_first (l : list (V * release)) :
  (forall a b : V, version_lt a b = true -> version_lt b a = false) ->
  Permutation (sort_desc l) l /\ descending (sort_desc l).
Proof.
  intros Asym. unfold sort_desc.
  assert (G : forall acc,
            descending acc ->
            Permutation (fold_left (fun acc x => insert_desc x acc) l acc)
              (acc ++ l)
            /\ descending (fold_left (fun acc x => insert_desc x acc) l acc)).
  { induction l as [|x l IH]; intros acc D; cbn [fold_left].
    - rewrite app_nil_r. split; [reflexivity | exact D].
    - destruct (IH (insert_desc x acc) (insert_desc_descending x acc Asym D))
        as [P S].
      split; [| exact S]. rewrite P.
      rewrite (insert_desc_perm x acc).
      change (x :: acc) with ([x] ++ acc).
      rewrite (Permutation_app_comm [x] acc), <- app_assoc. reflexivity. }
  destruct (G [] I) as [P S]. split; [exact P | exact S].
Qed.
(** *** The wheels that are listed *)

Lemma collect_assets_loop wheel_filter (v : V) r (l : list asset) :
  forall wheels (w : W),
  exists ws,
    outcome_of
      (for_fold l wheels
         (fun wheels a =>
            if Str.endswith (asset_name a) ".whl" then
              if match wheel_filter with
                 | Some f => Str.truthy f && negb (Str.contains f (asset_name a))
                 | None => false
                 end
              then mret wheels
              else
                metadata ← get_wheel_metadata (browser_download_url a)
                             (asset_name a);
                mret (wheels ++
                      [{| url := url metadata; filename := filename metadata;
                          size := size metadata;
                          upload_time := upload_time metadata;
                          metadata_available := metadata_available metadata;
                          metadata_sha256 := metadata_sha256 metadata;
                          version := version_str v;
                          release_date := published_at r |}])
            else mret wheels) w) = Ret (wheels ++ ws)
    /\ map entry ws
       = map (fun a => (browser_download_url a, asset_name a, version_str v,
                        published_at r))
           (List.filter (selected wheel_filter) l).
Proof.
  induction l as [|a l IH]; intros wheels w; cbn [for_fold List.filter].
  - exists []. rewrite app_nil_r. split; reflexivity.
  - rewrite run_bind. unfold selected at 1.
    destruct (Str.endswith (asset_name a) ".whl"); cbn [andb].
    2:{ cbn [outcome_of world_of mret M_ret]. apply IH. }
    destruct (match wheel_filter with
              | Some f => Str.truthy f && negb (Str.contains f (asset_name a))
              | None => false
              end); cbn [negb].
    { cbn [outcome_of world_of mret M_ret]. apply IH. }
    rewrite run_bind.
    destruct (get_wheel_metadata_returns (browser_download_url a)
                (asset_name a) w) as (m & -> & Hu & Hf).
    cbn [outcome_of world_of mret M_ret].
    match goal with
    | |- context [for_fold l ?acc ?body ?x] =>
        destruct (IH acc x) as (ws & -> & Hws)
    end.
    eexists (_ :: ws). rewrite <- app_assoc. split; [reflexivity |].
    cbn [map entry url filename version release_date]. rewrite Hu, Hf, Hws.
    reflexivity.
Qed.

Lemma collect_wheels_loop wheel_filter (sorted : list (V * release)) :
  forall wheels (w : W),
  exists ws,
    outcome_of
      (for_fold sorted wheels
         (fun wheels '(v, r) => collect_assets wheel_filter v r wheels) w)
    = Ret (wheels ++ ws)
    /\ map entry ws = entries_of wheel_filter sorted.
Proof.
  unfold collect_assets.
  induction sorted as [|[v r] sorted IH]; intros wheels w; cbn [for_fold].
  - exists []. rewrite app_nil_r. split; reflexivity.
  - rewrite run_bind.
    destruct (collect_assets_loop wheel_filter v r (assets r) wheels w)
      as (ws1 & E1 & K1).
    rewrite E1. cbn [outcome_of].
    match goal with
    | |- context [outcome_of (for_fold sorted ?acc ?body ?x)] =>
        destruct (IH acc x) as (ws2 & E2 & H2)
    end.
    rewrite E2.
    exists (ws1 ++ ws2). rewrite app_assoc. split; [reflexivity |].
    cbn [entries_of flat_map]. rewrite map_app, K1, H2. reflexivity.
Qed.

(** X20. The page of a package, for whatever list of releases the client
    answers with.  The wheels on the page are the selected wheel assets of
    the releases that are shown, in the order of [sort_desc], each with its
    URL, its name, the version of its release and the date of its release;
    nothing but this page is written; and a run that returns has written it
    and returns the number of its wheels. *)
Theorem package_page_lists_selected_wheels (package_name repo
    output_dir : string) (wheel_filter : option string) (w : W) :
  let run := generate_package_page package_name repo output_dir wheel_filter w in
  let index := Path.join (Path.join output_dir package_name) "index.html" in
  exists (valid : list (V * release)) (wheels : list wheel),
    valid_releases (client_get_releases repo w).1 = Ret valid
    /\ map entry wheels = entries_of wheel_filter (sort_desc valid)
    /\ (forall path text,
          In (WriteText path text) (events_of run) ->
          path = index
          /\ text = Str.join nl (html_lines package_name wheels))
    /\ (forall n,
          outcome_of run = Ret n ->
          n = Z.of_nat (length wheels)
          /\ In (WriteText index (Str.join nl (html_lines package_name wheels)))
               (events_of run)).
Proof.
  cbv zeta.
  destruct (client_get_releases repo w) as [l w1] eqn:Eg. cbn [fst].
  destruct (valid_releases_returns l) as (valid & Hv).
  destruct (collect_wheels_loop wheel_filter (sort_desc valid) [] w1)
    as (wheels & Hw & Hentries).
  cbn [app] in Hw. fold (collect_wheels wheel_filter (sort_desc valid)) in Hw.
  pose proof (only_collect_wheels wheel_filter (sort_desc valid) w1) as Dry.
  pose proof (result_eta (collect_wheels wheel_filter (sort_desc valid) w1))
    as Ec.
  rewrite Hw in Ec.
  set (t := events_of (collect_wheels wheel_filter _ w1)) in *.
  set (w2 := world_of (collect_wheels wheel_filter _ w1)) in *.
  assert (Ht : forall path text, ~ In (WriteText path text) t).
  { intros path text Hin. rewrite Forall_forall in Dry.
    apply list_elem_of_In, Dry in Hin. discriminate Hin. }
  exists valid, wheels. split; [exact Hv |]. split; [exact Hentries |].
  unfold generate_package_page.
  rewrite (run_bind_ret (get_releases repo) _ w l w1
             [Request "GET" ("https://api.github.com/repos/" +:+ repo
                             +:+ "/releases")])
    by (unfold get_releases; rewrite Eg; reflexivity).
  rewrite (run_bind_ret (lift (valid_releases l)) _ w1 valid w1 [])
    by (unfold lift; rewrite Hv; reflexivity).
  rewrite (run_bind_ret _ _ w1 _ w2 t Ec).
  cbn [outcome_of world_of events_of app].
  set (dir := Path.join output_dir package_name).
  set (page := Str.join nl (html_lines package_name wheels)).
  destruct (fs_mkdir dir w2) as [w3|] eqn:Em.
  - rewrite (run_bind_ret (mkdir dir) _ w2 tt w3 [Mkdir dir])
      by (unfold mkdir; rewrite Em; reflexivity).
    destruct (fs_write_text (Path.join dir "index.html") page w3)
      as [w4|] eqn:Ew.
    + rewrite (run_bind_ret (write_text _ page) _ w3 tt w4
                 [WriteText (Path.join dir "index.html") page])
        by (unfold write_text; rewrite Ew; reflexivity).
      cbn [outcome_of events_of app]. split.
      * intros path text [E | Hin]; [discriminate E |].
        rewrite !in_app_iff in Hin. cbn -[page] in Hin.
        destruct Hin as [Hin | [E | [E | [E | []]]]];
          try discriminate E; [destruct (Ht _ _ Hin) |].
        injection E as <- <-. split; reflexivity.
      * intros n E. cbn in E. injection E as <-. split; [reflexivity |].
        right. rewrite !in_app_iff. right. right. left. reflexivity.
    + rewrite (run_bind_raise (write_text _ page) _ w3
                 (OtherError "OSError") w3 [])
        by (unfold write_text; rewrite Ew; reflexivity).
      cbn [outcome_of events_of app]. split.
      * intros path text [E | Hin]; [discriminate E |].
        rewrite !in_app_iff in Hin. cbn [In] in Hin.
        destruct Hin as [Hin | [E | []]];
          try discriminate E. destruct (Ht _ _ Hin).
      * intros n E. discriminate E.
  - rewrite (run_bind_raise (mkdir dir) _ w2 (OtherError "OSError") w2 [])
      by (unfold mkdir; rewrite Em; reflexivity).
    cbn [outcome_of events_of app]. split.
    + intros path text [E | Hin]; [discriminate E |].
      rewrite app_nil_r in Hin. destruct (Ht _ _ Hin).
    + intros n E. discriminate E.
Qed.
End Index.

(** ** The name of a package *)

Lemma split_chars_whole sep (y : list ascii) :
  ~ In sep y -> Str.split_chars sep y = [y].
Proof.
  induction y as [|c y IH]; intros N; cbn [Str.split_chars]; [reflexivity |].
  destruct (Ascii.eqb_spec c sep) as [-> | _]; [destruct N; left; reflexivity |].
  rewrite IH by (intros Hin; apply N; right; exact Hin). reflexivity.
Qed.

Lemma split_chars_at_sep sep (y rest : list ascii) :
  ~ In sep y ->
  Str.split_chars sep (y ++ sep :: rest) = y :: Str.split_chars sep rest.
Proof.
  induction y as [|c y IH]; intros N; cbn [app Str.split_chars].
  - rewrite Ascii.eqb_refl. reflexivity.
  - destruct (Ascii.eqb_spec c sep) as [-> | _];
      [destruct N; left; reflexivity |].
    rewrite IH by (intros Hin; apply N; right; exact Hin). reflexivity.
Qed.

Lemma contains_char_false (c : ascii) (s : string) :
  Str.contains (String c EmptyString) s = false -> ~ In c (Str.chars s).
Proof.
  unfold Str.contains. intros E Hin.
  apply bool_decide_eq_false in E. apply E.
  apply (find_chars_in c), Hin.
Qed.

(** X21. [extract_package_name_from_repo] answers with what stands between the
    first slash and the second, and fails with [IndexError] on an identifier
    without a slash. *)
Theorem extract_package_name_is_second_part (owner name rest : string) :
  Str.contains "/" owner = false ->
  Str.contains "/" name = false ->
  extract_package_name_from_repo owner = Raise (OtherError "IndexError")
  /\ extract_package_name_from_repo (owner +:+ "/" +:+ name) = Ret name
  /\ extract_package_name_from_repo (owner +:+ "/" +:+ name +:+ "/" +:+ rest)
     = Ret name.
Proof.
  intros Ho Hn. apply contains_char_false in Ho, Hn.
  unfold extract_package_name_from_repo, Str.split.
  rewrite !chars_app.
  change (Str.chars "/") with ["/"%char]. cbn [app].
  rewrite (split_chars_whole _ _ Ho).
  rewrite !(split_chars_at_sep _ _ _ Ho).
  rewrite (split_chars_whole _ _ Hn), (split_chars_at_sep _ _ _ Hn).
  cbn [fmap list_fmap]. rewrite of_chars_chars.
  repeat split.
Qed.

(** ** The driver and the index in the simulated world *)

Lemma segments_lt_asym (a b : list nat) :
  Sim.segments_lt a b = true -> Sim.segments_lt b a = false.
Proof.
  revert b. induction a as [|x a IH]; intros [|y b]; cbn [Sim.segments_lt];
    try discriminate; try reflexivity.
  intros E. apply orb_true_iff in E. apply orb_false_iff.
  destruct E as [E | E].
  - apply Nat.ltb_lt in E. split; [apply Nat.ltb_ge; lia |].
    apply andb_false_iff. left. apply Nat.eqb_neq. lia.
  - apply andb_true_iff in E as [E1 E2]. apply Nat.eqb_eq in E1. subst y.
    split; [apply Nat.ltb_irrefl |].
    apply andb_false_iff. right. apply IH, E2.
Qed.

Section SimulatedDriver.
Import Sim Scenario.

Lemma process_repo_without_update_versions_witness :
  Forall keeps_hands_off
    (events_of
       (process_repo "nodetool-core" REPOS "1.2.3" "v1.2.3"
          {| arg_version_tag := "v1.2.3"; arg_update_versions := false;
             arg_no_wait_core := false; arg_repo := None |}
          "/work" checkout)).
Proof.
  apply (process_repo_without_update_versions (W := world) "nodetool-core"
           REPOS "1.2.3" "v1.2.3"
           {| arg_version_tag := "v1.2.3"; arg_update_versions := false;
              arg_no_wait_core := false; arg_repo := None |} "/work").
  reflexivity.
Defined.

Lemma main_without_checkouts_still_triggers_witness :
  Path.parent (Path.parent (script_file Sim.empty)) = "/work/nodetool-registry"
  /\ released_nothing (Path.parent (Path.parent (script_file Sim.empty)))
       (ok "") (main (release_args "v1.2.3") Sim.empty).
Proof.
  split; [vm_compute; reflexivity |].
  apply (main_without_checkouts_still_triggers (W := world)
           (release_args "v1.2.3") Sim.empty Sim.empty (ok "") "[]").
  - reflexivity.
  - intros r E. vm_compute in E. discriminate E.
  - intros repo _. vm_compute. reflexivity.
  - reflexivity.
  - vm_compute. reflexivity.
Defined.

Lemma main_rejects_unknown_repo_witness :
  let a := {| arg_version_tag := "1.2.3"; arg_update_versions := true;
              arg_no_wait_core := false;
              arg_repo := Some "nodetool-unknown" |} in
  let user_says_yes :=
    {| files := files checkout; dirs := dirs checkout; env := ∅;
       stdin := ["y"]; gh_runs := ∅; gh_releases := ∅; push_main_status := 0;
       clock := 0; api_releases := ∅; http_answers := ∅ |} in
  refused_after_question checkout (Some "y")
    (RED +:+ "[ERROR]" +:+ NC +:+ " " +:+ "Repository 'nodetool-unknown"
     +:+ "' not in known repos: " +:+ Str.join ", " REPOS)
    (main a user_says_yes).
Proof.
  cbv zeta.
  assert (Hno : ~ In "nodetool-unknown" REPOS).
  { intros Hin. vm_compute in Hin.
    repeat (destruct Hin as [Hin | Hin]; [discriminate Hin |]).
    exact Hin. }
  exact (main_rejects_unknown_repo (W := world)
           {| arg_version_tag := "1.2.3"; arg_update_versions := true;
              arg_no_wait_core := false;
              arg_repo := Some "nodetool-unknown" |}
           {| files := files checkout; dirs := dirs checkout; env := ∅;
              stdin := ["y"]; gh_runs := ∅; gh_releases := ∅;
              push_main_status := 0; clock := 0; api_releases := ∅;
              http_answers := ∅ |}
           "nodetool-unknown" eq_refl Hno).
Defined.

Lemma sort_desc_puts_newest_first_witness :
  let l := [([1; 0; 0]%nat, released "1.0.0" false);
            ([1; 10; 0]%nat, released "1.10.0" false);
            ([1; 2; 0]%nat, released "1.2.0" false)] in
  Permutation (sort_desc l) l /\ descending (sort_desc l).
Proof.
  cbv zeta.
  apply (sort_desc_puts_newest_first (V := list nat)). exact segments_lt_asym.
Defined.

Lemma extract_package_name_is_second_part_witness :
  extract_package_name_from_repo "nodetool-ai" = Raise (OtherError "IndexError")
  /\ extract_package_name_from_repo ("nodetool-ai" +:+ "/" +:+ "nodetool-base")
     = Ret "nodetool-base"
  /\ extract_package_name_from_repo
       ("nodetool-ai" +:+ "/" +:+ "nodetool-base" +:+ "/" +:+ "tree")
     = Ret "nodetool-base".
Proof.
  apply (extract_package_name_is_second_part "nodetool-ai" "nodetool-base"
           "tree").
  - vm_compute. reflexivity.
  - vm_compute. reflexivity.
Defined.
End SimulatedDriver.

Section HostedCheckout.
Import Hosted.

Lemma setup_git_auth_shows_the_token_witness :
  outcome_of (setup_git_auth "/work/nodetool-core" Here) = Ret true
  /\ In (Print (running_line
                  ["git"; "remote"; "set-url"; "origin";
                   "https://x-access-token:" +:+ token
                   +:+ "@github.com/nodetool-ai/nodetool-core.git"]
                  (Some "/work/nodetool-core")))
       (events_of (setup_git_auth "/work/nodetool-core" Here))
  /\ exists token rest p,
       let auth_url :=
         "https://x-access-token:" +:+ token +:+ "@github.com/" +:+ rest in
       let cmd := ["git"; "remote"; "set-url"; "origin"; auth_url] in
       first_env TOKEN_VARS Here = Some token
       /\ In (Run cmd (Some "/work/nodetool-core") (Some p))
            (events_of (setup_git_auth "/work/nodetool-core" Here))
       /\ returncode p = 0
       /\ In (Print (running_line cmd (Some "/work/nodetool-core")))
            (events_of (setup_git_auth "/work/nodetool-core" Here)).
Proof.
  split; [vm_compute; reflexivity |].
  split; [vm_compute; do 3 right; left; reflexivity |].
  apply (setup_git_auth_shows_the_token (W := world)).
  vm_compute. reflexivity.
Defined.
End HostedCheckout.

(** ** The lock file *)

Ltac no_lock :=
  repeat
    lazymatch goal with
    | |- only _ (run_command _ _ _) =>
        apply only_run_command; intros; reflexivity
    | |- only _ (re_subn _ _ _ _) => apply only_re_subn
    | |- only _ (note _ _) => apply only_note
    | |- only _ (for_each (_ :: _) _) => cbn [for_each]
    | |- only _ (for_each [] _) => cbn [for_each]
    | |- only _ (if _ && false then _ else _) => rewrite andb_false_r
    | |- _ => only_step
    end.

Section Lock.
Context {W : Type} `{Platform W}.

Lemma no_lock_update_version_files repo_path is_nodetool version tag a :
  only (W := W) (fun e => is_uv_lock e = false)
    (update_version_files repo_path is_nodetool version tag a).
Proof.
  unfold update_version_files, update_pyproject_version,
    update_nodetool_core_dependency, update_copilot_core_ref,
    update_git_package_refs, update_dockerfile_pypi_versions,
    update_package_json_version, update_constants_version, run_package_scan,
    find_dockerfiles, find_metadata_dirs.
  destruct is_nodetool; destruct (arg_update_versions a); cbn [andb negb];
    no_lock.
Qed.

(** X22. [process_repo] never runs [uv lock], for no repository and in no world:
    the call of [generate_uv_lock] stands where [is_nodetool] holds, under the
    condition that it does not. *)
Theorem process_repo_never_locks (repo : string)
    (repos_to_process : list string) (version version_tag : string)
    (a : args) (cwd : string) :
  only (W := W) (fun e => is_uv_lock e = false)
    (process_repo repo repos_to_process version version_tag a cwd).
Proof.
  unfold process_repo, stage_version_updates, create_and_push_tag,
    print_git_diagnostics, setup_git_auth, git_add_relative,
    find_metadata_dirs, NODETOOL_FILES.
  repeat
    lazymatch goal with
    | |- only _ (update_version_files _ _ _ _ _) =>
        apply no_lock_update_version_files
    | |- _ => progress no_lock
    end.
Qed.
End Lock.

(** ** The files of the nodetool application *)

Ltac writes_with leaf :=
  repeat
    lazymatch goal with
    | |- only _ (mret _) => apply only_ret
    | |- only _ (mbind _ _) => apply only_bind; [| intros ?]
    | |- only _ (raise _) => apply only_raise
    | |- only _ (ask _) => apply only_ask
    | |- only _ (print _) => apply only_print; exact I
    | |- only _ (print_info _) => apply only_print; exact I
    | |- only _ (print_warning _) => apply only_print; exact I
    | |- only _ (print_error _) => apply only_print; exact I
    | |- only _ (read_text _) => apply only_read_text
    | |- only _ (write_text _ _) => apply only_write_text; leaf
    | |- only _ (re_subn _ _ _ _) => apply only_re_subn
    | |- only _ (note _ _) => apply only_note
    | |- only _ (run_command _ _ _) =>
        apply only_run_command; intros; exact I
    | |- only _ (when _ _) => apply only_when
    | |- only _ (for_each (_ :: _) _) => cbn [for_each]
    | |- only _ (for_each [] _) => cbn [for_each]
    | |- only _ (for_each _ _) => apply only_for_each; intros ?
    | |- only _ (try_except _ _) =>
        apply only_try_except;
        [| let e := fresh "e" in let E := fresh "E" in
           intros e ? E; destruct e; simpl in E; inversion E; subst; clear E]
    | |- only _ (if ?c then _ else _) => destruct c
    | |- only _ (match ?x with _ => _ end) => destruct x
    end.

Section NodetoolFiles.
Context {W : Type} `{Platform W}.

Lemma only_bind_ask {A B} (P : event -> Prop) (g : W -> A) (f : A -> M W B) :
  (forall w, only P (f (g w))) -> only P (ask g ≫= f).
Proof.
  intros Hf w. rewrite (run_bind_silent (ask g) f w _ eq_refl). apply Hf.
Qed.

Lemma only_for_fold_in {A B} (P : event -> Prop) (l : list A) (acc : B)
    (body : B -> A -> M W B) :
  (forall b x, In x l -> only P (body b x)) -> only P (for_fold l acc body).
Proof.
  revert acc. induction l as [|x l IH]; intros acc Hb; cbn [for_fold].
  - apply only_ret.
  - apply only_bind; [apply Hb; left; reflexivity |].
    intros b. apply IH. intros b' y Hy. apply Hb. right. exact Hy.
Qed.

Lemma python_update_version_files repo_path version tag a :
  only (W := W) (python_release_event repo_path)
    (update_version_files repo_path false version tag a).
Proof.
  unfold update_version_files. cbn [negb]. rewrite andb_false_r, andb_true_r.
  apply only_bind; [| intros [dockerfiles u]; writes_with fail].
  destruct (arg_update_versions a); [| apply only_ret].
  apply only_bind.
  { unfold update_pyproject_version. writes_with ltac:(left; reflexivity). }
  intros u1. apply only_bind.
  { unfold update_nodetool_core_dependency.
    writes_with ltac:(left; reflexivity). }
  intros u2. apply only_bind.
  { unfold update_copilot_core_ref.
    writes_with ltac:(right; left; reflexivity). }
  intros u3. unfold find_dockerfiles. apply only_bind_ask. intros w0.
  apply only_bind.
  { apply only_for_fold_in. intros u dockerfile Hin.
    apply filter_In in Hin as [Hin Hc]. apply andb_prop in Hc as [Hf Hp].
    assert (Hd : found_dockerfile repo_path dockerfile)
      by (exists w0; repeat split; assumption).
    unfold update_git_package_refs, update_dockerfile_pypi_versions.
    writes_with ltac:(right; right; exact Hd). }
  intros u4. unfold find_metadata_dirs, run_package_scan. writes_with fail.
Qed.

(** X23. For a repository of [REPOS], [process_repo] writes nothing but the
    [pyproject.toml] of the repository, its Copilot workflow and the
    Dockerfiles it found there.  The patchers of [package.json] and
    [constants.ts] are for a repository named [nodetool], and [REPOS] has
    none. *)
Theorem process_repo_writes_python_files_only (repo : string)
    (repos_to_process : list string) (version version_tag : string)
    (a : args) (cwd : string) :
  In repo REPOS ->
  only (W := W) (python_release_event (Path.join cwd repo))
    (process_repo repo repos_to_process version version_tag a cwd).
Proof.
  intros Hin.
  assert (E : (repo =s? "nodetool") = false).
  { unfold REPOS in Hin. cbn [In] in Hin.
    repeat (destruct Hin as [<- | Hin]; [reflexivity |]). destruct Hin. }
  unfold process_repo. rewrite E.
  unfold stage_version_updates, create_and_push_tag, print_git_diagnostics,
    setup_git_auth, git_add_relative, find_metadata_dirs.
  repeat
    lazymatch goal with
    | |- only _ (update_version_files _ _ _ _ _) =>
        apply python_update_version_files
    | |- _ => progress writes_with fail
    end.
Qed.
End NodetoolFiles.

(** ** The wheel count of the manifest *)

Section Occurrences.
Variables (c0 : ascii) (tail : list ascii).
Hypothesis fresh : ~ In c0 tail.

#[local] Abbreviation sub := (c0 :: tail).

Lemma is_prefix_head s : Str.is_prefix sub s = true -> head s = Some c0.
Proof.
  destruct s as [|b s]; cbn; [discriminate |].
  destruct (Ascii.eqb_spec c0 b) as [-> | _]; [reflexivity | discriminate].
Qed.

Lemma is_prefix_split (p s : list ascii) :
  Str.is_prefix p s = true -> exists rest, s = p ++ rest.
Proof.
  revert s. induction p as [|a p IH]; intros s E; cbn in E.
  - exists s. reflexivity.
  - destruct s as [|b s]; [discriminate E |].
    destruct (Ascii.eqb_spec a b) as [-> | _]; [| discriminate E].
    destruct (IH s E) as (rest & ->). exists rest. reflexivity.
Qed.

(** The occurrences of a word whose first letter it has only once do not
    overlap, so [count_chars] finds them all. *)
Lemma count_chars_occurrences s : forall k,
  Forall (fun c => c <> c0) (take k s) ->
  count_chars sub k s = occurrences sub s.
Proof.
  induction s as [|c s IH]; intros k Hk; [reflexivity |].
  cbn [count_chars occurrences]. destruct k as [|k].
  - destruct (Str.is_prefix sub (c :: s)) eqn:E.
    + cbn [Nat.add]. f_equal. apply IH.
      apply is_prefix_split in E as (rest & E). injection E as -> ->.
      replace (length (c0 :: tail) - 1)%nat with (length tail)
        by (cbn [length]; lia).
      rewrite take_app_length.
      apply Forall_forall. intros x Hx ->. apply fresh, list_elem_of_In, Hx.
    + apply IH. constructor.
  - cbn [take] in Hk. apply Forall_cons in Hk as [Hc Hk].
    assert (E : Str.is_prefix sub (c :: s) = false).
    { destruct (Str.is_prefix sub (c :: s)) eqn:E; [| reflexivity].
      apply is_prefix_head in E. injection E as ->. destruct (Hc eq_refl). }
    rewrite E. apply IH, Hk.
Qed.
End Occurrences.

Lemma is_prefix_mono (p a b : list ascii) :
  Str.is_prefix p a = true -> Str.is_prefix p (a ++ b) = true.
Proof.
  revert a. induction p as [|x p IH]; intros a E; [reflexivity |].
  destruct a as [|y a]; [discriminate E |]. cbn in *.
  destruct (Ascii.eqb x y); [apply IH, E | discriminate E].
Qed.

Lemma occurrences_app (p a b : list ascii) :
  (occurrences p a + occurrences p b <= occurrences p (a ++ b))%nat.
Proof.
  induction a as [|c a IH]; cbn [app occurrences]; [lia |].
  destruct (Str.is_prefix p (c :: a)) eqn:E.
  - change (c :: a ++ b) with ((c :: a) ++ b).
    rewrite (is_prefix_mono _ _ b E). lia.
  - destruct (Str.is_prefix p (c :: a ++ b)); lia.
Qed.

Lemma occurrences_found (p s : list ascii) :
  p <> [] -> is_Some (Str.find_chars p s) -> (1 <= occurrences p s)%nat.
Proof.
  intros Np. induction s as [|c s IH]; cbn [Str.find_chars occurrences].
  - destruct p; [destruct (Np eq_refl) |]. cbn. intros [x E]. discriminate E.
  - destruct (Str.is_prefix p (c :: s)); [lia |].
    intros [x E]. destruct (Str.find_chars p s) as [i|]; [| discriminate E].
    specialize (IH ltac:(eexists; reflexivity)). lia.
Qed.

Lemma occurrences_concat (p : list ascii) (sep : string) (l : list string) :
  (list_sum ((fun x => occurrences p (Str.chars x)) <$> l)
   <= occurrences p (Str.chars (Str.join sep l)))%nat.
Proof.
  unfold Str.join.
  induction l as [|x [|y l] IH]; cbn [fmap list_fmap list_sum foldr].
  - cbn. lia.
  - cbn [String.concat]. lia.
  - change (String.concat sep (x :: y :: l))
      with (x +:+ sep +:+ String.concat sep (y :: l)).
    rewrite !chars_app.
    pose proof (occurrences_app p (Str.chars x)
                  (Str.chars sep ++ Str.chars (String.concat sep (y :: l)))).
    pose proof (occurrences_app p (Str.chars sep)
                  (Str.chars (String.concat sep (y :: l)))).
    cbn [fmap list_fmap list_sum foldr] in IH. lia.
Qed.

Lemma occurrences_link (wh : wheel) :
  names_a_wheel wh ->
  (2 <= occurrences (Str.chars ".whl") (Str.chars (link_html wh)))%nat.
Proof.
  intros [Hu Hf]. unfold Str.contains in Hu, Hf.
  apply bool_decide_eq_true in Hu, Hf.
  apply occurrences_found in Hu, Hf; try discriminate.
  unfold link_html. cbv zeta. rewrite !chars_app.
  set (p := Str.chars ".whl") in *.
  match goal with
  | |- context [Str.join _ ([?h] ++ ?r)] =>
      change ([h] ++ r) with (h :: r); set (rest := r)
  end.
  set (attrs := ("href=" +:+ dq +:+ url wh +:+ dq) :: rest).
  pose proof (occurrences_app p (Str.chars "    <a ")
                (Str.chars (Str.join " " attrs) ++ Str.chars ">"
                 ++ Str.chars (filename wh) ++ Str.chars "</a><br>")).
  pose proof (occurrences_app p (Str.chars (Str.join " " attrs))
                (Str.chars ">" ++ Str.chars (filename wh)
                 ++ Str.chars "</a><br>")).
  pose proof (occurrences_app p (Str.chars ">")
                (Str.chars (filename wh) ++ Str.chars "</a><br>")).
  pose proof (occurrences_app p (Str.chars (filename wh))
                (Str.chars "</a><br>")).
  pose proof (occurrences_concat p " " attrs) as Ha.
  unfold attrs in Ha at 1. cbn [fmap list_fmap list_sum foldr] in Ha.
  rewrite !chars_app in Ha.
  pose proof (occurrences_app p (Str.chars "href=")
                (Str.chars dq ++ Str.chars (url wh) ++ Str.chars dq)).
  pose proof (occurrences_app p (Str.chars dq)
                (Str.chars (url wh) ++ Str.chars dq)).
  pose proof (occurrences_app p (Str.chars (url wh)) (Str.chars dq)).
  lia.
Qed.

Lemma occurrences_page (package_name : string) (wheels : list wheel) :
  Forall names_a_wheel wheels ->
  (2 * length wheels
   <= occurrences (Str.chars ".whl")
        (Str.chars (Str.join nl (html_lines package_name wheels))))%nat.
Proof.
  intros Hw.
  assert (Hl : (2 * length wheels
                <= list_sum ((fun x => occurrences (Str.chars ".whl")
                                         (Str.chars x))
                             <$> (link_html <$> wheels)))%nat).
  { induction Hw as [|wh wheels Hwh _ IH]; cbn [fmap list_fmap length];
      [cbn; lia |].
    pose proof (occurrences_link wh Hwh).
    change (list_sum (?x :: ?l)) with (x + list_sum l)%nat.
    cbn [fmap list_fmap] in IH. lia. }
  pose proof (occurrences_concat (Str.chars ".whl") nl
                (html_lines package_name wheels)) as Hc.
  unfold html_lines in Hc at 1. rewrite !fmap_app, !List.list_sum_app in Hc.
  lia.
Qed.

Section Manifest.
Context {W : Type} `{Platform W} `{Directory W}.

(** X24. The manifest counts every wheel of a page at least twice.  When the
    index of a package is the page that [generate_package_page] writes for
    the wheels [wheels], and returns [len(wheels)] for, and every wheel has
    [.whl] in its URL and in its file name, then the entry that
    [generate_packages_manifest] makes for the package has a [wheel_count]
    of at least twice the number of the wheels. *)
Theorem manifest_counts_wheels_twice (packages : list package_info)
    (package_dir package_name : string) (wheels : list wheel) (w : W) :
  path_is_dir package_dir w = true ->
  path_exists (Path.join package_dir "index.html") w = true ->
  fs_read_text (Path.join package_dir "index.html") w
  = Some (Str.join nl (html_lines package_name wheels)) ->
  Forall names_a_wheel wheels ->
  exists info,
    scan_package_dir packages package_dir w
    = Result (Ret (packages ++ [info])) w []
    /\ pi_name info = Path.name package_dir
    /\ 2 * Z.of_nat (length wheels) <= pi_wheel_count info.
Proof.
  intros Hd Hi Hr Hw. unfold scan_package_dir.
  rewrite (run_bind_silent (ask (path_is_dir _)) _ w _ eq_refl), Hd.
  cbn [negb].
  rewrite (run_bind_silent (ask (path_exists _)) _ w _ eq_refl), Hi.
  cbn [negb].
  rewrite (run_bind_silent _ _ w _ (run_read_text _ _ w Hr)).
  cbv zeta.
  rewrite (run_bind_silent (ask (time_strftime _)) _ w _ eq_refl).
  eexists. split; [reflexivity |]. split; [reflexivity |].
  cbn [pi_wheel_count]. unfold str_count.
  change (Str.chars ".whl") with ("."%char :: Str.chars "whl").
  rewrite (count_chars_occurrences "."%char (Str.chars "whl"))
    by (first [ intros [E | [E | [E | []]]]; discriminate E
              | constructor ]).
  pose proof (occurrences_page package_name wheels Hw) as Hp.
  change (Str.chars ".whl") with ("."%char :: Str.chars "whl") in Hp. lia.
Qed.
End Manifest.

(** ** The files of a release and the manifest in the simulated world *)

Section SimulatedFiles.
Import Sim Scenario Docs.

Lemma process_repo_writes_python_files_only_witness :
  Forall (python_release_event (W := world) (Path.join "/work" "nodetool-core"))
    (events_of
       (process_repo "nodetool-core" REPOS "1.2.3" "v1.2.3"
          (release_args "v1.2.3") "/work" checkout)).
Proof.
  apply (process_repo_writes_python_files_only (W := world) "nodetool-core"
           REPOS "1.2.3" "v1.2.3" (release_args "v1.2.3") "/work").
  left. reflexivity.
Defined.

Lemma manifest_counts_wheels_twice_witness :
  scan_package_dir [] "/docs/simple/pkg" published
  = Result
      (Ret [{| pi_name := "pkg";
               pi_url := SIMPLE_URL +:+ "pkg" +:+ "/";
               pi_wheel_count := 4;
               pi_last_updated := "2025-01-01T00:00:00Z" |}])
      published []
  /\ exists info,
       scan_package_dir [] "/docs/simple/pkg" published
       = Result (Ret ([] ++ [info])) published []
       /\ pi_name info = Path.name "/docs/simple/pkg"
       /\ 2 * Z.of_nat (length [listed "1.1.0"; listed "1.0.0"])
          <= pi_wheel_count info.
Proof.
  split; [vm_compute; reflexivity |].
  apply (manifest_counts_wheels_twice (W := world) [] "/docs/simple/pkg"
           "pkg" [listed "1.1.0"; listed "1.0.0"] published).
  - vm_compute. reflexivity.
  - vm_compute. reflexivity.
  - vm_compute. reflexivity.
  - repeat constructor; vm_compute; reflexivity.
Defined.
End SimulatedFiles.

(** ** The getters of the registry *)

Section Getters.
Context {W : Type} `{Platform W} `{Network W} `{Logging W}.

Lemma comprehension_well_formed (l : list json) :
  Forall (fun pkg => is_Some (repo_id_of pkg)) l ->
  comprehension is_nodetool_ai l = Ret (List.filter ours l)
  /\ comprehension is_external l
     = Ret (List.filter (fun pkg => negb (ours pkg)) l).
Proof.
  induction 1 as [|pkg l [s Hs] _ [IH1 IH2]]; [split; reflexivity |].
  cbn [comprehension List.filter]. rewrite IH1, IH2.
  unfold is_external, is_nodetool_ai, ours. unfold repo_id_of in *.
  destruct (Py.get pkg "repo_id" (JStr "")) as [[| | |t| |]|];
    try discriminate Hs.
  destruct (Str.startswith t "nodetool-ai/"); split; reflexivity.
Qed.

Lemma collect_external_well_formed (l : list json) : forall acc,
  Forall (fun pkg => is_Some (repo_id_of pkg)) l ->
  exists s : gset string,
    collect_external l acc = Ret s
    /\ forall x, x ∈ s <->
                 x ∈ acc
                 \/ (x <> ""
                     /\ exists pkg, In pkg l /\ ours pkg = false
                                    /\ repo_id_of pkg = Some x).
Proof.
  induction l as [|pkg l IH]; intros acc Hl.
  - exists acc. split; [reflexivity |]. intros x. split; [tauto |].
    intros [Hx | (_ & pkg & [] & _)]. exact Hx.
  - apply Forall_cons in Hl as [[t Ht] Hl]. cbn [collect_external].
    unfold external_repo. unfold ours. unfold repo_id_of in *.
    destruct (Py.get pkg "repo_id" (JStr "")) as [[| | |r| |]|] eqn:Eg;
      try discriminate Ht.
    injection Ht as ->. cbn [Py.truthy].
    destruct (Str.truthy t) eqn:Et.
    + destruct (Str.startswith t "nodetool-ai/") eqn:Es.
      * destruct (IH acc Hl) as (s & -> & Hs). exists s.
        split; [reflexivity |]. intros x. rewrite Hs. split.
        -- intros [Hx | (Nx & p & Hp & Ho & Hr)]; [tauto |].
           right. split; [exact Nx |]. exists p. repeat split; auto.
           right. exact Hp.
        -- intros [Hx | (Nx & p & [<- | Hp] & Ho & Hr)]; [tauto | |].
           ++ rewrite Eg in Ho. rewrite Es in Ho. discriminate Ho.
           ++ right. split; [exact Nx |]. exists p. repeat split; auto.
      * destruct (IH ({[ t ]} ∪ acc) Hl) as (s & -> & Hs). exists s.
        split; [reflexivity |]. intros x. rewrite Hs. split.
        -- intros [Hx | (Nx & p & Hp & Ho & Hr)].
           ++ apply elem_of_union in Hx as [Hx | Hx]; [| tauto].
              apply elem_of_singleton in Hx as ->. right.
              split; [intros ->; discriminate Et |].
              exists pkg. split; [left; reflexivity |].
              rewrite Eg, Es. split; reflexivity.
           ++ right. split; [exact Nx |]. exists p. repeat split; auto.
              right. exact Hp.
        -- intros [Hx | (Nx & p & [<- | Hp] & Ho & Hr)].
           ++ left. apply elem_of_union. right. exact Hx.
           ++ rewrite Eg in Hr. injection Hr as ->. left.
              apply elem_of_union. left. apply elem_of_singleton.
              reflexivity.
           ++ right. split; [exact Nx |]. exists p. repeat split; auto.
    + destruct (IH acc Hl) as (s & -> & Hs). exists s.
      split; [reflexivity |]. intros x. rewrite Hs. split.
      * intros [Hx | (Nx & p & Hp & Ho & Hr)]; [tauto |].
        right. split; [exact Nx |]. exists p. repeat split; auto.
        right. exact Hp.
      * intros [Hx | (Nx & p & [<- | Hp] & Ho & Hr)]; [tauto | |].
        -- rewrite Eg in Hr. injection Hr as ->.
           destruct x; [destruct (Nx eq_refl) | discriminate Et].
        -- right. split; [exact Nx |]. exists p. repeat split; auto.
Qed.

(** X25. When the registry holds a list of packages each of which is a dict
    with a string for [repo_id], or with none, the getters agree:
    [external_only] and [nodetool_ai_only] divide the packages between them,
    keeping their order, and [get_external_repos] is the set of the
    identifiers of the external packages, the empty identifier of a package
    without [repo_id] left out. *)
Theorem registry_getters_divide_the_packages (registry_path : string)
    (l : list json) (w : W) (nodetool_ai_only : bool) :
  get_all_packages registry_path w = Result (Ret (JArr l)) w [] ->
  Forall (fun pkg => is_Some (repo_id_of pkg)) l ->
  divided l
    (outcome_of (get_packages_by_filter registry_path true nodetool_ai_only w))
    (outcome_of (get_packages_by_filter registry_path false true w))
    (outcome_of (get_packages_by_filter registry_path false false w))
    (outcome_of (get_external_repos registry_path w))
  /\ Permutation
       (List.filter (fun pkg => negb (ours pkg)) l ++ List.filter ours l) l.
Proof.
  intros Hall Hl.
  destruct (comprehension_well_formed l Hl) as [E1 E2].
  destruct (collect_external_well_formed l ∅ Hl) as (s & Es & Hs).
  unfold get_packages_by_filter, get_external_repos.
  rewrite !(run_bind_silent _ _ w _ Hall). unfold iterate. cbn [py_iter].
  rewrite !(run_bind_silent (mret l) _ w _ eq_refl).
  unfold lift. rewrite E1, E2, Es.
  split.
  - split; [reflexivity |]. split; [reflexivity |]. split; [reflexivity |].
    exists s. split; [reflexivity |]. intros x. rewrite Hs. split.
    + intros [Hx | Hx]; [| exact Hx]. apply elem_of_empty in Hx as [].
    + intros Hx. right. exact Hx.
  - clear. induction l as [|pkg l IH]; cbn [List.filter]; [constructor |].
    destruct (ours pkg); cbn [negb app].
    + rewrite <- Permutation_middle. constructor. exact IH.
    + constructor. exact IH.
Qed.
Lemma comprehension_raises (keep : json -> outcome bool) (l : list json) pkg :
  (forall p, (exists b, keep p = Ret b)
             \/ keep p = Raise (OtherError "AttributeError")) ->
  In pkg l -> keep pkg = Raise (OtherError "AttributeError") ->
  comprehension keep l = Raise (OtherError "AttributeError").
Proof.
  intros Hk Hin Hp. induction l as [|p l IH]; [destruct Hin |].
  cbn [comprehension]. destruct Hin as [-> | Hin]; [rewrite Hp; reflexivity |].
  destruct (Hk p) as [[b ->] | ->]; [| reflexivity].
  rewrite (IH Hin). reflexivity.
Qed.

Lemma is_nodetool_ai_answers p :
  (exists b, is_nodetool_ai p = Ret b)
  \/ is_nodetool_ai p = Raise (OtherError "AttributeError").
Proof.
  unfold is_nodetool_ai.
  destruct (Py.get p "repo_id" (JStr "")) as [[| | |t| |]|];
    first [right; reflexivity | left; eexists; reflexivity].
Qed.

Lemma is_external_answers p :
  (exists b, is_external p = Ret b)
  \/ is_external p = Raise (OtherError "AttributeError").
Proof.
  unfold is_external.
  destruct (is_nodetool_ai_answers p) as [[b ->] | ->];
    [left; eexists; reflexivity | right; reflexivity].
Qed.

Lemma collect_external_lenient (l : list json) : forall acc,
  Forall (fun p => (exists s, external_repo p = Ret s)) l ->
  exists s : gset string, collect_external l acc = Ret s.
Proof.
  induction l as [|p l IH]; intros acc Hl; [eexists; reflexivity |].
  apply Forall_cons in Hl as [[o Ho] Hl]. cbn [collect_external].
  rewrite Ho. destruct o; apply IH, Hl.
Qed.

(** X26. A package whose [repo_id] is there and is falsy without being a string
    ([null], [false], [0], an empty list or dict) is passed over by
    [get_external_repos], which answers; but both filters of
    [get_packages_by_filter] fail on it with [AttributeError]. *)
Theorem falsy_repo_id_divides_the_getters (registry_path : string)
    (l : list json) (w : W) (nodetool_ai_only : bool)
    (fields : list (string * json)) (v : json) :
  get_all_packages registry_path w = Result (Ret (JArr l)) w [] ->
  In (JObj fields) l ->
  Py.lookup "repo_id" fields = Some v ->
  Py.truthy v = false ->
  (forall s, v <> JStr s) ->
  Forall (fun p => p = JObj fields \/ is_Some (repo_id_of p)) l ->
  outcome_of (get_packages_by_filter registry_path true nodetool_ai_only w)
  = Raise (OtherError "AttributeError")
  /\ outcome_of (get_packages_by_filter registry_path false true w)
     = Raise (OtherError "AttributeError")
  /\ exists s, outcome_of (get_external_repos registry_path w) = Ret s.
Proof.
  intros Hall Hin Hv Hf Hs Hl.
  assert (Ebad : is_nodetool_ai (JObj fields)
                 = Raise (OtherError "AttributeError")).
  { unfold is_nodetool_ai. cbn [Py.get]. rewrite Hv.
    destruct v as [| | |t| |]; try reflexivity. destruct (Hs t eq_refl). }
  unfold get_packages_by_filter, get_external_repos.
  rewrite !(run_bind_silent _ _ w _ Hall). unfold iterate. cbn [py_iter].
  rewrite !(run_bind_silent (mret l) _ w _ eq_refl). unfold lift.
  rewrite (comprehension_raises is_nodetool_ai l (JObj fields)
             is_nodetool_ai_answers Hin Ebad).
  rewrite (comprehension_raises is_external l (JObj fields)
             is_external_answers Hin)
    by (unfold is_external; rewrite Ebad; reflexivity).
  split; [reflexivity |]. split; [reflexivity |].
  destruct (collect_external_lenient l ∅) as (s & ->);
    [| exists s; reflexivity].
  eapply Forall_impl; [exact Hl |]. intros p [-> | [t Ht]].
  - unfold external_repo. cbn [Py.get]. rewrite Hv, Hf.
    eexists; reflexivity.
  - unfold external_repo. unfold repo_id_of in Ht.
    destruct (Py.get p "repo_id" (JStr "")) as [[| | |r| |]|];
      try discriminate Ht.
    cbn [Py.truthy]. destruct (Str.truthy r); eexists; reflexivity.
Qed.
End Getters.

(** ** The package table of the index builder *)

Section Table.
Context {W : Type} `{Platform W} `{Network W} `{Logging W}.

Lemma load_package_pure tables package (w : W) :
  exists o, load_package tables package w = Result o w []
            /\ forall c, o <> Exit c.
Proof.
  unfold load_package. destruct tables as [packages package_filters].
  destruct (Py.get package "repo_id" (JStr "")) as [repo_id|];
    [| eexists; split; [reflexivity | discriminate]].
  destruct (Py.truthy repo_id); [| eexists; split; [reflexivity | discriminate]].
  destruct repo_id as [| | |s| |];
    try (eexists; split; [reflexivity | discriminate]).
  destruct (Str.split "/" s) as [|a [|package_name rest]];
    try (eexists; split; [reflexivity | discriminate]).
  cbv zeta.
  destruct (Py.get package "wheel_filter" JNull) as [wheel_filter|];
    [| eexists; split; [reflexivity | discriminate]].
  destruct (Py.truthy wheel_filter);
    eexists; (split; [reflexivity | discriminate]).
Qed.

Lemma load_package_without_slash tables package s (w : W) :
  repo_id_of package = Some s -> Str.truthy s = true ->
  Str.contains "/" s = false ->
  load_package tables package w
  = Result (Raise (OtherError "IndexError")) w [].
Proof.
  intros Hr Ht Hs. unfold load_package, repo_id_of in *.
  destruct tables as [packages package_filters].
  destruct (Py.get package "repo_id" (JStr "")) as [[| | |r| |]|];
    try discriminate Hr.
  injection Hr as ->. cbn [Py.truthy]. rewrite Ht.
  unfold Str.split.
  rewrite (split_chars_whole "/"%char (Str.chars s)
             (contains_char_false "/"%char s Hs)).
  reflexivity.
Qed.

Lemma for_fold_load_pure (l : list json) : forall tables (w : W),
  exists o, for_fold l tables load_package w = Result o w []
            /\ forall c, o <> Exit c.
Proof.
  induction l as [|package l IH]; intros tables w; cbn [for_fold].
  - eexists. split; [reflexivity | discriminate].
  - destruct (load_package_pure tables package w) as ([t|e|c] & E & N).
    + rewrite (run_bind_silent _ _ w t E). apply IH.
    + rewrite (run_bind_raise _ _ w e w [] E).
      eexists. split; [reflexivity | discriminate].
    + destruct (N c eq_refl).
Qed.

Lemma for_fold_load_fails (l : list json) package s : forall tables (w : W),
  In package l -> repo_id_of package = Some s -> Str.truthy s = true ->
  Str.contains "/" s = false ->
  exists e, for_fold l tables load_package w = Result (Raise e) w [].
Proof.
  induction l as [|p l IH]; intros tables w Hin Hr Ht Hs; [destruct Hin |].
  cbn [for_fold]. destruct Hin as [-> | Hin].
  - rewrite (run_bind_raise _ _ w _ w []
               (load_package_without_slash tables package s w Hr Ht Hs)).
    eexists. reflexivity.
  - destruct (load_package_pure tables p w) as ([t|e|c] & E & N).
    + rewrite (run_bind_silent _ _ w t E). apply IH; assumption.
    + rewrite (run_bind_raise _ _ w e w [] E). eexists. reflexivity.
    + destruct (N c eq_refl).
Qed.

Lemma never_exits_get_all_packages registry_path :
  never_exits (W := W) (get_all_packages registry_path).
Proof.
  unfold get_all_packages, load_registry, read_text.
  no_exit_with ltac:(intros w c; discriminate).
Qed.

(** X27. [_load_packages] never fails, and it loads all or nothing: one package
    whose [repo_id] is a non-empty string without a slash leaves both tables
    empty, whatever the other packages are, with the line that says that the
    loading failed. *)
Theorem load_packages_is_all_or_nothing (registry_path : string) (w : W) :
  (exists tables, outcome_of (_load_packages registry_path w) = Ret tables)
  /\ forall l package s,
       get_all_packages registry_path w = Result (Ret (JArr l)) w [] ->
       In package l ->
       repo_id_of package = Some s ->
       Str.truthy s = true ->
       Str.contains "/" s = false ->
       exists e,
         _load_packages registry_path w
         = Result (Ret ([], [])) w
             [Print ("❌ Failed to load packages from registry: "
                     +:+ exception_text e)].
Proof.
  unfold _load_packages. split.
  - rewrite run_try_except.
    match goal with
    | |- context [outcome_of (?body w)] =>
        assert (N : never_exits body)
    end.
    { apply never_exits_bind; [apply never_exits_get_all_packages |].
      intros packages. apply never_exits_bind.
      { unfold iterate. destruct (py_iter packages); intros w' c; discriminate. }
      intros l. apply never_exits_bind.
      { intros w' c E.
        destruct (for_fold_load_pure l ([], []) w') as (o & Eo & No).
        rewrite Eo in E. exact (No c E). }
      intros tables. apply never_exits_bind; [apply never_exits_print |].
      intros _. apply never_exits_ret. }
    specialize (N w).
    match goal with
    | |- context [outcome_of (?body w)] =>
        destruct (outcome_of (body w)) as [tables|e|c] eqn:E
    end.
    + rewrite E. eexists. reflexivity.
    + eexists. reflexivity.
    + destruct (N c eq_refl).
  - intros l package s Hall Hin Hr Ht Hs.
    destruct (for_fold_load_fails l package s ([], []) w Hin Hr Ht Hs)
      as (e & Ee).
    exists e. unfold try_except.
    rewrite (run_bind_silent _ _ w _ Hall). unfold iterate. cbn [py_iter].
    rewrite (run_bind_silent (mret l) _ w _ eq_refl).
    rewrite (run_bind_raise _ _ w e w [] Ee). reflexivity.
Qed.
End Table.

(** ** The getters in the simulated world *)

Section SimulatedRegistries.
Import Sim Scenario Registries.

Lemma registry_getters_divide_the_packages_witness :
  outcome_of (get_external_repos "index.json"
                (with_file "index.json" three_packages))
  = Ret {[ "someone/nodetool-extra" ]}
  /\ divided [base; extra; local]
       (outcome_of (get_packages_by_filter "index.json" true false
                      (with_file "index.json" three_packages)))
       (outcome_of (get_packages_by_filter "index.json" false true
                      (with_file "index.json" three_packages)))
       (outcome_of (get_packages_by_filter "index.json" false false
                      (with_file "index.json" three_packages)))
       (outcome_of (get_external_repos "index.json"
                      (with_file "index.json" three_packages))).
Proof.
  split; [vm_compute; reflexivity |].
  apply (registry_getters_divide_the_packages (W := world) "index.json"
           [base; extra; local] (with_file "index.json" three_packages) false).
  - vm_compute. reflexivity.
  - repeat constructor; vm_compute; eexists; reflexivity.
Defined.

Lemma falsy_repo_id_divides_the_getters_witness :
  outcome_of (get_packages_by_filter "index.json" true false
                (with_file "index.json" with_null))
  = Raise (OtherError "AttributeError")
  /\ outcome_of (get_packages_by_filter "index.json" false true
                   (with_file "index.json" with_null))
     = Raise (OtherError "AttributeError")
  /\ exists s, outcome_of (get_external_repos "index.json"
                             (with_file "index.json" with_null)) = Ret s.
Proof.
  apply (falsy_repo_id_divides_the_getters (W := world) "index.json"
           [extra; JObj [("repo_id", JNull)]]
           (with_file "index.json" with_null) false
           [("repo_id", JNull)] JNull).
  - vm_compute. reflexivity.
  - right. left. reflexivity.
  - reflexivity.
  - reflexivity.
  - discriminate.
  - constructor; [right; vm_compute; eexists; reflexivity |].
    constructor; [left; reflexivity | constructor].
Defined.

Lemma load_packages_is_all_or_nothing_witness :
  _load_packages "index.json" (with_file "index.json" with_bare_name)
  = Result (Ret ([], [])) (with_file "index.json" with_bare_name)
      [Print ("❌ Failed to load packages from registry: " +:+ "error")]
  /\ outcome_of (_load_packages "index.json"
                   (with_file "index.json" three_packages))
     = Ret ([("nodetool-base", "nodetool-ai/nodetool-base");
             ("nodetool-extra", "someone/nodetool-extra")], []).
Proof.
  split; [| vm_compute; reflexivity].
  destruct (proj2 (load_packages_is_all_or_nothing (W := world) "index.json"
                     (with_file "index.json" with_bare_name))
              [extra; JObj [("repo_id", JStr "nodetool-base")]]
              (JObj [("repo_id", JStr "nodetool-base")]) "nodetool-base")
    as (e & ->).
  - vm_compute. reflexivity.
  - right. left. reflexivity.
  - reflexivity.
  - reflexivity.
  - vm_compute. reflexivity.
  - reflexivity.
Defined.
End SimulatedRegistries.

(** ** The update of a package *)

Section Update.
Context {W : Type} `{Platform W} `{Logging W}.

Lemma set_item_same k v l :
  Py.lookup k l = Some v -> Py.set_item k v l = l.
Proof.
  induction l as [|[k' v'] l IH]; cbn; [discriminate |].
  destruct (k' =s? k); [intros [= ->]; reflexivity |].
  intros E. rewrite (IH E). reflexivity.
Qed.

Lemma refresh_spec repo_id release fields (w : W) fields' updated :
  outcome_of (refresh repo_id release fields w) = Ret (fields', updated) ->
  (updated = false -> fields' = fields)
  /\ forall k, k <> "version" -> k <> "updated_at" ->
               Py.lookup k fields' = Py.lookup k fields.
Proof.
  unfold refresh.
  destruct (Py.get release "tag_name" (JStr "")) as [tag_name|];
    [| discriminate].
  cbv zeta. rewrite run_bind.
  destruct (Py.truthy tag_name && negb (py_eq tag_name _)).
  - rewrite run_bind. cbn [log outcome_of world_of mret M_ret].
    destruct (Py.get release "published_at" (JStr "")) as [published_at|];
      [| discriminate].
    destruct (Py.truthy published_at); cbn; intros [= <- <-].
    + split; [discriminate |]. intros k N1 N2.
      rewrite !lookup_set_item_ne by assumption. reflexivity.
    + split; [discriminate |]. intros k N1 N2.
      rewrite !lookup_set_item_ne by assumption. reflexivity.
  - cbn [outcome_of world_of mret M_ret].
    destruct (Py.get release "published_at" (JStr "")) as [published_at|];
      [| discriminate].
    destruct (Py.truthy published_at); cbn; intros [= <- <-].
    + split; [discriminate |]. intros k N1 N2.
      rewrite !lookup_set_item_ne by assumption. reflexivity.
    + split; [reflexivity |]. intros k N1 N2. reflexivity.
Qed.

Lemma update_first_spec repo_id release (l : list json) :
  forall (w : W) l' updated,
    outcome_of (update_first repo_id release l w) = Ret (l', updated) ->
    (updated = false -> l' = l)
    /\ (l' = l /\ updated = false
           /\ Forall (fun p => has_repo_id repo_id p = false) l
        \/ exists before package package' after,
             l = before ++ package :: after
             /\ l' = before ++ package' :: after
             /\ Forall (fun p => has_repo_id repo_id p = false) before
             /\ has_repo_id repo_id package = true
             /\ refreshed package package').
Proof.
  induction l as [|package rest IH]; intros w l' updated; cbn [update_first].
  - intros [= <- <-]. split; [reflexivity |]. left. repeat split. constructor.
  - destruct package as [| | | | |fields]; try discriminate.
    destruct (match Py.lookup "repo_id" fields with
              | Some v => Py.eq_str v repo_id
              | None => false
              end) eqn:Em.
    + rewrite run_bind.
      destruct (outcome_of (refresh repo_id release fields w))
        as [[fields' u]| |] eqn:Er; try discriminate.
      cbn. intros [= <- <-].
      destruct (refresh_spec _ _ _ _ _ _ Er) as [Hsame Hkeys].
      split; [intros ->; rewrite (Hsame eq_refl); reflexivity |].
      right. exists [], (JObj fields), (JObj fields'), rest.
      repeat split; [constructor | exact Em |].
      exists fields, fields'. repeat split. exact Hkeys.
    + rewrite run_bind.
      destruct (outcome_of (update_first repo_id release rest w))
        as [[rest' u]| |] eqn:Er; try discriminate.
      cbn. intros [= <- <-].
      destruct (IH _ _ _ Er) as [Hsame Hcases].
      split; [intros ->; rewrite (Hsame eq_refl); reflexivity |].
      destruct Hcases as [(-> & -> & Hall)
                         | (before & p & p' & after & -> & -> & Hb & Hp & Hr)].
      * left. repeat split. constructor; [exact Em | exact Hall].
      * right. exists (JObj fields :: before), p, p', after.
        repeat split; try assumption. constructor; [exact Em | exact Hb].
Qed.

(** X28. [update_package_info] on a registry whose [packages] are a list.  When
    it answers [False] the registry is as it was.  In any case it has changed
    at most one package, the first whose [repo_id] is the identifier, and of
    this package at most the [version] and the [updated_at]; every other
    package, the order of the packages and every other key of the registry
    are as they were. *)
Theorem update_package_info_refreshes_first_match (top : list (string * json))
    (l : list json) (repo_id : string) (release : json) (w : W)
    (registry' : json) (updated : bool) :
  Py.lookup "packages" top = Some (JArr l) ->
  outcome_of (update_package_info (JObj top) repo_id release w)
  = Ret (registry', updated) ->
  (updated = false -> registry' = JObj top)
  /\ exists l',
       registry' = JObj (Py.set_item "packages" (JArr l') top)
       /\ (l' = l /\ updated = false
              /\ Forall (fun p => has_repo_id repo_id p = false) l
           \/ exists before package package' after,
                l = before ++ package :: after
                /\ l' = before ++ package' :: after
                /\ Forall (fun p => has_repo_id repo_id p = false) before
                /\ has_repo_id repo_id package = true
                /\ refreshed package package').
Proof.
  intros Hl. unfold update_package_info. rewrite Hl, run_bind.
  destruct (outcome_of (update_first repo_id release l w))
    as [[l' u]| |] eqn:E; try discriminate.
  cbn. intros [= <- <-].
  destruct (update_first_spec _ _ _ _ _ _ E) as [Hsame Hcases].
  split.
  - intros ->. rewrite (Hsame eq_refl), (set_item_same _ _ _ Hl). reflexivity.
  - exists l'. split; [reflexivity | exact Hcases].
Qed.
End Update.

(** ** The update in the simulated world *)

Section SimulatedUpdate.
Import Sim Scenario Registries.

Lemma update_package_info_refreshes_first_match_witness :
  let top := [("packages", JArr [base; extra; local])] in
  let extra' :=
    JObj [("name", JStr "Extra"); ("repo_id", JStr "someone/nodetool-extra");
          ("version", JStr "v1.2.0");
          ("updated_at", JStr "2025-02-01T00:00:00Z")] in
  outcome_of (update_package_info (JObj top) "someone/nodetool-extra"
                latest_release Sim.empty)
  = Ret (JObj [("packages", JArr [base; extra'; local])], true)
  /\ exists l',
       JObj [("packages", JArr [base; extra'; local])]
       = JObj (Py.set_item "packages" (JArr l') top)
       /\ (l' = [base; extra; local] /\ true = false
              /\ Forall (fun p => has_repo_id "someone/nodetool-extra" p = false)
                   [base; extra; local]
           \/ exists before package package' after,
                [base; extra; local] = before ++ package :: after
                /\ l' = before ++ package' :: after
                /\ Forall
                     (fun p => has_repo_id "someone/nodetool-extra" p = false)
                     before
                /\ has_repo_id "someone/nodetool-extra" package = true
                /\ refreshed package package').
Proof.
  cbv zeta. split; [vm_compute; reflexivity |].
  apply (update_package_info_refreshes_first_match (W := world)
           [("packages", JArr [base; extra; local])] [base; extra; local]
           "someone/nodetool-extra" latest_release Sim.empty _ true).
  - reflexivity.
  - vm_compute. reflexivity.
Defined.
End SimulatedUpdate.
